(** * FA-5 / FA-6GP monitor and control: protocol decoder, settings tracker,
    command queue and measurement log

    A shallow embedding of [fa5usbdata.py] and of the command queue, the
    worker thread and the slot for received lines of [ui_main.py], with
    the properties of the design document stated and settled against it,
    and further properties of the code after them.

    Conventions of the embedding.
    - A Python [str] is a Rocq [string]; a character is a code point below
      256.
    - A Python exception is a value [Raise e] of [result]; code that
      mutates an object and then raises leaves the mutation in place, so
      stateful code is a function [World -> World * result A].
    - A Python [float] is a binary64 value, a [spec_float] of the Standard
      Library with precision 53 and maximal exponent 1024; all operations
      round to nearest, ties to even.
    - A [decimal.Decimal] is a sign, a coefficient and an exponent, or an
      infinity, or a NaN; the arithmetic is that of the default context
      (28 digits, half-even, exponents within +-999999, traps on invalid
      operation, division by zero and overflow), as the comment in
      [MeasureLog.add_string] records it.
    - [time.time()] reads a clock that is part of the world.  Of
      [math.log10] in [get_freq_difference] the conversion of the decimal
      to a float, the domain and, with [math.floor], the floor are
      modelled; the [log10] of the C library on a positive float is a
      parameter, and so are [statistics.stdev] and the rounding of a float
      to digits; the texts of the values of an export row are given.
    - The serial port is the run of what the loop of [read_line] finds at
      it; the window may clear the flag of the worker while it runs, and
      the worker sees that where its loop tests the flag.  Of the window,
      the queue, the port and the buttons that [update_gui_settings] sets
      are kept, the labels of the measurement are not. *)

From Stdlib Require Import ZArith NArith PArith List String Ascii Bool Lia.
From Stdlib Require Import DecimalString DecimalPos DecimalN.
From Stdlib Require Import Floats.SpecFloat.
Import ListNotations.

Open Scope string_scope.
Open Scope Z_scope.

(* ===================================================================== *)
(** * Exceptions *)

Inductive exn : Type :=
| ValueError
| OverflowError
| InvalidOperation
| DivisionByZero
| DecimalOverflow.

Inductive result (A : Type) : Type :=
| Ok (a : A)
| Raise (e : exn).

Arguments Ok {A} a.
Arguments Raise {A} e.

Definition rbind {A B : Type} (r : result A) (k : A -> result B) : result B :=
  match r with
  | Ok a => k a
  | Raise e => Raise e
  end.

Declare Scope result_scope.
Delimit Scope result_scope with result.
Notation "x <- c ;; k" := (rbind c (fun x => k))
  (at level 61, c at next level, right associativity) : result_scope.
Notation "' p <- c ;; k" := (rbind c (fun x => let 'p := x in k))
  (at level 61, p pattern, c at next level, right associativity) : result_scope.

Definition is_ok {A : Type} (r : result A) : bool :=
  match r with Ok _ => true | Raise _ => false end.

(* ===================================================================== *)
(** * Python strings *)

Module PyStr.

(** [str.isspace] on one character, for code points below 256. *)
Definition isspace (c : ascii) : bool :=
  let n := N_of_ascii c in
  ((9 <=? n) && (n <=? 13) || (28 <=? n) && (n <=? 32)
   || (n =? 133) || (n =? 160))%N.

Definition isdigit (c : ascii) : bool :=
  let n := N_of_ascii c in ((48 <=? n) && (n <=? 57))%N.

Definition is_empty (s : string) : bool :=
  match s with EmptyString => true | String _ _ => false end.

Fixpoint lstrip (s : string) : string :=
  match s with
  | EmptyString => EmptyString
  | String c r => if isspace c then lstrip r else s
  end.

Fixpoint rstrip (s : string) : string :=
  match s with
  | EmptyString => EmptyString
  | String c r =>
      let r' := rstrip r in
      if is_empty r' && isspace c then EmptyString else String c r'
  end.

(** [s.strip()] *)
Definition strip (s : string) : string := rstrip (lstrip s).

(** [sub in s] *)
Fixpoint contains (sub s : string) : bool :=
  match s with
  | EmptyString => is_empty sub
  | String _ r => prefix sub s || contains sub r
  end.

(** [s.split(sep)] for a separator of one character. *)
Fixpoint split (sep : ascii) (s : string) : list string :=
  match s with
  | EmptyString => [EmptyString]
  | String c r =>
      match split sep r with
      | [] => [EmptyString]
      | h :: t => if Ascii.eqb c sep then EmptyString :: h :: t
                  else String c h :: t
      end
  end.

(** An index of a slice, brought into [0, n] the way Python does it. *)
Definition clamp_index (n i : Z) : Z :=
  if i <? 0 then Z.max (i + n) 0 else Z.min i n.

(** [s[lo:hi]]; [None] is an omitted bound. *)
Definition slice (lo hi : option Z) (s : string) : string :=
  let n := Z.of_nat (String.length s) in
  let a := match lo with Some i => clamp_index n i | None => 0 end in
  let b := match hi with Some i => clamp_index n i | None => n end in
  substring (Z.to_nat a) (Z.to_nat (b - a)) s.

Fixpoint rev_onto (acc s : string) : string :=
  match s with
  | EmptyString => acc
  | String c r => rev_onto (String c acc) r
  end.

(** [s[::-1]] *)
Definition reversed (s : string) : string := rev_onto EmptyString s.

Fixpoint repeat_char (c : ascii) (n : nat) : string :=
  match n with
  | O => EmptyString
  | S k => String c (repeat_char c k)
  end.

(** [s.zfill(width)]: zeros go after a leading sign. *)
Definition zfill (width : nat) (s : string) : string :=
  let fill := repeat_char "0"%char (width - String.length s) in
  match s with
  | String c r =>
      if Ascii.eqb c "+"%char || Ascii.eqb c "-"%char
      then String c (fill ++ r)
      else fill ++ s
  | EmptyString => fill
  end.

Definition str_of_N (n : N) : string :=
  NilEmpty.string_of_uint (N.to_uint n).

(** [str(i)] for an [int]. *)
Definition str_of_Z (z : Z) : string :=
  match z with
  | Z0 => "0"
  | Zpos p => str_of_N (Npos p)
  | Zneg p => "-" ++ str_of_N (Npos p)
  end.

(** [sep.join(l)] *)
Definition join (sep : string) (l : list string) : string :=
  String.concat sep l.

(** [s.replace(old, new)] for [old] of one character. *)
Fixpoint replace_char (old : ascii) (new : string) (s : string) : string :=
  match s with
  | EmptyString => EmptyString
  | String c r =>
      if Ascii.eqb c old then new ++ replace_char old new r
      else String c (replace_char old new r)
  end.

Definition lower (c : ascii) : ascii :=
  let n := N_of_ascii c in
  if ((65 <=? n) && (n <=? 90))%N then ascii_of_N (n + 32) else c.

Fixpoint lowered (s : string) : string :=
  match s with
  | EmptyString => EmptyString
  | String c r => String (lower c) (lowered r)
  end.

End PyStr.

(* ===================================================================== *)
(** * Numerals in text: what [int], [float] and [Decimal] read *)

Module Numeral.
Import PyStr.

(** The white space that [int] and [float] skip at the two ends of a
    text: that of C below 128 and that of Unicode from 128 on, so not the
    separators 28 to 31, which [str.strip] removes. *)
Definition numeric_space (c : ascii) : bool :=
  let n := N_of_ascii c in
  ((9 <=? n) && (n <=? 13) || (n =? 32) || (n =? 133) || (n =? 160))%N.

Fixpoint lstrip_numeric (s : string) : string :=
  match s with
  | EmptyString => EmptyString
  | String c r => if numeric_space c then lstrip_numeric r else s
  end.

Fixpoint rstrip_numeric (s : string) : string :=
  match s with
  | EmptyString => EmptyString
  | String c r =>
      let r' := rstrip_numeric r in
      if is_empty r' && numeric_space c then EmptyString else String c r'
  end.

Definition strip_numeric (s : string) : string :=
  rstrip_numeric (lstrip_numeric s).

(** The longest prefix of digits, and what follows it. *)
Fixpoint span_digits (s : string) : string * string :=
  match s with
  | EmptyString => (EmptyString, EmptyString)
  | String c r =>
      if isdigit c then let '(d, rest) := span_digits r in (String c d, rest)
      else (EmptyString, s)
  end.

Fixpoint N_of_digits_from (acc : N) (s : string) : N :=
  match s with
  | EmptyString => acc
  | String c r => N_of_digits_from (acc * 10 + (N_of_ascii c - 48))%N r
  end.

Definition N_of_digits (s : string) : N := N_of_digits_from 0%N s.

(** An optional sign; [true] is minus. *)
Definition take_sign (s : string) : bool * string :=
  match s with
  | String c r =>
      if Ascii.eqb c "-"%char then (true, r)
      else if Ascii.eqb c "+"%char then (false, r)
      else (false, s)
  | EmptyString => (false, s)
  end.

(** The rule of [int] and [float] for digit separators: an underscore
    stands between two digits.  [prev] is the character before [s]. *)
Fixpoint drop_underscores_from (prev : ascii) (s : string) : option string :=
  match s with
  | EmptyString =>
      if Ascii.eqb prev "_"%char then None else Some EmptyString
  | String c r =>
      if Ascii.eqb c "_"%char then
        if isdigit prev then drop_underscores_from c r else None
      else if Ascii.eqb prev "_"%char && negb (isdigit c) then None
      else option_map (String c) (drop_underscores_from c r)
  end.

Definition drop_underscores (s : string) : option string :=
  drop_underscores_from zero s.

(** An exponent part: empty, or [e] or [E], a sign and digits. *)
Definition exponent_part (s : string) : option Z :=
  match s with
  | EmptyString => Some 0
  | String c r =>
      if Ascii.eqb (lower c) "e"%char then
        let '(neg, r1) := take_sign r in
        let '(ds, r2) := span_digits r1 in
        if is_empty ds || negb (is_empty r2) then None
        else Some (if neg then - Z.of_N (N_of_digits ds)
                   else Z.of_N (N_of_digits ds))
      else None
  end.

(** A decimal numeral without sign: digits, an optional point and
    digits, an optional exponent; at least one digit before the
    exponent.  The value is [coefficient * 10 ^ exponent]. *)
Definition unsigned_decimal (s : string) : option (N * Z) :=
  let '(ip, r1) := span_digits s in
  let '(fp, r2) :=
    match r1 with
    | String c r =>
        if Ascii.eqb c "."%char then span_digits r else (EmptyString, r1)
    | EmptyString => (EmptyString, r1)
    end in
  if is_empty ip && is_empty fp then None
  else
    match exponent_part r2 with
    | Some e =>
        Some (N_of_digits (ip ++ fp), e - Z.of_nat (String.length fp))
    | None => None
    end.

(** [int(s)] in base ten. *)
Definition int_of_str (s : string) : result Z :=
  match drop_underscores (strip_numeric s) with
  | None => Raise ValueError
  | Some t =>
      let '(neg, r) := take_sign t in
      let '(ds, rest) := span_digits r in
      if is_empty ds || negb (is_empty rest) then Raise ValueError
      else Ok (if neg then - Z.of_N (N_of_digits ds)
               else Z.of_N (N_of_digits ds))
  end.

End Numeral.

(* ===================================================================== *)
(** * Python floats *)

Module PyFloat.

Definition prec : Z := 53.
Definition emax : Z := 1024.

Definition float : Type := spec_float.

Definition mul (x y : float) : float := SFmul prec emax x y.
Definition sub (x y : float) : float := SFsub prec emax x y.

(** The float nearest to [(-1)^neg * m * 10^e]. *)
Definition of_decimal (neg : bool) (m : N) (e : Z) : float :=
  match m with
  | N0 => S754_zero neg
  | Npos p =>
      match e with
      | Zneg k =>
          SFdiv prec emax (S754_finite neg p 0)
                (S754_finite false (Pos.pow 10 k) 0)
      | _ => binary_round prec emax neg (p * Z.to_pos (10 ^ e))%positive 0
      end
  end.

(** [float(i)] for an [int]. *)
Definition of_int (z : Z) : result float :=
  match binary_normalize prec emax z 0 false with
  | S754_infinity _ => Raise OverflowError
  | x => Ok x
  end.

(** [float(s)] for a [str]. *)
Definition of_str (s : string) : result float :=
  match Numeral.drop_underscores s with
  | None => Raise ValueError
  | Some t =>
      let '(neg, r) := Numeral.take_sign (Numeral.strip_numeric t) in
      match Numeral.unsigned_decimal r with
      | Some (m, e) => Ok (of_decimal neg m e)
      | None =>
          let name := PyStr.lowered r in
          if String.eqb name "inf" || String.eqb name "infinity"
          then Ok (S754_infinity neg)
          else if String.eqb name "nan" then Ok S754_nan
          else Raise ValueError
      end
  end.

(** [int(x)]: towards zero. *)
Definition to_int (x : float) : result Z :=
  match x with
  | S754_zero _ => Ok 0
  | S754_infinity _ => Raise OverflowError
  | S754_nan => Raise ValueError
  | S754_finite neg m e =>
      let a := match e with
               | Zneg k => Zpos m / Zpos (Pos.pow 2 k)
               | _ => Zpos m * 2 ^ e
               end in
      Ok (if neg then - a else a)
  end.

End PyFloat.

(* ===================================================================== *)
(** * Commands *)

Open Scope result_scope.

(** [make_gate_time_command]: the argument is the text before [" sec."] of
    the gate time chosen in the window, so a number of seconds. *)
Definition make_gate_time_command (gatetime : string) : result string :=
  x <- PyFloat.of_str gatetime ;;
  thousand <- PyFloat.of_int 1000 ;;
  n <- PyFloat.to_int (PyFloat.mul x thousand) ;;
  let gatetimestr := PyStr.zfill 5 (PyStr.str_of_Z n) in
  let commandstr := "$A" ++ gatetimestr ++ "*" in
  Ok commandstr.

(* ===================================================================== *)
(** * Python decimals

    The arithmetic of [decimal.Decimal] in the default context, after the
    reference implementation of the module.  A result that the context
    cannot hold, or an operation it traps, raises. *)

Module PyDecimal.

Definition prec : Z := 28.
Definition Emax : Z := 999999.
Definition Emin : Z := -999999.
Definition Etiny : Z := Emin - prec + 1.
Definition Etop : Z := Emax - prec + 1.

(** [Finite s c e] is [(-1)^s * c * 10^e]; the payload of a NaN is its
    diagnostic number, [0] when it has none. *)
Inductive Decimal : Type :=
| Finite (sign : bool) (coeff : N) (exp : Z)
| Infinity (sign : bool)
| NaN (sign : bool) (signaling : bool) (payload : N).

Definition pow10 (k : Z) : N := (10 ^ Z.to_N k)%N.

(** [len(self._int)] *)
Definition ndigits (c : N) : Z := Z.of_nat (String.length (PyStr.str_of_N c)).

Definition adjusted (c : N) (e : Z) : Z := e + ndigits c - 1.

(** [bool(d)] is false for the zeros only. *)
Definition is_zero (d : Decimal) : bool :=
  match d with Finite _ N0 _ => true | _ => false end.

Definition of_int (z : Z) : Decimal := Finite (z <? 0) (Z.abs_N z) 0.

Definition copy_negate (d : Decimal) : Decimal :=
  match d with
  | Finite s c e => Finite (negb s) c e
  | Infinity s => Infinity (negb s)
  | NaN s g p => NaN (negb s) g p
  end.

Definition copy_abs (d : Decimal) : Decimal :=
  match d with
  | Finite _ c e => Finite false c e
  | Infinity _ => Infinity false
  | NaN _ g p => NaN false g p
  end.

(** [c / 10^k] rounded to nearest, ties to even. *)
Definition round_half_even (c : N) (k : Z) : N :=
  let p := pow10 k in
  let q := (c / p)%N in
  let r := (c mod p)%N in
  match (2 * r ?= p)%N with
  | Lt => q
  | Gt => (q + 1)%N
  | Eq => if N.even q then q else (q + 1)%N
  end.

Definition fix_nan (s g : bool) (p : N) : Decimal :=
  NaN s g (p mod pow10 prec)%N.

(** [_fix]: round to the precision and the exponent range of the
    context. *)
Definition fix_context (d : Decimal) : result Decimal :=
  match d with
  | NaN s g p => Ok (fix_nan s g p)
  | Infinity _ => Ok d
  | Finite s N0 e => Ok (Finite s 0 (Z.min (Z.max e Etiny) Emax))
  | Finite s c e =>
      let exp_min := ndigits c + e - prec in
      if exp_min >? Etop then Raise DecimalOverflow
      else
        let exp_min := Z.max exp_min Etiny in
        if e <? exp_min then
          let coeff := round_half_even c (exp_min - e) in
          let '(coeff, exp_min) :=
            if ndigits coeff >? prec then ((coeff / 10)%N, exp_min + 1)
            else (coeff, exp_min) in
          if exp_min >? Etop then Raise DecimalOverflow
          else Ok (Finite s coeff exp_min)
        else Ok d
  end.

(** [_check_nans]: [Some r] when an operand is a NaN. *)
Definition check_nans (a b : Decimal) : option (result Decimal) :=
  match a, b with
  | NaN _ true _, _ => Some (Raise InvalidOperation)
  | _, NaN _ true _ => Some (Raise InvalidOperation)
  | NaN s g p, _ => Some (Ok (fix_nan s g p))
  | _, NaN s g p => Some (Ok (fix_nan s g p))
  | _, _ => None
  end.

(** The value of a finite decimal in units of [10^e], for [e] not above
    its exponent. *)
Definition units (s : bool) (c : N) (e0 e : Z) : Z :=
  let v := Z.of_N (c * pow10 (e0 - e)) in if s then - v else v.

(** [a + b] *)
Definition add (a b : Decimal) : result Decimal :=
  match check_nans a b with
  | Some r => r
  | None =>
      match a, b with
      | Infinity sa, Infinity sb =>
          if Bool.eqb sa sb then Ok a else Raise InvalidOperation
      | Infinity _, _ => Ok a
      | _, Infinity _ => Ok b
      | Finite sa ca ea, Finite sb cb eb =>
          let exp := Z.min ea eb in
          match ca, cb with
          | N0, N0 => fix_context (Finite (sa && sb) 0 exp)
          | N0, _ =>
              let exp := Z.max exp (eb - prec - 1) in
              fix_context (Finite sb (cb * pow10 (eb - exp)) exp)
          | _, N0 =>
              let exp := Z.max exp (ea - prec - 1) in
              fix_context (Finite sa (ca * pow10 (ea - exp)) exp)
          | _, _ =>
              let v := units sa ca ea exp + units sb cb eb exp in
              fix_context (Finite (v <? 0) (Z.abs_N v) exp)
          end
      | _, _ => Raise InvalidOperation
      end
  end.

(** [a - b] *)
Definition sub (a b : Decimal) : result Decimal :=
  match check_nans a b with
  | Some r => r
  | None => add a (copy_negate b)
  end.

(** [a * b] *)
Definition mul (a b : Decimal) : result Decimal :=
  match check_nans a b with
  | Some r => r
  | None =>
      match a, b with
      | Infinity sa, Infinity sb => Ok (Infinity (xorb sa sb))
      | Infinity sa, Finite sb cb _ =>
          if (cb =? 0)%N then Raise InvalidOperation
          else Ok (Infinity (xorb sa sb))
      | Finite sa ca _, Infinity sb =>
          if (ca =? 0)%N then Raise InvalidOperation
          else Ok (Infinity (xorb sa sb))
      | Finite sa ca ea, Finite sb cb eb =>
          fix_context (Finite (xorb sa sb) (ca * cb) (ea + eb))
      | _, _ => Raise InvalidOperation
      end
  end.

(** An exact quotient is brought as near to the ideal exponent as its
    trailing zeros allow. *)
Fixpoint strip_zeros (fuel : nat) (coeff : N) (exp : Z) : N * Z :=
  match fuel with
  | O => (coeff, exp)
  | S f =>
      if (coeff mod 10 =? 0)%N then strip_zeros f (coeff / 10)%N (exp + 1)
      else (coeff, exp)
  end.

(** [a / b] *)
Definition div (a b : Decimal) : result Decimal :=
  match check_nans a b with
  | Some r => r
  | None =>
      match a, b with
      | Infinity _, Infinity _ => Raise InvalidOperation
      | Infinity sa, Finite sb _ _ => Ok (Infinity (xorb sa sb))
      | Finite sa _ _, Infinity sb => Ok (Finite (xorb sa sb) 0 Etiny)
      | Finite sa ca ea, Finite sb cb eb =>
          let sign := xorb sa sb in
          match cb, ca with
          | N0, N0 => Raise InvalidOperation
          | N0, _ => Raise DivisionByZero
          | _, N0 => fix_context (Finite sign 0 (ea - eb))
          | _, _ =>
              let shift := ndigits cb - ndigits ca + prec + 1 in
              let exp := ea - eb - shift in
              let '(n, d) :=
                if 0 <=? shift then ((ca * pow10 shift)%N, cb)
                else (ca, (cb * pow10 (- shift))%N) in
              let coeff := (n / d)%N in
              let remainder := (n mod d)%N in
              if (remainder =? 0)%N then
                let '(coeff, exp) :=
                  strip_zeros (Z.to_nat (ea - eb - exp)) coeff exp in
                fix_context (Finite sign coeff exp)
              else
                let coeff :=
                  if (coeff mod 5 =? 0)%N then (coeff + 1)%N else coeff in
                fix_context (Finite sign coeff exp)
          end
      | _, _ => Raise InvalidOperation
      end
  end.

(** [abs(d)] *)
Definition abs (d : Decimal) : result Decimal :=
  match d with
  | NaN _ true _ => Raise InvalidOperation
  | NaN s g p => Ok (fix_nan s g p)
  | _ => fix_context (copy_abs d)
  end.

(** [_cmp] of two decimals that are not NaN. *)
Definition cmp (a b : Decimal) : comparison :=
  let inf d := match d with
               | Infinity true => -1 | Infinity false => 1 | _ => 0
               end in
  match a, b with
  | Finite sa ca ea, Finite sb cb eb =>
      let pos (s : bool) := if s then Lt else Gt in
      let neg (s : bool) := if s then Gt else Lt in
      match ca, cb with
      | N0, N0 => Eq
      | N0, _ => neg sb
      | _, N0 => pos sa
      | _, _ =>
          if negb (Bool.eqb sa sb) then pos sa
          else
            match adjusted ca ea ?= adjusted cb eb with
            | Eq =>
                match (ca * pow10 (ea - eb) ?= cb * pow10 (eb - ea))%N with
                | Eq => Eq
                | Lt => neg sa
                | Gt => pos sa
                end
            | Gt => pos sa
            | Lt => neg sa
            end
      end
  | _, _ => inf a ?= inf b
  end.

Definition is_nan (d : Decimal) : bool :=
  match d with NaN _ _ _ => true | _ => false end.

Definition is_snan (d : Decimal) : bool :=
  match d with NaN _ true _ => true | _ => false end.

(** [a == b] *)
Definition eq (a b : Decimal) : result bool :=
  if is_snan a || is_snan b then Raise InvalidOperation
  else if is_nan a || is_nan b then Ok false
  else Ok (match cmp a b with Eq => true | _ => false end).

(** [a != b] *)
Definition ne (a b : Decimal) : result bool :=
  r <- eq a b ;; Ok (negb r).

(** [a > b] *)
Definition gt (a b : Decimal) : result bool :=
  if is_nan a || is_nan b then Raise InvalidOperation
  else Ok (match cmp a b with Gt => true | _ => false end).

(** [round(d, n)], which is [d.quantize(Decimal((0, (1,), -n)))]. *)
Definition round (d : Decimal) (n : Z) : result Decimal :=
  let exp := - n in
  match d with
  | NaN _ true _ => Raise InvalidOperation
  | NaN s g p => Ok (fix_nan s g p)
  | Infinity _ => Raise InvalidOperation
  | Finite s c e =>
      if negb ((Etiny <=? exp) && (exp <=? Emax)) then Raise InvalidOperation
      else
        match c with
        | N0 => fix_context (Finite s 0 exp)
        | _ =>
            if adjusted c e >? Emax then Raise InvalidOperation
            else if adjusted c e - exp + 1 >? prec then Raise InvalidOperation
            else
              let coeff :=
                if exp <=? e then (c * pow10 (e - exp))%N
                else round_half_even c (exp - e) in
              if negb (coeff =? 0)%N && (adjusted coeff exp >? Emax)
              then Raise InvalidOperation
              else if ndigits coeff >? prec then Raise InvalidOperation
              else fix_context (Finite s coeff exp)
        end
  end.

(** The widest exponents of the C implementation on a 64 bit machine,
    [decimal.MAX_EMAX] and [decimal.MIN_ETINY]. *)
Definition MAX_EMAX : Z := 999999999999999999.
Definition MIN_ETINY : Z := -1999999999999999997.

(** A finite decimal that the constructor takes as it is written: one
    that the widest context neither rounds nor clamps. *)
Definition representable (c : N) (e : Z) : bool :=
  (MIN_ETINY <=? e)
  && (if (c =? 0)%N then e <=? MAX_EMAX else adjusted c e <=? MAX_EMAX).

(** [Decimal(s)] for a [str]: blanks at both ends and all underscores
    are dropped, capitals do not matter; a number whose exponent is out
    of the widest range is refused as a malformed text is. *)
Definition of_str (s : string) : result Decimal :=
  let t := PyStr.replace_char "_"%char "" (PyStr.strip s) in
  let '(neg, r) := Numeral.take_sign t in
  match Numeral.unsigned_decimal r with
  | Some (c, e) =>
      if representable c e then Ok (Finite neg c e)
      else Raise InvalidOperation
  | None =>
      let name := PyStr.lowered r in
      if String.eqb name "inf" || String.eqb name "infinity"
      then Ok (Infinity neg)
      else
        let '(g, rest) :=
          match name with
          | String "s"%char rest => (true, rest)
          | _ => (false, name)
          end in
        if prefix "nan" rest then
          let '(ds, tail) := Numeral.span_digits (PyStr.slice (Some 3) None rest) in
          if PyStr.is_empty tail then Ok (NaN neg g (Numeral.N_of_digits ds))
          else Raise InvalidOperation
        else Raise InvalidOperation
  end.

(** The exponent of a scientific string, ["%+d"]. *)
Definition signed_str (z : Z) : string :=
  if z <? 0 then PyStr.str_of_Z z else "+" ++ PyStr.str_of_Z z.

(** [str(d)] *)
Definition to_str (d : Decimal) : string :=
  match d with
  | Infinity s => (if s then "-" else "") ++ "Infinity"
  | NaN s g p =>
      (if s then "-" else "") ++ (if g then "sNaN" else "NaN")
      ++ (if (p =? 0)%N then "" else PyStr.str_of_N p)
  | Finite s c e =>
      let digits := PyStr.str_of_N c in
      let len := Z.of_nat (String.length digits) in
      let leftdigits := e + len in
      let dotplace :=
        if (e <=? 0) && (-6 <? leftdigits) then leftdigits else 1 in
      let '(intpart, fracpart) :=
        if dotplace <=? 0 then
          ("0", "." ++ PyStr.repeat_char "0"%char (Z.to_nat (- dotplace))
                ++ digits)
        else if len <=? dotplace then
          (digits ++ PyStr.repeat_char "0"%char (Z.to_nat (dotplace - len)),
           "")
        else
          (PyStr.slice None (Some dotplace) digits,
           "." ++ PyStr.slice (Some dotplace) None digits) in
      let exp :=
        if leftdigits =? dotplace then ""
        else "E" ++ signed_str (leftdigits - dotplace) in
      (if s then "-" else "") ++ intpart ++ fracpart ++ exp
  end.

End PyDecimal.

(* ===================================================================== *)
(** * Device settings *)

Inductive Category : Type := POWER | FREQUENCY | UNKNOWN.

(** [FASettings]: a field that is [None] is not known. *)
Record FASettings : Type := mkFASettings {
  channel : option string;
  imp50 : option bool;
  precision : option bool;
  ext_reference_osc : option bool;
  lpf : option bool;
  gate_time : Z
}.

(** [FASettings()] *)
Definition FASettings_init : FASettings :=
  mkFASettings None None None None None 0.

Definition set_channel (v : option string) (s : FASettings) : FASettings :=
  mkFASettings v (imp50 s) (precision s) (ext_reference_osc s) (lpf s)
               (gate_time s).
Definition set_imp50 (v : option bool) (s : FASettings) : FASettings :=
  mkFASettings (channel s) v (precision s) (ext_reference_osc s) (lpf s)
               (gate_time s).
Definition set_precision (v : option bool) (s : FASettings) : FASettings :=
  mkFASettings (channel s) (imp50 s) v (ext_reference_osc s) (lpf s)
               (gate_time s).
Definition set_ext_reference_osc (v : option bool) (s : FASettings)
  : FASettings :=
  mkFASettings (channel s) (imp50 s) (precision s) v (lpf s) (gate_time s).
Definition set_lpf (v : option bool) (s : FASettings) : FASettings :=
  mkFASettings (channel s) (imp50 s) (precision s) (ext_reference_osc s) v
               (gate_time s).
Definition set_gate_time (v : Z) (s : FASettings) : FASettings :=
  mkFASettings (channel s) (imp50 s) (precision s) (ext_reference_osc s)
               (lpf s) v.

Definition is_not_None {A : Type} (o : option A) : bool :=
  match o with Some _ => true | None => false end.

(** [FASettings.update_settings]: [self] is updated in place, one field
    after the other. *)
Definition update_settings (self settings : FASettings) : FASettings :=
  let self := if is_not_None (channel settings)
              then set_channel (channel settings) self else self in
  let self := if is_not_None (imp50 settings)
              then set_imp50 (imp50 settings) self else self in
  let self := if is_not_None (precision settings)
              then set_precision (precision settings) self else self in
  let self := if is_not_None (ext_reference_osc settings)
              then set_ext_reference_osc (ext_reference_osc settings) self
              else self in
  let self := if is_not_None (lpf settings)
              then set_lpf (lpf settings) self else self in
  let self := if gate_time settings >? 0
              then set_gate_time (gate_time settings) self else self in
  self.

(* ===================================================================== *)
(** * The decoder *)

(** [channel_to_text]: falling off the end returns [None]. *)
Definition channel_to_text (channel_char : string) : option string :=
  if String.eqb channel_char "A" then Some "Channel: 1"
  else if String.eqb channel_char "B" then Some "Channel: 2"
  else if String.eqb channel_char "T" then Some "Channel: Internal Clock"
  else None.

(** [preprocess_string]: the measurements of one line, as category and
    text, and what the line tells about the settings. *)
Definition preprocess_string (string : String.string)
  : result (list (Category * String.string) * FASettings) :=
  let new_settings := FASettings_init in
  let preprocessed_string := PyStr.strip string in
  let measurements : list (Category * String.string) := [] in
  let last3 := PyStr.slice (Some (-3)) None preprocessed_string in
  if PyStr.contains "OK" preprocessed_string then
    if PyStr.contains "POK" preprocessed_string then
      let category := POWER in
      let preprocessed_cut_number :=
        PyStr.slice (Some 2) (Some (-4)) preprocessed_string in
      Ok ((measurements ++ [(category, preprocessed_cut_number)])%list,
          new_settings)
    else if String.eqb "AOK" last3 || String.eqb "GOK" last3 then
      g <- Numeral.int_of_str
             (PyStr.slice (Some (-14)) (Some (-7)) preprocessed_string) ;;
      Ok (measurements, set_gate_time g new_settings)
    else if String.eqb "DOK" last3 then
      let channel_char := PyStr.slice (Some 1) (Some 2) preprocessed_string in
      let precisionmode_char :=
        PyStr.slice (Some 2) (Some 3) preprocessed_string in
      let refosc_char := PyStr.slice (Some 3) (Some 4) preprocessed_string in
      let impedance_char :=
        PyStr.slice (Some 4) (Some 5) preprocessed_string in
      let lpf_char := PyStr.slice (Some 5) (Some 6) preprocessed_string in
      let new_settings :=
        set_channel (channel_to_text channel_char) new_settings in
      let new_settings :=
        set_precision (Some (String.eqb precisionmode_char "P"))
                      new_settings in
      let new_settings :=
        set_ext_reference_osc (Some (String.eqb refosc_char "E"))
                              new_settings in
      let new_settings :=
        set_imp50 (Some (String.eqb impedance_char "R")) new_settings in
      let new_settings :=
        set_lpf (Some (String.eqb lpf_char "L")) new_settings in
      Ok (measurements, new_settings)
    else if String.eqb "EOK" last3 then
      if String.eqb "LPF" (PyStr.slice (Some 0) (Some 3) preprocessed_string)
      then Ok (measurements,
               set_lpf (Some (String.eqb "LPF ON EOK" preprocessed_string))
                       new_settings)
      else Ok (measurements, new_settings)
    else if String.eqb "COK" last3 then
      if String.eqb "LPF" (PyStr.slice (Some 4) (Some 7) preprocessed_string)
      then Ok (measurements,
               set_lpf (Some (String.eqb "CH1 LPF ON COK" preprocessed_string))
                       new_settings)
      else Ok (measurements, new_settings)
    else Ok (measurements, new_settings)
  else
    if PyStr.contains "$" preprocessed_string then
      let str_list := PyStr.split ","%char preprocessed_string in
      let category := FREQUENCY in
      let preprocessed_cut_number :=
        PyStr.slice (Some 2) (Some (-3)) (hd "" str_list) in
      let measurements :=
        (measurements ++ [(category, preprocessed_cut_number)])%list in
      if (List.length str_list =? 3)%nat then
        let category := POWER in
        let preprocessed_cut_number := nth 1 str_list "" in
        Ok ((measurements ++ [(category, preprocessed_cut_number)])%list,
            new_settings)
      else Ok (measurements, new_settings)
    else Ok (measurements, new_settings).

(* ===================================================================== *)
(** * Numbers of mixed type *)

(** The statistics return a [Decimal], or the float [0.0] where there is
    no data; callers pass the integer [0] as a default. *)
Inductive number : Type :=
| Int (z : Z)
| Flt (x : PyFloat.float)
| Dec (d : PyDecimal.Decimal).

Module PyNumber.
Import PyDecimal.

(** A float as a fraction in lowest terms: [m * 2^-k] with [m] odd or
    [k] zero. *)
Fixpoint lowest_terms (m : positive) (k : nat) : positive * nat :=
  match k, m with
  | S k', xO p => lowest_terms p k'
  | _, _ => (m, k)
  end.

(** [Decimal(x)] for a [float]: exact. *)
Definition Decimal_of_float (x : PyFloat.float) : Decimal :=
  match x with
  | S754_zero s => Finite s 0 0
  | S754_infinity s => Infinity s
  | S754_nan => NaN false false 0
  | S754_finite s m e =>
      match e with
      | Zneg p =>
          let '(n, k) := lowest_terms m (Pos.to_nat p) in
          Finite s (Npos n * 5 ^ N.of_nat k) (- Z.of_nat k)
      | _ => Finite s (Npos m * 2 ^ Z.to_N e) 0
      end
  end.

(** [Decimal(x)] *)
Definition to_Decimal (x : number) : Decimal :=
  match x with
  | Int z => of_int z
  | Flt f => Decimal_of_float f
  | Dec d => d
  end.

Definition float_zero : number := Flt (S754_zero false).

End PyNumber.

(* ===================================================================== *)
(** * The measurement log *)

Record MeasureLog : Type := mkMeasureLog {
  strings : list (string * PyFloat.float);
  frequencies : list (PyDecimal.Decimal * PyFloat.float);
  power : list (PyDecimal.Decimal * PyFloat.float);
  start_time : PyFloat.float;
  reset_on_the_next_read : bool;
  latest_settings : FASettings
}.

(** What the methods of the log act on: the log itself, the clock that
    [time.time()] reads (the [n]-th reading is [clock n]) and the lines
    printed so far. *)
Record World : Type := mkWorld {
  ml : MeasureLog;
  clock : nat -> PyFloat.float;
  clock_reads : nat;
  stdout : list string
}.

Definition M (A : Type) : Type := World -> World * result A.

Definition ret {A : Type} (a : A) : M A := fun w => (w, Ok a).

Definition bind {A B : Type} (c : M A) (k : A -> M B) : M B :=
  fun w =>
    match c w with
    | (w', Ok a) => k a w'
    | (w', Raise e) => (w', Raise e)
    end.

Declare Scope py_scope.
Delimit Scope py_scope with py.
Notation "x <- c ;; k" := (bind c (fun x => k))
  (at level 61, c at next level, right associativity) : py_scope.
Notation "' p <- c ;; k" := (bind c (fun x => let 'p := x in k))
  (at level 61, p pattern, c at next level, right associativity) : py_scope.
Notation "c ;; k" := (bind c (fun _ => k))
  (at level 61, right associativity) : py_scope.

Definition lift {A : Type} (r : result A) : M A := fun w => (w, r).

Definition get_ml {A : Type} (f : MeasureLog -> A) : M A :=
  fun w => (w, Ok (f (ml w))).

Definition modify_ml (f : MeasureLog -> MeasureLog) : M unit :=
  fun w => (mkWorld (f (ml w)) (clock w) (clock_reads w) (stdout w), Ok tt).

(** [time.time()] *)
Definition time_time : M PyFloat.float :=
  fun w => (mkWorld (ml w) (clock w) (S (clock_reads w)) (stdout w),
            Ok (clock w (clock_reads w))).

(** [print(s)] *)
Definition print (s : string) : M unit :=
  fun w => (mkWorld (ml w) (clock w) (clock_reads w) (stdout w ++ [s])%list,
            Ok tt).

(** [try: body except InvalidOperation: handler] *)
Definition try_except_InvalidOperation (body handler : M unit) : M unit :=
  fun w =>
    match body w with
    | (w', Raise InvalidOperation) => handler w'
    | r => r
    end.

Fixpoint for_each {A : Type} (l : list A) (body : A -> M unit) : M unit :=
  match l with
  | [] => ret tt
  | a :: rest => bind (body a) (fun _ => for_each rest body)
  end.

Definition set_strings (v : list (string * PyFloat.float)) (m : MeasureLog) :=
  mkMeasureLog v (frequencies m) (power m) (start_time m)
               (reset_on_the_next_read m) (latest_settings m).
Definition set_frequencies (v : list (PyDecimal.Decimal * PyFloat.float))
  (m : MeasureLog) :=
  mkMeasureLog (strings m) v (power m) (start_time m)
               (reset_on_the_next_read m) (latest_settings m).
Definition set_power (v : list (PyDecimal.Decimal * PyFloat.float))
  (m : MeasureLog) :=
  mkMeasureLog (strings m) (frequencies m) v (start_time m)
               (reset_on_the_next_read m) (latest_settings m).
Definition set_start_time (v : PyFloat.float) (m : MeasureLog) :=
  mkMeasureLog (strings m) (frequencies m) (power m) v
               (reset_on_the_next_read m) (latest_settings m).
Definition set_reset_on_the_next_read (v : bool) (m : MeasureLog) :=
  mkMeasureLog (strings m) (frequencies m) (power m) (start_time m) v
               (latest_settings m).
Definition set_latest_settings (v : FASettings) (m : MeasureLog) :=
  mkMeasureLog (strings m) (frequencies m) (power m) (start_time m)
               (reset_on_the_next_read m) v.

Open Scope py_scope.

(** [MeasureLog.__init__] *)
Definition MeasureLog_init : M unit :=
  t <- time_time ;;
  modify_ml (fun _ => mkMeasureLog [] [] [] t true FASettings_init).

(** [MeasureLog.reset] *)
Definition reset (reset_time : bool) : M unit :=
  modify_ml (set_strings []) ;;
  modify_ml (set_frequencies []) ;;
  modify_ml (set_power []) ;;
  (if reset_time then t <- time_time ;; modify_ml (set_start_time t)
   else ret tt) ;;
  modify_ml (set_reset_on_the_next_read false).

(** [MeasureLog.reset_on_next_read] *)
Definition reset_on_next_read : M unit :=
  modify_ml (set_reset_on_the_next_read true).

(** The body of the [try] in [add_string], for one measurement. *)
Definition store_measurement (timestamp : PyFloat.float)
  (measurement : Category * string) : M unit :=
  let category := fst measurement in
  let preprocessed_string := snd measurement in
  number <- lift (PyDecimal.of_str preprocessed_string) ;;
  match category with
  | FREQUENCY =>
      modify_ml (fun m =>
        set_frequencies (frequencies m ++ [(number, timestamp)])%list m)
  | POWER =>
      tenth <- lift (PyDecimal.div number (PyDecimal.of_int 10)) ;;
      modify_ml (fun m => set_power (power m ++ [(tenth, timestamp)])%list m)
  | UNKNOWN => ret tt
  end.

(** [MeasureLog.add_string] *)
Definition add_string (single_line_string : string) : M unit :=
  pending <- get_ml reset_on_the_next_read ;;
  (if pending then reset true else ret tt) ;;
  now <- time_time ;;
  start <- get_ml start_time ;;
  let timestamp := PyFloat.sub now start in
  ' (measurements, new_settings) <-
      lift (preprocess_string single_line_string) ;;
  modify_ml (fun m =>
    set_strings (strings m ++ [(single_line_string, timestamp)])%list m) ;;
  modify_ml (fun m =>
    set_latest_settings (update_settings (latest_settings m) new_settings)
                        m) ;;
  for_each measurements (fun measurement =>
    try_except_InvalidOperation
      (store_measurement timestamp measurement)
      (print "not a number, need to look into why")).

Close Scope py_scope.

(* ===================================================================== *)
(** * Statistics *)

(** [MeasureLog._get_data] *)
Definition _get_data (self : MeasureLog) (category : string)
  : list (PyDecimal.Decimal * PyFloat.float) :=
  if String.eqb category "frequency" then frequencies self
  else if String.eqb category "power" then power self
  else [].

(** [sum(values)]: the total starts as the integer [0], so the first
    addition is [0 + v], which is [v.__radd__(0)], and every later one is
    [total + v]. *)
Definition py_sum (values : list PyDecimal.Decimal) : result number :=
  match values with
  | [] => Ok (Int 0)
  | v :: rest =>
      t <- fold_left
             (fun acc x => (a <- acc ;; PyDecimal.add a x)%result)
             rest (PyDecimal.add v (PyDecimal.of_int 0)) ;;
      Ok (Dec t)
  end.

(** [MeasureLog.average_value] *)
Definition average_value (self : MeasureLog) (category : string)
  : result number :=
  let data := _get_data self category in
  match data with
  | _ :: _ =>
      let values := map fst data in
      total <- py_sum values ;;
      q <- PyDecimal.div (PyNumber.to_Decimal total)
             (PyDecimal.of_int (Z.of_nat (List.length values))) ;;
      Ok (Dec q)
  | [] => Ok PyNumber.float_zero
  end.

(** [MeasureLog.count] *)
Definition count (self : MeasureLog) (category : string) : Z :=
  let data := _get_data self category in
  match data with
  | _ :: _ => Z.of_nat (List.length data)
  | [] => 0
  end.

(** [Decimal('0.1')] *)
Definition Decimal_0_1 : PyDecimal.Decimal := PyDecimal.Finite false 1 (-1).

(** [float(d)] for a decimal, which is [float(str(d))]: the float
    nearest to it.  A signalling NaN is refused. *)
Definition float_of_Decimal (d : PyDecimal.Decimal) : result PyFloat.float :=
  match d with
  | PyDecimal.Finite s c e => Ok (PyFloat.of_decimal s c e)
  | PyDecimal.Infinity s => Ok (S754_infinity s)
  | PyDecimal.NaN _ true _ => Raise ValueError
  | PyDecimal.NaN _ false _ => Ok S754_nan
  end.

(** [math.floor(x)] for a float: an integer. *)
Definition math_floor (x : PyFloat.float) : result Z :=
  match x with
  | S754_zero _ => Ok 0
  | S754_infinity _ => Raise OverflowError
  | S754_nan => Raise ValueError
  | S754_finite neg m e =>
      let n := if neg then Zneg m else Zpos m in
      Ok match e with
         | Zneg k => n / Zpos (Pos.pow 2 k)
         | _ => n * 2 ^ e
         end
  end.

Section FreqDifference.

(** The [log10] of the C library on a float that is finite and above
    zero.  The standard of C gives its value up to the last places only,
    so it is taken as it is. *)
Variable log10 : PyFloat.float -> PyFloat.float.

(** [math.log10(x)] for a float: a domain error at zero and below. *)
Definition math_log10 (x : PyFloat.float) : result PyFloat.float :=
  match x with
  | S754_nan => Ok S754_nan
  | S754_infinity false => Ok (S754_infinity false)
  | S754_finite false _ _ => Ok (log10 x)
  | _ => Raise ValueError
  end.

(** [MeasureLog.get_freq_difference]; [math.log10] takes the decimal
    through [float]. *)
Definition get_freq_difference (self : MeasureLog)
  (freq target_freq : number)
  : result (PyDecimal.Decimal * PyDecimal.Decimal * number) :=
  let freq := PyNumber.to_Decimal freq in
  let target_freq := PyNumber.to_Decimal target_freq in
  freq_is_0 <- PyDecimal.eq freq (PyDecimal.of_int 0) ;;
  frequency <-
    (if freq_is_0 && (0 <? List.length (frequencies self))%nat then
       avg <- average_value self "frequency" ;;
       (* the list is not empty, so this is a decimal *)
       match avg with
       | Dec d => Ok d
       | other => Ok (PyNumber.to_Decimal other)
       end
     else Ok freq) ;;
  target_is_0 <- PyDecimal.eq target_freq (PyDecimal.of_int 0) ;;
  target_frequency <-
    (if target_is_0 then
       shifted <- PyDecimal.add frequency Decimal_0_1 ;;
       magnitude <- PyDecimal.abs shifted ;;
       x <- float_of_Decimal magnitude ;;
       y <- math_log10 x ;;
       l <- math_floor y ;;
       let decimals := - l + 3 in
       PyDecimal.round frequency decimals
     else Ok target_freq) ;;
  difference <- PyDecimal.sub frequency target_frequency ;;
  positive <- PyDecimal.gt target_frequency (PyDecimal.of_int 0) ;;
  ppm <-
    (if positive then
       scaled <- PyDecimal.mul difference (PyDecimal.of_int 1000000) ;;
       q <- PyDecimal.div scaled target_frequency ;;
       Ok (Dec q)
     else Ok PyNumber.float_zero) ;;
  Ok (target_frequency, difference, ppm).

End FreqDifference.

(* ===================================================================== *)
(** * Grouping digits *)

Definition newline : ascii := ascii_of_nat 10.

(** The longest run of at most [n] characters other than a line feed. *)
Fixpoint take_chunk (n : nat) (s : string) : string * string :=
  match n, s with
  | S k, String c r =>
      if Ascii.eqb c newline then (EmptyString, s)
      else let '(h, t) := take_chunk k r in (String c h, t)
  | _, _ => (EmptyString, s)
  end.

Fixpoint chunks (fuel size : nat) (s : string) : list string :=
  match fuel, s with
  | S f, String c r =>
      if Ascii.eqb c newline then chunks f size r
      else let '(h, t) := take_chunk size s in h :: chunks f size t
  | _, _ => []
  end.

(** [chunk_string], which is [re.findall('.{1,size}', s)]; [size] is
    positive. *)
Definition chunk_string (s : string) (size : nat) : list string :=
  chunks (String.length s) size s.

(** [group_spaces] *)
Definition group_spaces (decimal_number : PyDecimal.Decimal) : result string :=
  nonzero <- PyDecimal.ne decimal_number (PyDecimal.of_int 0) ;;
  if nonzero then
    let decimal_str := PyDecimal.to_str decimal_number in
    match PyStr.split "."%char decimal_str with
    | [integer_part; fractional_part] =>
        let integer_groups :=
          PyStr.reversed
            (PyStr.join " " (chunk_string (PyStr.reversed integer_part) 3)) in
        let fractional_groups :=
          PyStr.join " " (chunk_string fractional_part 3) in
        Ok (integer_groups ++ "." ++ fractional_groups)
    | _ => Raise ValueError
    end
  else
    let integer_groups := "0" in
    let fractional_groups := "0" in
    Ok (integer_groups ++ "." ++ fractional_groups).

(* ===================================================================== *)
(** * The commands of the device *)

Inductive Commands : Type :=
| GET_GATE_TIME_SETTING
| GET_FREQ_POWER_SETTINGS
| GET_PROD_VERSION
| RESET
| SET_INTERNAL_10M_REF
| SET_CH1_FREQ_AND_POWER
| SET_CH2_FREQ_AND_POWER
| CH1_50_IMPEDANCE
| CH1_1M_IMPEDANCE
| CH1_LPF_ON
| CH1_LPF_OFF
| HIGH_PRECISION_ON
| HIGH_PRECISION_OFF
| SEND_FREQ_AFTER_MEASURE
| SEND_FREQ_AND_POWER
| USE_D_FOR_FREQ_POWER
| SET_BAUD_RATE_4800_BPS
| SET_BAUD_RATE_9600_BPS
| SET_BAUD_RATE_19200_BPS
| SET_BAUD_RATE_38400_BPS
| SET_BAUD_RATE_57600_BPS
| SET_BAUD_RATE_115200_BPS
| SET_GATE_TIME_100MS
| SET_GATE_TIME_1000MS
| SET_GATE_TIME_2000MS
| SET_GATE_TIME_20000MS
| EE_SELF_TEST_ON_POWER_UP
| EE_CH1_FREQ_ON_POWER_UP
| EE_CH2_FREQ_ON_POWER_UP
| EE_CH1_50_OHMS_SAVE_EEPROM
| EE_CH1_1MOHMS_SAVE_EEPROM
| EE_BEEP_ON_SAVE_EEPROM
| EE_BEEP_OFF_SAVE_EEPROM
| EE_PRECISION_MODE_ON
| EE_PRECISION_MODE_OFF
| EE_TURN_ON_LPF_SAVE_EEPROM
| EE_TURN_OFF_LPF_SAVE_EEPROM
| EE_CALIBRATE_CH1_50_OHMS_0_DBM
| EE_CALIBRATE_CH1_50_OHMS_MINUS_20_DBM
| EE_CALIBRATE_CH1_50_OHMS_5_DBM
| EE_CALIBRATE_CH2_0_DBM
| EE_CALIBRATE_CH2_MINUS_20_DBM
| EE_SAVE_CH1_NOISE_FLOOR
| EE_SAVE_CH2_NOISE_FLOOR
| EE_AUTO_SEND_FREQ
| EE_AUTO_SEND_FREQ_POWER
| EE_QUERY_FREQ_POWER_MANUALLY.

(** [Commands.X.value] *)
Definition value (c : Commands) : string :=
  match c with
  | GET_GATE_TIME_SETTING => "$G*"
  | GET_FREQ_POWER_SETTINGS => "$D*"
  | GET_PROD_VERSION => "$V*"
  | RESET => "$R*"
  | SET_INTERNAL_10M_REF => "$C0000*"
  | SET_CH1_FREQ_AND_POWER => "$C0101*"
  | SET_CH2_FREQ_AND_POWER => "$C0202*"
  | CH1_50_IMPEDANCE => "$C0303*"
  | CH1_1M_IMPEDANCE => "$C0404*"
  | CH1_LPF_ON => "$C0505*"
  | CH1_LPF_OFF => "$C0606*"
  | HIGH_PRECISION_ON => "$C0707*"
  | HIGH_PRECISION_OFF => "$C0808*"
  | SEND_FREQ_AFTER_MEASURE => "$C0909*"
  | SEND_FREQ_AND_POWER => "$C1010*"
  | USE_D_FOR_FREQ_POWER => "$C1111*"
  | SET_BAUD_RATE_4800_BPS => "$C2020*"
  | SET_BAUD_RATE_9600_BPS => "$C2121*"
  | SET_BAUD_RATE_19200_BPS => "$C2222*"
  | SET_BAUD_RATE_38400_BPS => "$C2323*"
  | SET_BAUD_RATE_57600_BPS => "$C2424*"
  | SET_BAUD_RATE_115200_BPS => "$C2525*"
  | SET_GATE_TIME_100MS => "$A00100*"
  | SET_GATE_TIME_1000MS => "$A01000*"
  | SET_GATE_TIME_2000MS => "$A02000*"
  | SET_GATE_TIME_20000MS => "$A20000*"
  | EE_SELF_TEST_ON_POWER_UP => "$E2020*"
  | EE_CH1_FREQ_ON_POWER_UP => "$E2121*"
  | EE_CH2_FREQ_ON_POWER_UP => "$E2222*"
  | EE_CH1_50_OHMS_SAVE_EEPROM => "$E3030*"
  | EE_CH1_1MOHMS_SAVE_EEPROM => "$E3131*"
  | EE_BEEP_ON_SAVE_EEPROM => "$E3232*"
  | EE_BEEP_OFF_SAVE_EEPROM => "$E3333*"
  | EE_PRECISION_MODE_ON => "$E3434*"
  | EE_PRECISION_MODE_OFF => "$E3535*"
  | EE_TURN_ON_LPF_SAVE_EEPROM => "$E3636*"
  | EE_TURN_OFF_LPF_SAVE_EEPROM => "$E3737*"
  | EE_CALIBRATE_CH1_50_OHMS_0_DBM => "$E4040*"
  | EE_CALIBRATE_CH1_50_OHMS_MINUS_20_DBM => "$E4141*"
  | EE_CALIBRATE_CH1_50_OHMS_5_DBM => "$E4242*"
  | EE_CALIBRATE_CH2_0_DBM => "$E4343*"
  | EE_CALIBRATE_CH2_MINUS_20_DBM => "$E4444*"
  | EE_SAVE_CH1_NOISE_FLOOR => "$E4545*"
  | EE_SAVE_CH2_NOISE_FLOOR => "$E4646*"
  | EE_AUTO_SEND_FREQ => "$E6060*"
  | EE_AUTO_SEND_FREQ_POWER => "$E6161*"
  | EE_QUERY_FREQ_POWER_MANUALLY => "$E6262*"
  end.

Definition all_commands : list Commands :=
  [GET_GATE_TIME_SETTING;
   GET_FREQ_POWER_SETTINGS;
   GET_PROD_VERSION;
   RESET;
   SET_INTERNAL_10M_REF;
   SET_CH1_FREQ_AND_POWER;
   SET_CH2_FREQ_AND_POWER;
   CH1_50_IMPEDANCE;
   CH1_1M_IMPEDANCE;
   CH1_LPF_ON;
   CH1_LPF_OFF;
   HIGH_PRECISION_ON;
   HIGH_PRECISION_OFF;
   SEND_FREQ_AFTER_MEASURE;
   SEND_FREQ_AND_POWER;
   USE_D_FOR_FREQ_POWER;
   SET_BAUD_RATE_4800_BPS;
   SET_BAUD_RATE_9600_BPS;
   SET_BAUD_RATE_19200_BPS;
   SET_BAUD_RATE_38400_BPS;
   SET_BAUD_RATE_57600_BPS;
   SET_BAUD_RATE_115200_BPS;
   SET_GATE_TIME_100MS;
   SET_GATE_TIME_1000MS;
   SET_GATE_TIME_2000MS;
   SET_GATE_TIME_20000MS;
   EE_SELF_TEST_ON_POWER_UP;
   EE_CH1_FREQ_ON_POWER_UP;
   EE_CH2_FREQ_ON_POWER_UP;
   EE_CH1_50_OHMS_SAVE_EEPROM;
   EE_CH1_1MOHMS_SAVE_EEPROM;
   EE_BEEP_ON_SAVE_EEPROM;
   EE_BEEP_OFF_SAVE_EEPROM;
   EE_PRECISION_MODE_ON;
   EE_PRECISION_MODE_OFF;
   EE_TURN_ON_LPF_SAVE_EEPROM;
   EE_TURN_OFF_LPF_SAVE_EEPROM;
   EE_CALIBRATE_CH1_50_OHMS_0_DBM;
   EE_CALIBRATE_CH1_50_OHMS_MINUS_20_DBM;
   EE_CALIBRATE_CH1_50_OHMS_5_DBM;
   EE_CALIBRATE_CH2_0_DBM;
   EE_CALIBRATE_CH2_MINUS_20_DBM;
   EE_SAVE_CH1_NOISE_FLOOR;
   EE_SAVE_CH2_NOISE_FLOOR;
   EE_AUTO_SEND_FREQ;
   EE_AUTO_SEND_FREQ_POWER;
   EE_QUERY_FREQ_POWER_MANUALLY].

(* ===================================================================== *)
(** * The command queue of the window *)

(** What the queue holds: the text typed by the operator or made by
    [make_gate_time_command], or a member of [Commands]. *)
Inductive command : Type :=
| Text (s : string)
| Member (c : Commands).

(** The globals of [ui_main.py] that sending touches, and what it does to
    the outside: the writes to the serial port, the pauses, the lines of
    the log pane and the warnings shown. *)
Record Ui : Type := mkUi {
  command_queue : list command;
  waiting_for_command : bool;
  is_serial_port_established : bool;
  serial_written : list string;
  sleeps : nat;
  data_textEdit_all : list string;
  warnings : list string
}.

(** [MainWindow.send_to_command_buffer] *)
Definition send_to_command_buffer (command : command) (u : Ui) : Ui :=
  mkUi (command_queue u ++ [command]) (waiting_for_command u)
       (is_serial_port_established u) (serial_written u) (sleeps u)
       (data_textEdit_all u) (warnings u).

(** The second half of [send_command]: the command has been chosen. *)
Definition transmit (command : command) (u : Ui) : Ui :=
  let command :=
    match command with
    | Text s => s
    | Member c => value c
    end in
  if is_serial_port_established u then
    let sleeps := match command_queue u with
                  | [] => S (sleeps u)
                  | _ :: _ => sleeps u
                  end in
    mkUi (command_queue u) (waiting_for_command u)
         (is_serial_port_established u)
         (serial_written u ++ [command]) sleeps
         (data_textEdit_all u ++ ["** Command Send: " ++ command])
         (warnings u)
  else
    mkUi (command_queue u) (waiting_for_command u)
         (is_serial_port_established u) (serial_written u) (sleeps u)
         (data_textEdit_all u)
         (warnings u ++
          ["Serial Port is not established yet! Please establish the serial port first!"]).

Definition set_queue_and_waiting (q : list command) (w : bool) (u : Ui) : Ui :=
  mkUi q w (is_serial_port_established u) (serial_written u) (sleeps u)
       (data_textEdit_all u) (warnings u).

(** [MainWindow.send_command] *)
Definition send_command (command_str : string) (u : Ui) : Ui :=
  if negb (String.eqb command_str "") then
    transmit (Text command_str) (set_queue_and_waiting (command_queue u) false u)
  else
    match command_queue u with
    | command :: rest =>
        transmit command (set_queue_and_waiting rest false u)
    | [] => set_queue_and_waiting (command_queue u) true u
    end.

(** The flag of the design document, "waiting for a reply", is the
    opposite of the global: [waiting_for_command] says that no command
    is waiting for its answer. *)
Definition waiting_for_reply (u : Ui) : bool := negb (waiting_for_command u).

(** The text that goes on the wire for a command. *)
Definition wire_text (c : command) : string :=
  match c with
  | Text s => s
  | Member m => value m
  end.

(** The calls a run of the window makes on the queue. *)
Inductive queue_call : Type :=
| Enqueue (c : command)
| Dequeue.

Definition do_call (u : Ui) (c : queue_call) : Ui :=
  match c with
  | Enqueue x => send_to_command_buffer x u
  | Dequeue => send_command "" u
  end.

Definition run_calls (calls : list queue_call) (u : Ui) : Ui :=
  fold_left do_call calls u.

Fixpoint enqueued (calls : list queue_call) : list command :=
  match calls with
  | [] => []
  | Enqueue x :: rest => x :: enqueued rest
  | Dequeue :: rest => enqueued rest
  end.

(* ===================================================================== *)
(** * The statistics export *)

(** The header of [copy_stats_to_clipboard], as the two literals of the
    source make it. *)
Definition header : string :=
  "Notes,Start Time,Stop Time,Target Freq,Average Freq (Hz),Difference (mHz),STDev (mHz),Gate Time,"
  ++ "Pk-Pk (mHz), Power (dBm),Minimum,Maximum,Channel,Count,50 Ohm,ppm".

(** The values of one row as text, each named after the expression of
    [copy_stats_to_clipboard] that renders it; the renderings themselves
    (local time, floats, the standard deviation) are outside the
    embedding. *)
Record StatsTexts : Type := mkStatsTexts {
  start_time_text : string;      (* strftime of start_time *)
  stop_time_text : string;       (* strftime of the present time *)
  target_frequency_text : string;(* target_frequency.to_eng_string() *)
  avg_frequency_text : string;   (* str(avg_frequency) *)
  difference_text : string;      (* str(1000 * difference) *)
  std_dev_text : string;         (* str(round(1000 * std_dev_value, 4)) *)
  gate_time_text : string;       (* str(latest_settings.gate_time / 1000) *)
  peak_to_peak_text : string;    (* str(1000 * peak_to_peak) *)
  latest_power_text : string;    (* str(latest_value("power")[0]) *)
  min_text : string;             (* str(min_value("frequency")) *)
  max_text : string;             (* str(max_value("frequency")) *)
  channel_text : string;         (* str(latest_settings.channel) *)
  count_text : string;           (* str(count("frequency")) *)
  imp50_text : string;           (* str(latest_settings.imp50) *)
  ppm_text : string              (* str(ppm) *)
}.

(** The row: the notes, then one value after the other, each after a
    comma. *)
Definition stats_row (notes : string) (t : StatsTexts) : string :=
  let stats_text :=
    PyStr.slice None (Some (-2)) (PyStr.replace_char newline "; " notes) in
  let stats_text := stats_text ++ "," ++ start_time_text t in
  let stats_text := stats_text ++ "," ++ stop_time_text t in
  let stats_text := stats_text ++ "," ++ target_frequency_text t in
  let stats_text := stats_text ++ "," ++ avg_frequency_text t in
  let stats_text := stats_text ++ "," ++ difference_text t in
  let stats_text := stats_text ++ "," ++ std_dev_text t in
  let stats_text := stats_text ++ "," ++ gate_time_text t in
  let stats_text := stats_text ++ "," ++ peak_to_peak_text t in
  let stats_text := stats_text ++ "," ++ latest_power_text t in
  let stats_text := stats_text ++ "," ++ min_text t in
  let stats_text := stats_text ++ "," ++ max_text t in
  let stats_text := stats_text ++ "," ++ channel_text t in
  let stats_text := stats_text ++ "," ++ count_text t in
  let stats_text := stats_text ++ "," ++ imp50_text t in
  let stats_text := stats_text ++ "," ++ ppm_text t in
  stats_text.

(** The clipboard and the file [FA5_Statistics_log.csv]; [None] is a
    file that does not exist. *)
Record Desk : Type := mkDesk {
  clipboard : string;
  log_file : option string
}.

(** [copy_stats_to_clipboard], from the copy to the clipboard on;
    [can_open] says whether opening the file for appending succeeds
    ([PermissionError] otherwise). *)
Definition copy_stats_to_clipboard (can_open : bool) (notes : string)
  (t : StatsTexts) (d : Desk) : Desk * bool :=
  let stats_text := stats_row notes t in
  let d := mkDesk stats_text (log_file d) in
  let file_existed_before := is_not_None (log_file d) in
  if can_open then
    let content := match log_file d with Some c => c | None => "" end in
    let content :=
      if negb file_existed_before
      then content ++ header ++ String newline "" else content in
    let content := content ++ stats_text ++ String newline "" in
    (mkDesk (clipboard d) (Some content), true)
  else (d, false).

(* ===================================================================== *)
(** * The statements of the design document, as definitions *)

Definition CR : ascii := ascii_of_nat 13.
Definition CRLF : string := String CR (String newline "").

(** "g rendered as a 5-digit zero-padded decimal integer" *)
Definition five_digits (g : Z) : string :=
  let digits := PyStr.str_of_Z g in
  PyStr.repeat_char "0"%char (5 - String.length digits) ++ digits.

(** "[$A] followed by g rendered as a 5-digit zero-padded decimal integer
    followed by [*]" *)
Definition gate_time_payload (g : Z) : string :=
  "$A" ++ five_digits g ++ "*".

(** The gate times offered by the window, as [set_gate_time] passes them:
    the text of the choice without its last five characters. *)
Definition window_gate_times : list string :=
  map (PyStr.slice (Some 0) (Some (-5)))
      ["0.1 sec."; "0.2 sec."; "0.5 sec."; "1 sec."; "2 sec."; "5 sec.";
       "10 sec."; "20 sec."].

(** "split on commas; the first field with its 2-character prefix and
    3-character suffix stripped is a Frequency measurement; if the split
    yields exactly 3 fields, the second field is a Power measurement" *)
Definition stream_measurements (text : string) : list (Category * string) :=
  let fields := PyStr.split ","%char text in
  (FREQUENCY, PyStr.slice (Some 2) (Some (-3)) (hd "" fields))
    :: (if (List.length fields =? 3)%nat
        then [(POWER, nth 1 fields "")] else []).

(** The character at an index, as a text of length one, or the empty
    text past the end. *)
Definition char_at (i : Z) (s : string) : string :=
  PyStr.slice (Some i) (Some (i + 1)) s.

(** "channel from index 1, precision = (index 2 == 'P'), external
    reference = (index 3 == 'E'), 50-ohm impedance = (index 4 == 'R'),
    low-pass filter = (index 5 == 'L')" *)
Definition positional_delta (text : string) : FASettings :=
  mkFASettings
    (channel_to_text (char_at 1 text))
    (Some (String.eqb (char_at 4 text) "R"))
    (Some (String.eqb (char_at 2 text) "P"))
    (Some (String.eqb (char_at 3 text) "E"))
    (Some (String.eqb (char_at 5 text) "L"))
    0.

(** "overwrite only when the delta carries a present value" *)
Definition overwrite_if_present {A : Type} (delta current : option A)
  : option A :=
  match delta with
  | Some v => Some v
  | None => current
  end.

(** The merge of the design document, field by field. *)
Definition merge (current delta : FASettings) : FASettings :=
  mkFASettings
    (overwrite_if_present (channel delta) (channel current))
    (overwrite_if_present (imp50 delta) (imp50 current))
    (overwrite_if_present (precision delta) (precision current))
    (overwrite_if_present (ext_reference_osc delta)
                          (ext_reference_osc current))
    (overwrite_if_present (lpf delta) (lpf current))
    (if 0 <? gate_time delta then gate_time delta else gate_time current).

Section FreqDifferenceSpec.

(** How the floor of the decimal logarithm of a decimal is taken: in
    exact arithmetic, as the formula of the design document reads, or
    through a float, as [math.log10] does. *)
Variable floor_log10 : PyDecimal.Decimal -> result Z.

(** "if freq is 0 and at least one Frequency sample exists, the chosen
    frequency is the running mean of Frequency samples, else freq
    itself" *)
Definition chosen_frequency (self : MeasureLog) (freq : PyDecimal.Decimal)
  : result PyDecimal.Decimal :=
  is_0 <- PyDecimal.eq freq (PyDecimal.of_int 0) ;;
  match is_0, map fst (frequencies self) with
  | true, v :: rest =>
      total <- py_sum (v :: rest) ;;
      PyDecimal.div (PyNumber.to_Decimal total)
        (PyDecimal.of_int (Z.of_nat (List.length (v :: rest))))
  | _, _ => Ok freq
  end.

(** "if target_freq is 0, the target is the chosen frequency rounded to
    -floor(log10(|frequency + 0.1|)) + 3 decimal places, else
    target_freq itself" *)
Definition chosen_target (frequency target_freq : PyDecimal.Decimal)
  : result PyDecimal.Decimal :=
  is_0 <- PyDecimal.eq target_freq (PyDecimal.of_int 0) ;;
  if is_0 then
    shifted <- PyDecimal.add frequency Decimal_0_1 ;;
    magnitude <- PyDecimal.abs shifted ;;
    l <- floor_log10 magnitude ;;
    PyDecimal.round frequency (- l + 3)
  else Ok target_freq.

(** "ppm is 1,000,000 x difference / target when target > 0 and 0.0
    otherwise" *)
Definition ppm_of (difference target : PyDecimal.Decimal) : result number :=
  positive <- PyDecimal.gt target (PyDecimal.of_int 0) ;;
  if positive then
    scaled <- PyDecimal.mul difference (PyDecimal.of_int 1000000) ;;
    q <- PyDecimal.div scaled target ;;
    Ok (Dec q)
  else Ok (Flt (S754_zero false)).

Definition freq_difference_spec (self : MeasureLog)
  (freq target_freq : number)
  : result (PyDecimal.Decimal * PyDecimal.Decimal * number) :=
  frequency <- chosen_frequency self (PyNumber.to_Decimal freq) ;;
  target <- chosen_target frequency (PyNumber.to_Decimal target_freq) ;;
  difference <- PyDecimal.sub frequency target ;;
  ppm <- ppm_of difference target ;;
  Ok (target, difference, ppm).

End FreqDifferenceSpec.

(** The floor of the decimal logarithm of a decimal above zero, in exact
    arithmetic: [c * 10^e] with a coefficient of [n] digits lies from
    [10^(e+n-1)] up to, and not at, [10^(e+n)]. *)
Definition floor_log10_exact (d : PyDecimal.Decimal) : result Z :=
  match d with
  | PyDecimal.Finite false (Npos p) e =>
      Ok (PyDecimal.adjusted (Npos p) e)
  | _ => Raise ValueError
  end.

(** The floor of the logarithm as [math.floor(math.log10(d))] takes it:
    of the float nearest to the decimal, by the [log10] of the C
    library. *)
Definition floor_log10_of_float (log10 : PyFloat.float -> PyFloat.float)
  (d : PyDecimal.Decimal) : result Z :=
  (x <- float_of_Decimal d ;;
   y <- math_log10 log10 x ;;
   math_floor y)%result.

(** The decimal 999.89999999999999999999, the float 1000.0 and the float
    nearest to 10000000.1. *)
Definition just_below_999_9 : PyDecimal.Decimal :=
  PyDecimal.Finite false 99989999999999999999999 (-20).

Definition float_1000 : PyFloat.float := PyFloat.of_decimal false 1000 0.

Definition float_10000000_1 : PyFloat.float :=
  PyFloat.of_decimal false 100000001 (-1).

Definition float_same (a b : PyFloat.float) : bool :=
  match a, b with
  | S754_finite s m e, S754_finite s' m' e' =>
      Bool.eqb s s' && Pos.eqb m m' && Z.eqb e e'
  | S754_zero s, S754_zero s' => Bool.eqb s s'
  | S754_infinity s, S754_infinity s' => Bool.eqb s s'
  | S754_nan, S754_nan => true
  | _, _ => false
  end.

(** Two values of the [log10] of the C library, as CPython returns them:
    3.0 at 1000.0, and 0x1.c0000004a9c79p+2, which is
    7.000000004342945, at the float nearest to 10000000.1.  It stands for
    nothing elsewhere, and gives a NaN there. *)
Definition log10_at_two_points (x : PyFloat.float) : PyFloat.float :=
  if float_same x float_1000 then PyFloat.of_decimal false 3 0
  else if float_same x float_10000000_1
       then S754_finite false 7881299352788089 (-50)
       else S754_nan.

(** The header as the design document gives it. *)
Definition documented_header : string :=
  "Notes,Start Time,Stop Time,Target Freq,Average Freq (Hz),Difference (mHz),STDev (mHz),Gate Time,Pk-Pk (mHz),Power (dBm),Minimum,Maximum,Channel,Count,50 Ohm,ppm".

(** The columns of the design document, each with the text the row has
    for it. *)
Definition row_by_column (notes : string) (t : StatsTexts)
  : list (string * string) :=
  [("Notes",
    PyStr.slice None (Some (-2)) (PyStr.replace_char newline "; " notes));
   ("Start Time", start_time_text t);
   ("Stop Time", stop_time_text t);
   ("Target Freq", target_frequency_text t);
   ("Average Freq (Hz)", avg_frequency_text t);
   ("Difference (mHz)", difference_text t);
   ("STDev (mHz)", std_dev_text t);
   ("Gate Time", gate_time_text t);
   ("Pk-Pk (mHz)", peak_to_peak_text t);
   ("Power (dBm)", latest_power_text t);
   ("Minimum", min_text t);
   ("Maximum", max_text t);
   ("Channel", channel_text t);
   ("Count", count_text t);
   ("50 Ohm", imp50_text t);
   ("ppm", ppm_text t)].

(** A world to run examples in: a new log, a clock that reads 100.0,
    100.5, 101.0, ... *)
Definition example_clock (n : nat) : PyFloat.float :=
  PyFloat.of_decimal false (1000 + 5 * N.of_nat n) (-1).

Definition example_world : World :=
  fst (MeasureLog_init
         (mkWorld (mkMeasureLog [] [] [] (S754_zero false) false
                                FASettings_init)
                  example_clock 0 [])).

Definition example_ui : Ui := mkUi [] true true [] 0 [] [].

Definition string_result_eqb (a b : result string) : bool :=
  match a, b with
  | Ok x, Ok y => String.eqb x y
  | _, _ => false
  end.

(** A text that does not begin, or does not end, with a blank. *)
Definition starts_nonspace (sub : string) : bool :=
  match sub with
  | String a _ => negb (PyStr.isspace a)
  | EmptyString => false
  end.

Fixpoint ends_nonspace (sub : string) : bool :=
  match sub with
  | EmptyString => false
  | String a EmptyString => negb (PyStr.isspace a)
  | String _ r => ends_nonspace r
  end.

(** A frequency without a power, as a line that ends in CR LF. *)
Definition frequency_only_line : string := "$A0010000000.001000001" ++ CRLF.

(** A settings reply with a blank before it, and a reply that has [POK]
    in it and [DOK] at its end. *)
Definition settings_reply : string := "$APIR ,0009999999.999870000,+00127,DOK".
Definition indented_settings_reply : string := " " ++ settings_reply.
Definition power_settings_reply : string := "$APIR ,POK,DOK".

(** The stream line of the design document. *)
Definition stream_line : string := "$A0010000000.001000001,+00129,".

(** A gate-time acknowledgement that has no digits where the gate time is
    read. *)
Definition short_acknowledgement : string := "AOK" ++ CRLF.

(** The log at the moment [add_string] decodes a line: after the pending
    reset, if there is one, and the reading of the clock. *)
Definition world_after_reset (w : World) : World :=
  if reset_on_the_next_read (ml w) then fst (reset true w) else w.

Definition world_at_decoding (w : World) : World :=
  fst (time_time (world_after_reset w)).

Definition timestamp_at_decoding (w : World) : PyFloat.float :=
  let w1 := world_after_reset w in
  PyFloat.sub (clock w1 (clock_reads w1)) (start_time (ml w1)).

(** The log once the line and its settings are in. *)
Definition world_with_line (line : string) (delta : FASettings) (w : World)
  : World :=
  let w2 := world_at_decoding w in
  mkWorld
    (set_latest_settings
       (update_settings (latest_settings (ml w2)) delta)
       (set_strings
          (strings (ml w2) ++ [(line, timestamp_at_decoding w)])%list
          (ml w2)))
    (clock w2) (clock_reads w2) (stdout w2).

(** The loop of [add_string] over the measurements of a line. *)
Definition store_all (timestamp : PyFloat.float)
  (measurements : list (Category * string)) : M unit :=
  for_each measurements (fun measurement =>
    try_except_InvalidOperation
      (store_measurement timestamp measurement)
      (print "not a number, need to look into why")).

(** A text without a decimal point. *)
Fixpoint no_point (s : string) : bool :=
  match s with
  | EmptyString => true
  | String c r => negb (Ascii.eqb c "."%char) && no_point r
  end.

(* ===================================================================== *)
(** * Further parts of the code *)

(** ** Texts and measurements *)

(** A text of digits only. *)
Fixpoint all_digits (s : string) : bool :=
  match s with
  | EmptyString => true
  | String c r => PyStr.isdigit c && all_digits r
  end.

(** A text of white space only, as [str.isspace] has it. *)
Fixpoint all_space (s : string) : bool :=
  match s with
  | EmptyString => true
  | String c r => PyStr.isspace c && all_space r
  end.

(** A measurement of the category [FREQUENCY], and one of [POWER]. *)
Definition is_frequency (m : Category * string) : bool :=
  match fst m with FREQUENCY => true | _ => false end.

Definition is_power (m : Category * string) : bool :=
  match fst m with POWER => true | _ => false end.

(** A decimal that is a number or an infinity. *)
Definition not_nan (d : PyDecimal.Decimal) : bool :=
  negb (PyDecimal.is_nan d).

(** ** Statistics of the log *)

(** [a < b] *)
Definition Decimal_lt (a b : PyDecimal.Decimal) : result bool :=
  if PyDecimal.is_nan a || PyDecimal.is_nan b then Raise InvalidOperation
  else Ok (match PyDecimal.cmp a b with Lt => true | _ => false end).

(** [min(values)] and [max(values)] of a sequence that is not empty: the
    first is the best so far, and a later item takes its place when
    [item < best], for [max] when [item > best]. *)
Definition py_best
  (better : PyDecimal.Decimal -> PyDecimal.Decimal -> result bool)
  (first : PyDecimal.Decimal) (rest : list PyDecimal.Decimal)
  : result PyDecimal.Decimal :=
  fold_left
    (fun acc item =>
       (best <- acc ;;
        b <- better item best ;;
        Ok (if b then item else best))%result)
    rest (Ok first).

(** [MeasureLog.min_value] *)
Definition min_value (self : MeasureLog) (category : string)
  : result number :=
  let data := _get_data self category in
  match map fst data with
  | first :: rest => m <- py_best Decimal_lt first rest ;; Ok (Dec m)
  | [] => Ok PyNumber.float_zero
  end.

(** [MeasureLog.max_value] *)
Definition max_value (self : MeasureLog) (category : string)
  : result number :=
  let data := _get_data self category in
  match map fst data with
  | first :: rest => m <- py_best PyDecimal.gt first rest ;; Ok (Dec m)
  | [] => Ok PyNumber.float_zero
  end.

(** [a - b] for two numbers; [None] is the [TypeError] of Python for a
    decimal and a float. *)
Definition number_sub (a b : number) : option (result number) :=
  match a, b with
  | Dec x, Dec y => Some (d <- PyDecimal.sub x y ;; Ok (Dec d))
  | Dec x, Int y =>
      Some (d <- PyDecimal.sub x (PyDecimal.of_int y) ;; Ok (Dec d))
  | Int x, Dec y =>
      Some (d <- PyDecimal.sub (PyDecimal.of_int x) y ;; Ok (Dec d))
  | Flt x, Flt y => Some (Ok (Flt (PyFloat.sub x y)))
  | Flt x, Int y => Some (f <- PyFloat.of_int y ;; Ok (Flt (PyFloat.sub x f)))
  | Int x, Flt y => Some (f <- PyFloat.of_int x ;; Ok (Flt (PyFloat.sub f y)))
  | Int x, Int y => Some (Ok (Int (x - y)))
  | Dec _, Flt _ | Flt _, Dec _ => None
  end.

(** [MeasureLog.peak_to_peak]; neither value is ever [None]. *)
Definition peak_to_peak (self : MeasureLog) (category : string)
  : option (result number) :=
  match min_value self category with
  | Raise e => Some (Raise e)
  | Ok min_val =>
      match max_value self category with
      | Raise e => Some (Raise e)
      | Ok max_val => number_sub max_val min_val
      end
  end.

(** The log after five lines of the stream, the frequencies neither in
    rising nor in falling order, and one with fewer decimal places than
    the others. *)
Definition five_lines : list string :=
  ["$A0010000000.001000001,+00129,";
   "$A0009999999.998700001,+00129,";
   "$A0010000000.002500001,+00129,";
   "$A0010000000.0001,+00129,";
   "$A0009999999.999100001,+00129,"].

Definition log_of_five_lines : MeasureLog :=
  ml (fold_left (fun w line => fst (add_string line w)) five_lines
                example_world).

(** [MeasureLog.latest_value] *)
Definition latest_value (self : MeasureLog) (category : string)
  : number * number :=
  let data := _get_data self category in
  match data with
  | first :: _ =>
      let item := last data first in (Dec (fst item), Flt (snd item))
  | [] => (PyNumber.float_zero, PyNumber.float_zero)
  end.

(** [MeasureLog.get_freq_list]; [None] is the [None] of the source. *)
Definition get_freq_list (self : MeasureLog) (category : string)
  : option (list PyDecimal.Decimal * list PyFloat.float) :=
  let data := _get_data self category in
  match data with
  | _ :: _ => Some (map fst data, map snd data)
  | [] => None
  end.

Section Statistics.

(** [statistics.stdev] on decimals, and [round(x, ndigits)] on a float,
    are taken as they are. *)
Variable stdev : list PyDecimal.Decimal -> result number.
Variable round_float : PyFloat.float -> Z -> PyFloat.float.

(** [MeasureLog.std_dev_value] *)
Definition std_dev_value (self : MeasureLog) (category : string)
  : result number :=
  let data := _get_data self category in
  match data with
  | _ :: _ :: _ => stdev (map fst data)
  | _ => Ok PyNumber.float_zero
  end.

(** [MeasureLog.get_time_interval]: with fewer than two samples the
    interval is the integer [0], and so are its rounding and its
    product. *)
Definition get_time_interval (self : MeasureLog) (category : string)
  : result Z :=
  let data := _get_data self category in
  let n := List.length data in
  if (1 <? n)%nat then
    let zero := S754_zero false in
    let interval :=
      PyFloat.sub (snd (nth (n - 1) data (PyDecimal.of_int 0, zero)))
                  (snd (nth (n - 2) data (PyDecimal.of_int 0, zero))) in
    thousand <- PyFloat.of_int 1000 ;;
    PyFloat.to_int (PyFloat.mul (round_float interval 3) thousand)
  else Ok 0.

End Statistics.

(** ** Grouping digits, continued *)

(** A text with its blanks taken out. *)
Fixpoint without_blanks (s : string) : string :=
  match s with
  | EmptyString => EmptyString
  | String c r =>
      if Ascii.eqb c " "%char then without_blanks r
      else String c (without_blanks r)
  end.

(** A text with neither a blank nor a line feed in it. *)
Fixpoint unbroken (s : string) : bool :=
  match s with
  | EmptyString => true
  | String c r =>
      negb (Ascii.eqb c " "%char) && negb (Ascii.eqb c newline)
      && unbroken r
  end.

(** ** The worker thread *)

(** [s.endswith(suffix)] *)
Fixpoint endswith (s suffix : string) : bool :=
  String.eqb s suffix
  || match s with
     | EmptyString => false
     | String _ r => endswith r suffix
     end.

(** What a turn of the loop of [read_line] finds at the port: nothing
    waiting, the decoded text of what [readline] returned, or a
    [SerialException] with its message. *)
Inductive port_event : Type :=
| Nothing_waiting
| Read (datastring : string)
| Port_failure (message : string).

(** How [read_line] ends on the events given: with a line, with the
    exception, or still in its loop, with the text read so far. *)
Inductive read_result : Type :=
| Line (line : string)
| SerialException (message : string)
| Still_reading (buffer : string).

(** The loop of [Worker.read_line]; the pauses between two turns are left
    out. *)
Fixpoint read_line_from (buffer : string) (events : list port_event)
  : read_result * list port_event :=
  match events with
  | [] => (Still_reading buffer, [])
  | Nothing_waiting :: rest => read_line_from buffer rest
  | Port_failure message :: rest => (SerialException message, rest)
  | Read datastring :: rest =>
      if PyStr.is_empty datastring then read_line_from buffer rest
      else
        let buffer := buffer ++ datastring in
        if endswith buffer CRLF then (Line buffer, rest)
        else read_line_from buffer rest
  end.

(** [Worker.read_line] *)
Definition read_line (events : list port_event)
  : read_result * list port_event :=
  read_line_from "" events.

(** The texts read by a run of events. *)
Fixpoint texts_read (events : list port_event) : string :=
  match events with
  | [] => ""
  | Read datastring :: rest => datastring ++ texts_read rest
  | _ :: rest => texts_read rest
  end.








(** ** The window *)

(** The window, as far as the handling of a received line goes: the queue
    and the port of [Ui], the flag that asks for the settings of the
    device, and the text of the status label.  The labels of the
    measurement are not part of it. *)
Record Window : Type := mkWindow {
  ui : Ui;
  get_FA_settings : bool;
  status_label : string
}.

(** How a slot ends: it returns, or the [IndexError] of [serial_data[0]]
    on an empty text leaves it. *)
Inductive slot_result : Type :=
| Slot_returns
| IndexError.

(** [MainWindow.print_message_on_screen] *)
Definition print_message_on_screen (text : string) (u : Ui) : Ui :=
  mkUi (command_queue u) (waiting_for_command u)
       (is_serial_port_established u) (serial_written u) (sleeps u)
       (data_textEdit_all u) (warnings u ++ [text]).

(** [self.data_textEdit_all.append(text)] *)
Definition append_to_data_textEdit_all (text : string) (u : Ui) : Ui :=
  mkUi (command_queue u) (waiting_for_command u)
       (is_serial_port_established u) (serial_written u) (sleeps u)
       (data_textEdit_all u ++ [text]) (warnings u).

(** [MainWindow.read_data_from_thread].  For a line that begins with [$]
    the labels of the measurement are set inside a [try] that catches
    every exception; nothing in it touches what [Window] holds. *)
Definition read_data_from_thread (serial_data : string) (win : Window)
  : Window * slot_result :=
  if PyStr.contains "ERROR_SERIAL_EXCEPTION" serial_data then
    (mkWindow
       (print_message_on_screen
          ("Serial Port Exception! Please check the serial port"
           ++ " Possibly it is not connected or the port is not available!")
          (ui win))
       (get_FA_settings win) "NOT CONNECTED!",
     Slot_returns)
  else if is_serial_port_established (ui win) then
    let win := mkWindow (ui win) (get_FA_settings win) "CONNECTED!" in
    let win :=
      if get_FA_settings win then
        mkWindow
          (send_to_command_buffer (Member GET_GATE_TIME_SETTING)
             (send_to_command_buffer (Member GET_FREQ_POWER_SETTINGS)
                (ui win)))
          false (status_label win)
      else win in
    match serial_data with
    | EmptyString => (win, IndexError)
    | String first _ =>
        let win :=
          if Ascii.eqb first "$"
             || String.eqb (PyStr.slice (Some (-4)) (Some (-2)) serial_data)
                           "OK"
          then mkWindow (send_command "" (ui win)) (get_FA_settings win)
                        (status_label win)
          else win in
        if Ascii.eqb first "$" then (win, Slot_returns)
        else
          (mkWindow
             (append_to_data_textEdit_all (PyStr.strip serial_data)
                                          (ui win))
             (get_FA_settings win) (status_label win),
           Slot_returns)
    end
  else (win, Slot_returns).

(** The slot, called for one emitted text after the other, until an
    exception leaves it. *)
Fixpoint receive_all (texts : list string) (win : Window) : Window :=
  match texts with
  | [] => win
  | serial_data :: rest =>
      match read_data_from_thread serial_data win with
      | (win', Slot_returns) => receive_all rest win'
      | (win', IndexError) => win'
      end
  end.

(** A text after which the slot calls [send_command]. *)
Definition releases_a_command (serial_data : string) : bool :=
  negb (PyStr.contains "ERROR_SERIAL_EXCEPTION" serial_data)
  && (prefix "$" serial_data
      || String.eqb (PyStr.slice (Some (-4)) (Some (-2)) serial_data) "OK").

(** The buttons and labels that [update_gui_settings] sets: the style
    sheets of the buttons, and the texts. *)
Record Buttons : Type := mkButtons {
  button_command_ch1 : string;
  button_command_ch2 : string;
  button_command_intosc : string;
  label_freq_clockref : string;
  label_gatetime : string;
  button_command_precision_text : string;
  button_command_precision : string;
  button_command_lpf_text : string;
  button_command_lpf : string;
  button_command_impedance_text : string;
  button_command_impedance : string
}.

Definition green : string := "background-color: green; color: white;".

(** The sign for ohm, in UTF-8. *)
Definition ohm : string :=
  String (ascii_of_nat 206) (String (ascii_of_nat 169) "").

(** The truth of a setting that may be [None]. *)
Definition truthy (b : option bool) : bool :=
  match b with Some true => true | _ => false end.

Definition channel_is (settings : FASettings) (text : string) : bool :=
  match channel settings with
  | Some c => String.eqb c text
  | None => false
  end.

(** [MainWindow.update_gui_settings], one statement after the other. *)
Definition update_gui_settings (settings : FASettings) (b : Buttons)
  : Buttons :=
  let set_channels (ch1 ch2 intosc : string) (b : Buttons) :=
    mkButtons ch1 ch2 intosc (label_freq_clockref b) (label_gatetime b)
      (button_command_precision_text b) (button_command_precision b)
      (button_command_lpf_text b) (button_command_lpf b)
      (button_command_impedance_text b) (button_command_impedance b) in
  let b := if channel_is settings "Channel: 1"
           then set_channels green "" "" b else b in
  let b := if channel_is settings "Channel: 2"
           then set_channels "" green "" b else b in
  let b := if channel_is settings "Channel: Internal Clock"
           then set_channels "" "" green b else b in
  let clockref :=
    if truthy (ext_reference_osc settings) then "Ref Clock: External"
    else "Ref Clock: Internal" in
  let gatetime :=
    "Gate Time: " ++ PyStr.str_of_Z (gate_time settings) ++ " ms" in
  let '(precision_text, precision_style) :=
    if truthy (precision settings) then ("Precision is ON", green)
    else ("Precision is OFF", "") in
  let '(lpf_text, lpf_style) :=
    if truthy (lpf settings) then ("LPF is ON", green)
    else ("LPF is OFF", "") in
  if truthy (imp50 settings) then
    mkButtons (button_command_ch1 b) (button_command_ch2 b)
      (button_command_intosc b) clockref gatetime
      precision_text precision_style lpf_text lpf_style
      ("Zin = 50" ++ ohm) green
  else
    mkButtons (button_command_ch1 b) (button_command_ch2 b)
      (button_command_intosc b) clockref gatetime
      precision_text "" lpf_text lpf_style
      ("Zin = 1M" ++ ohm) (button_command_impedance b).

(** The two queries of the settings, queued by the slot when the flag
    goes from set to cleared. *)
Definition queries_queued (before after : bool) : list command :=
  if before && negb after
  then [Member GET_FREQ_POWER_SETTINGS; Member GET_GATE_TIME_SETTING]
  else [].

(* ===================================================================== *)
(** * Properties *)

(** ** Checking a finite range by computation *)

Lemma forallb_below (P : Z -> bool) (n : nat) :
  forallb P (map Z.of_nat (seq 0 n)) = true ->
  forall s, 0 <= s < Z.of_nat n -> P s = true.
Proof.
  intros H s Hs.
  rewrite forallb_forall in H.
  apply H, in_map_iff.
  exists (Z.to_nat s); split; [lia|].
  apply in_seq; lia.
Qed.

Lemma string_result_eqb_eq (a b : result string) :
  string_result_eqb a b = true -> a = b.
Proof.
  destruct a as [x|e], b as [y|e']; simpl; try discriminate.
  intros H; apply String.eqb_eq in H; now subst.
Qed.

(** ** The gate-time command *)

(** The float product is truncated, so a gate time that is not a whole
    number of milliseconds in binary can lose its last millisecond. *)
Example gate_time_1001_ms_truncates :
  make_gate_time_command "1.001" = Ok "$A01000*".
Proof. vm_compute. reflexivity. Qed.

(** Every member of [Commands] goes on the wire as a text that begins
    with [$] and ends with [*]. *)
Example commands_wire_format :
  forallb (fun c => prefix "$" (value c)
                    && String.eqb (PyStr.slice (Some (-1)) None (value c)) "*")
          all_commands = true
  /\ List.length all_commands = 47%nat.
Proof. split; vm_compute; reflexivity. Qed.

Example gate_time_constants_agree :
  map make_gate_time_command ["0.1"; "1"; "2"; "20"]
  = map (fun c => Ok (value c))
        [SET_GATE_TIME_100MS; SET_GATE_TIME_1000MS; SET_GATE_TIME_2000MS;
         SET_GATE_TIME_20000MS].
Proof. vm_compute. reflexivity. Qed.

(** C2, as the design document states it, fails: a gate time given in
    milliseconds is multiplied by a thousand.  For 2000 the builder
    returns [$A2000000*], not [$A02000*].  Nor does every number of
    milliseconds come out when it is given in seconds: the product is a
    float, and 1.001 seconds give the payload of 1000 milliseconds. *)
Lemma gate_time_in_milliseconds_refuted :
  (make_gate_time_command "2000" = Ok "$A2000000*"
   /\ gate_time_payload 2000 = "$A02000*"
   /\ make_gate_time_command "2000" <> Ok (gate_time_payload 2000))
  /\ (make_gate_time_command "1.001" = Ok "$A01000*"
      /\ make_gate_time_command "1.001" <> Ok (gate_time_payload 1001)).
Proof.
  repeat split; try (vm_compute; reflexivity); vm_compute; discriminate.
Qed.

(** C2, amended: the builder takes the gate time in seconds.  For every
    whole number of seconds [s] below 100 it returns [$A], then [1000 * s]
    as five digits with leading zeros, then [*]; and the eight gate times
    of the window give the payloads of 100, 200, 500, 1000, 2000, 5000,
    10000 and 20000 milliseconds (2 seconds give [$A02000*]). *)
Theorem gate_time_command_of_seconds :
  forall s : Z, 0 <= s < 100 ->
    make_gate_time_command (PyStr.str_of_Z s)
    = Ok (gate_time_payload (1000 * s))
    /\ map make_gate_time_command window_gate_times
       = map (fun g => Ok (gate_time_payload g))
             [100; 200; 500; 1000; 2000; 5000; 10000; 20000].
Proof.
  intros s Hs; split.
  - apply string_result_eqb_eq.
    apply (forallb_below
             (fun s => string_result_eqb
                         (make_gate_time_command (PyStr.str_of_Z s))
                         (Ok (gate_time_payload (1000 * s))))
             100); [vm_compute; reflexivity | exact Hs].
  - vm_compute. reflexivity.
Qed.

Lemma gate_time_command_of_seconds_witness :
  make_gate_time_command (PyStr.str_of_Z 2) = Ok (gate_time_payload (1000 * 2))
  /\ map make_gate_time_command window_gate_times
     = map (fun g => Ok (gate_time_payload g))
           [100; 200; 500; 1000; 2000; 5000; 10000; 20000].
Proof. apply (gate_time_command_of_seconds 2). lia. Defined.

(** ** The settings tracker *)

(** C4: [update_settings] overwrites a field exactly when the delta has a
    value for it, and the gate time exactly when the delta's is positive;
    every other field keeps its value.  With the channel known and no
    channel in the delta, the channel stays. *)
Theorem update_settings_overwrites_only_present :
  (forall current delta : FASettings,
      update_settings current delta = merge current delta)
  /\ (forall current delta : FASettings,
         channel delta = None ->
         channel (update_settings current delta) = channel current)
  /\ (forall current delta : FASettings,
         gate_time delta <= 0 ->
         gate_time (update_settings current delta) = gate_time current).
Proof.
  assert (E : forall current delta, update_settings current delta
                                    = merge current delta).
  { intros [c i p e l g] [c' i' p' e' l' g'].
    unfold update_settings, merge; simpl.
    rewrite Z.gtb_ltb.
    destruct c', i', p', e', l', (0 <? g'); reflexivity. }
  split; [exact E|]. split; intros current delta H; rewrite E; simpl.
  - now rewrite H.
  - destruct (0 <? gate_time delta) eqn:G; [apply Z.ltb_lt in G; lia|].
    reflexivity.
Qed.

Lemma update_settings_overwrites_only_present_witness :
  channel (update_settings
             (mkFASettings (Some "Channel: 2") None None None None 1000)
             (mkFASettings None (Some true) None None None 0))
  = channel (mkFASettings (Some "Channel: 2") None None None None 1000).
Proof.
  apply (proj1 (proj2 update_settings_overwrites_only_present)).
  reflexivity.
Defined.

Example update_settings_keeps_channel :
  channel (update_settings
             (mkFASettings (Some "Channel: 2") None None None None 1000)
             (mkFASettings None (Some true) None None None 0))
  = Some "Channel: 2".
Proof. reflexivity. Qed.

(** ** Blanks at the ends of a line *)

Lemma prefix_empty_right (sub : string) :
  prefix sub "" = PyStr.is_empty sub.
Proof. destruct sub; reflexivity. Qed.

Lemma prefix_empty_left (s : string) : prefix "" s = true.
Proof. destruct s; reflexivity. Qed.

Lemma ends_nonspace_not_empty (sub : string) :
  ends_nonspace sub = true -> PyStr.is_empty sub = false.
Proof. destruct sub; [discriminate | reflexivity]. Qed.

Lemma contains_lstrip (sub s : string) :
  starts_nonspace sub = true ->
  PyStr.contains sub (PyStr.lstrip s) = PyStr.contains sub s.
Proof.
  intros Hsub. induction s as [|c r IH]; [reflexivity|].
  cbn [PyStr.lstrip].
  destruct (PyStr.isspace c) eqn:Hc; [|reflexivity].
  rewrite IH. cbn [PyStr.contains].
  destruct sub as [|a t]; [discriminate|].
  cbn [prefix]. destruct (ascii_dec a c) as [->|_]; [|reflexivity].
  cbn in Hsub. rewrite Hc in Hsub. discriminate.
Qed.

Lemma rstrip_cons (c : ascii) (r : string) :
  PyStr.rstrip (String c r)
  = if PyStr.is_empty (PyStr.rstrip r) && PyStr.isspace c
    then EmptyString else String c (PyStr.rstrip r).
Proof. reflexivity. Qed.

Lemma prefix_rstrip (s : string) :
  forall sub, ends_nonspace sub = true ->
    prefix sub (PyStr.rstrip s) = prefix sub s.
Proof.
  induction s as [|c r IH]; intros sub Hsub; [reflexivity|].
  destruct sub as [|a t]; [discriminate|].
  rewrite rstrip_cons.
  destruct (PyStr.is_empty (PyStr.rstrip r) && PyStr.isspace c) eqn:E.
  - apply andb_true_iff in E as [Er Ec].
    cbn [prefix]. destruct (ascii_dec a c) as [->|_]; [|reflexivity].
    destruct t as [|b t'].
    + cbn in Hsub. rewrite Ec in Hsub. discriminate.
    + rewrite <- (IH (String b t') Hsub).
      destruct (PyStr.rstrip r); [reflexivity | discriminate].
  - cbn [prefix]. destruct (ascii_dec a c) as [->|_]; [|reflexivity].
    destruct t as [|b t']; [now rewrite !prefix_empty_left|].
    apply IH. exact Hsub.
Qed.

Lemma contains_rstrip (sub s : string) :
  ends_nonspace sub = true ->
  PyStr.contains sub (PyStr.rstrip s) = PyStr.contains sub s.
Proof.
  intros Hsub. induction s as [|c r IH]; [reflexivity|].
  cbn [PyStr.contains]. rewrite <- IH, <- (prefix_rstrip (String c r) sub Hsub).
  rewrite rstrip_cons.
  destruct (PyStr.is_empty (PyStr.rstrip r) && PyStr.isspace c) eqn:E.
  - apply andb_true_iff in E as [Er _].
    destruct (PyStr.rstrip r); [|discriminate].
    cbn [PyStr.contains]. rewrite prefix_empty_right.
    now rewrite (ends_nonspace_not_empty sub Hsub).
  - reflexivity.
Qed.

(** Containing a text that has no blank at either end is the same for a
    line and for the line without the blanks at its ends. *)
Lemma contains_strip (sub s : string) :
  starts_nonspace sub = true -> ends_nonspace sub = true ->
  PyStr.contains sub (PyStr.strip s) = PyStr.contains sub s.
Proof.
  intros H1 H2. unfold PyStr.strip.
  now rewrite contains_rstrip, contains_lstrip.
Qed.

(** ** The decoder: stream lines *)

(** C1, as the design document states it, fails: the decoder does not
    split the line as received, it first removes the blanks at its ends.
    For a line without comma, the line end is part of the first field of
    the line as received and takes the place of the three characters to
    drop. *)
Lemma stream_line_as_received_refuted :
  PyStr.contains "OK" frequency_only_line = false
  /\ PyStr.contains "$" frequency_only_line = true
  /\ preprocess_string frequency_only_line
     = Ok ([(FREQUENCY, "0010000000.001000")], FASettings_init)
  /\ preprocess_string frequency_only_line
     <> Ok (stream_measurements frequency_only_line, FASettings_init).
Proof.
  repeat split; try (vm_compute; reflexivity).
  vm_compute. discriminate.
Qed.

Lemma preprocess_string_stream (line : string) :
  PyStr.contains "OK" line = false ->
  PyStr.contains "$" line = true ->
  preprocess_string line
  = Ok (stream_measurements (PyStr.strip line), FASettings_init).
Proof.
  intros Hok Hdollar.
  unfold preprocess_string, stream_measurements. cbv zeta.
  rewrite (contains_strip "OK" line eq_refl eq_refl), Hok.
  rewrite (contains_strip "$" line eq_refl eq_refl), Hdollar.
  destruct (List.length (PyStr.split "," (PyStr.strip line)) =? 3)%nat;
    reflexivity.
Qed.
(** ** Appending a line *)

Lemma add_string_decodes (line : string) (w : World)
  (ms : list (Category * string)) (delta : FASettings) :
  preprocess_string line = Ok (ms, delta) ->
  add_string line w
  = store_all (timestamp_at_decoding w) ms (world_with_line line delta w).
Proof.
  intros H.
  unfold add_string, store_all, world_with_line, world_at_decoding,
    timestamp_at_decoding, world_after_reset, bind, get_ml, lift.
  cbn [fst snd]. rewrite H.
  destruct (reset_on_the_next_read (ml w)); reflexivity.
Qed.

Lemma add_string_raises (line : string) (w : World) (e : exn) :
  preprocess_string line = Raise e ->
  add_string line w = (world_at_decoding w, Raise e).
Proof.
  intros H.
  unfold add_string, world_at_decoding, world_after_reset, bind, get_ml, lift.
  cbn [fst snd]. rewrite H.
  destruct (reset_on_the_next_read (ml w)); reflexivity.
Qed.

(** What the pending reset leaves: three empty lists and no pending
    reset. *)
Lemma world_at_decoding_pending (w : World) :
  reset_on_the_next_read (ml w) = true ->
  let m := ml (world_at_decoding w) in
  strings m = [] /\ frequencies m = [] /\ power m = []
  /\ reset_on_the_next_read m = false.
Proof.
  intros H. unfold world_at_decoding, world_after_reset. rewrite H.
  repeat split.
Qed.

Lemma world_at_decoding_not_pending (w : World) :
  reset_on_the_next_read (ml w) = false ->
  ml (world_at_decoding w) = ml w.
Proof.
  intros H. unfold world_at_decoding, world_after_reset. now rewrite H.
Qed.

(** [Decimal(s)] raises nothing but [InvalidOperation]. *)
Lemma Decimal_of_str_raises (s : string) (e : exn) :
  PyDecimal.of_str s = Raise e -> e = InvalidOperation.
Proof.
  unfold PyDecimal.of_str.
  destruct (Numeral.take_sign _) as [neg r].
  destruct (Numeral.unsigned_decimal r) as [[c x]|].
  { destruct (PyDecimal.representable c x);
      [discriminate | now intros [= <-]]. }
  destruct (_ || _); [discriminate|].
  match goal with
  | |- (let '(_, _) := ?m in _) = _ -> _ => destruct m as [g tl]
  end.
  destruct (prefix "nan" tl); [|now intros [= <-]].
  destruct (Numeral.span_digits _) as [ds tail].
  destruct (PyStr.is_empty tail); [discriminate | now intros [= <-]].
Qed.

(** A measurement whose text is not a decimal is dropped and reported,
    and the loop goes on. *)
Lemma store_malformed (timestamp : PyFloat.float) (category : Category)
  (text : string) (rest : list (Category * string)) (w : World) :
  is_ok (PyDecimal.of_str text) = false ->
  store_all timestamp ((category, text) :: rest) w
  = store_all timestamp rest
      (mkWorld (ml w) (clock w) (clock_reads w)
         (stdout w ++ ["not a number, need to look into why"])%list).
Proof.
  intros H. unfold store_all. cbn [for_each]. unfold bind at 1.
  unfold try_except_InvalidOperation, store_measurement, bind, lift.
  cbn [fst snd].
  destruct (PyDecimal.of_str text) as [d|e] eqn:E; [discriminate|].
  rewrite (Decimal_of_str_raises text e E). reflexivity.
Qed.

(** A frequency whose text is a decimal is stored with the time of the
    line, and a power is stored as a tenth of its decimal. *)
Lemma store_frequency (timestamp : PyFloat.float) (text : string)
  (d : PyDecimal.Decimal) (rest : list (Category * string)) (w : World) :
  PyDecimal.of_str text = Ok d ->
  store_all timestamp ((FREQUENCY, text) :: rest) w
  = store_all timestamp rest
      (mkWorld (set_frequencies (frequencies (ml w) ++ [(d, timestamp)])
                                (ml w))
               (clock w) (clock_reads w) (stdout w)).
Proof.
  intros H. unfold store_all. cbn [for_each]. unfold bind at 1.
  unfold try_except_InvalidOperation, store_measurement, bind, lift,
    modify_ml.
  cbn [fst snd]. rewrite H. reflexivity.
Qed.

Lemma store_power (timestamp : PyFloat.float) (text : string)
  (d tenth : PyDecimal.Decimal) (rest : list (Category * string))
  (w : World) :
  PyDecimal.of_str text = Ok d ->
  PyDecimal.div d (PyDecimal.of_int 10) = Ok tenth ->
  store_all timestamp ((POWER, text) :: rest) w
  = store_all timestamp rest
      (mkWorld (set_power (power (ml w) ++ [(tenth, timestamp)]) (ml w))
               (clock w) (clock_reads w) (stdout w)).
Proof.
  intros H1 H2. unfold store_all. cbn [for_each]. unfold bind at 1.
  unfold try_except_InvalidOperation, store_measurement, bind, lift,
    modify_ml.
  cbn [fst snd]. rewrite H1, H2. reflexivity.
Qed.

(** Storing measurements touches neither the lines nor the pending
    reset nor the settings. *)
Lemma store_one_frame (timestamp : PyFloat.float)
  (measurement : Category * string) (w : World) :
  let m := ml (fst (try_except_InvalidOperation
                      (store_measurement timestamp measurement)
                      (print "not a number, need to look into why") w)) in
  strings m = strings (ml w)
  /\ reset_on_the_next_read m = reset_on_the_next_read (ml w)
  /\ latest_settings m = latest_settings (ml w).
Proof.
  destruct measurement as [category text].
  unfold try_except_InvalidOperation, store_measurement, bind, lift,
    modify_ml, print, ret.
  cbn [fst snd].
  destruct (PyDecimal.of_str text) as [d|e].
  - destruct category.
    + destruct (PyDecimal.div d (PyDecimal.of_int 10)) as [q|e];
        [|destruct e]; repeat split.
    + repeat split.
    + repeat split.
  - destruct e; repeat split.
Qed.

Lemma store_all_cons (timestamp : PyFloat.float)
  (measurement : Category * string) (rest : list (Category * string))
  (w : World) :
  store_all timestamp (measurement :: rest) w
  = match try_except_InvalidOperation
            (store_measurement timestamp measurement)
            (print "not a number, need to look into why") w with
    | (w1, Ok _) => store_all timestamp rest w1
    | (w1, Raise e) => (w1, Raise e)
    end.
Proof. reflexivity. Qed.

Lemma store_all_frame (timestamp : PyFloat.float)
  (ms : list (Category * string)) :
  forall w : World,
    let m := ml (fst (store_all timestamp ms w)) in
    strings m = strings (ml w)
    /\ reset_on_the_next_read m = reset_on_the_next_read (ml w)
    /\ latest_settings m = latest_settings (ml w).
Proof.
  induction ms as [|measurement rest IH]; intros w; [repeat split|].
  cbv zeta. rewrite store_all_cons.
  pose proof (store_one_frame timestamp measurement w) as F. cbv zeta in F.
  destruct (try_except_InvalidOperation _ _ w) as [w1 [u|e]].
  - cbn [fst] in F. destruct F as (A & B & C).
    destruct (IH w1) as (A' & B' & C').
    split; [|split]; [now rewrite A' | now rewrite B' | now rewrite C'].
  - exact F.
Qed.

(** C1, amended: for every received line that does not contain "OK" but
    contains '$', the decoder removes the blanks at both ends of the
    line, splits what is left on commas and returns a Frequency
    measurement whose text is the first field without its first two and
    its last three characters; if the split yields exactly three fields,
    it also returns a Power measurement with the text of the second
    field.  [add_string] stores a Power whose text is a decimal as that
    decimal divided by ten.  For the line
    [$A0010000000.001000001,+00129,] it stores one Frequency sample,
    10000000.001000, and one Power sample, 12.9, which is 129 / 10. *)
Theorem stream_line_decoding :
  (forall line : string,
      PyStr.contains "OK" line = false ->
      PyStr.contains "$" line = true ->
      preprocess_string line
      = Ok (stream_measurements (PyStr.strip line), FASettings_init))
  /\ (forall (timestamp : PyFloat.float) (text : string)
             (d tenth : PyDecimal.Decimal) (rest : list (Category * string))
             (w : World),
         PyDecimal.of_str text = Ok d ->
         PyDecimal.div d (PyDecimal.of_int 10) = Ok tenth ->
         store_all timestamp ((POWER, text) :: rest) w
         = store_all timestamp rest
             (mkWorld (set_power (power (ml w) ++ [(tenth, timestamp)])
                                 (ml w))
                      (clock w) (clock_reads w) (stdout w)))
  /\ (forall w : World,
         snd (add_string stream_line w) = Ok tt
         /\ frequencies (ml (fst (add_string stream_line w)))
            = (frequencies (ml (world_at_decoding w))
               ++ [(PyDecimal.Finite false 10000000001000 (-6),
                    timestamp_at_decoding w)])%list
         /\ power (ml (fst (add_string stream_line w)))
            = (power (ml (world_at_decoding w))
               ++ [(PyDecimal.Finite false 129 (-1),
                    timestamp_at_decoding w)])%list)
  /\ (forall w : World,
         reset_on_the_next_read (ml w) = true ->
         List.length (frequencies (ml (fst (add_string stream_line w)))) = 1%nat
         /\ List.length (power (ml (fst (add_string stream_line w)))) = 1%nat)
  /\ PyDecimal.div (PyDecimal.of_int 129) (PyDecimal.of_int 10)
     = Ok (PyDecimal.Finite false 129 (-1))
  /\ PyDecimal.to_str (PyDecimal.Finite false 129 (-1)) = "12.9".
Proof.
  assert (S : forall w : World,
             add_string stream_line w
             = (mkWorld
                  (set_power
                     (power (ml (world_at_decoding w))
                      ++ [(PyDecimal.Finite false 129 (-1),
                           timestamp_at_decoding w)])
                     (set_frequencies
                        (frequencies (ml (world_at_decoding w))
                         ++ [(PyDecimal.Finite false 10000000001000 (-6),
                              timestamp_at_decoding w)])
                        (ml (world_with_line stream_line FASettings_init w))))
                  (clock (world_at_decoding w))
                  (clock_reads (world_at_decoding w))
                  (stdout (world_at_decoding w)), Ok tt)).
  { intros w.
    rewrite (add_string_decodes stream_line w
               [(FREQUENCY, "0010000000.001000"); (POWER, "+00129")]
               FASettings_init) by (vm_compute; reflexivity).
    rewrite (store_frequency _ _ (PyDecimal.Finite false 10000000001000 (-6)))
      by (vm_compute; reflexivity).
    rewrite (store_power _ _ (PyDecimal.Finite false 129 0)
               (PyDecimal.Finite false 129 (-1)))
      by (vm_compute; reflexivity).
    reflexivity. }
  split; [exact preprocess_string_stream|].
  split; [exact store_power|].
  split; [intros w; rewrite S; repeat split|].
  split; [|split; vm_compute; reflexivity].
  intros w H. rewrite S. cbn [fst ml set_power set_frequencies frequencies power].
  destruct (world_at_decoding_pending w H) as (_ & F & P & _).
  rewrite F, P. split; reflexivity.
Qed.

Lemma stream_line_decoding_witness :
  preprocess_string stream_line
  = Ok (stream_measurements (PyStr.strip stream_line), FASettings_init).
Proof.
  apply (proj1 stream_line_decoding stream_line); vm_compute; reflexivity.
Defined.

Example stream_line_with_line_end :
  preprocess_string (stream_line ++ CRLF)
  = Ok ([(FREQUENCY, "0010000000.001000"); (POWER, "+00129")],
        FASettings_init).
Proof. vm_compute. reflexivity. Qed.

(** ** The decoder: settings replies *)

(** C3, as the design document states it, fails twice.  The positions
    are counted after the blanks at the ends of the line are removed, so
    a reply with a blank before it is not decoded from its own characters
    1 to 5; and a line that has "POK" anywhere in it is decoded as a
    power reading, whatever its last three characters. *)
Lemma settings_reply_as_received_refuted :
  (PyStr.contains "OK" indented_settings_reply = true
   /\ PyStr.slice (Some (-3)) None indented_settings_reply = "DOK"
   /\ preprocess_string indented_settings_reply
      <> Ok ([], positional_delta indented_settings_reply))
  /\ (PyStr.contains "OK" power_settings_reply = true
      /\ PyStr.slice (Some (-3)) None power_settings_reply = "DOK"
      /\ preprocess_string power_settings_reply
         = Ok ([(POWER, "PIR ,POK")], FASettings_init)
      /\ preprocess_string power_settings_reply
         <> Ok ([], positional_delta power_settings_reply)).
Proof.
  repeat split; try (vm_compute; reflexivity); vm_compute; discriminate.
Qed.

(** C3, amended: for every line that contains "OK" but not "POK" and
    whose last three characters, once the blanks at both ends are
    removed, are "DOK", the decoder returns no measurement and a settings
    delta decoded from the characters 1 to 5 (counted from 0) of the line
    without those blanks: channel from index 1 ('A' is Channel 1, 'B' is
    Channel 2, 'T' is the internal clock, anything else is unknown),
    precision = (index 2 is 'P'), external reference = (index 3 is 'E'),
    50 ohm = (index 4 is 'R'), low-pass filter = (index 5 is 'L').  For
    [$APIR ,0009999999.999870000,+00127,DOK] the delta has channel
    "Channel: 1", precision true, external reference false, 50 ohm true
    and low-pass filter false. *)
Theorem settings_reply_decoding :
  (forall line : string,
      PyStr.contains "OK" line = true ->
      PyStr.contains "POK" line = false ->
      PyStr.slice (Some (-3)) None (PyStr.strip line) = "DOK" ->
      preprocess_string line = Ok ([], positional_delta (PyStr.strip line)))
  /\ preprocess_string settings_reply
     = Ok ([], mkFASettings (Some "Channel: 1") (Some true) (Some true)
                            (Some false) (Some false) 0)
  /\ (channel_to_text "A" = Some "Channel: 1"
      /\ channel_to_text "B" = Some "Channel: 2"
      /\ channel_to_text "T" = Some "Channel: Internal Clock"
      /\ forall c : string,
           c <> "A" -> c <> "B" -> c <> "T" -> channel_to_text c = None).
Proof.
  split; [|split; [vm_compute; reflexivity|]].
  - intros line Hok Hpok Hdok.
    unfold preprocess_string. cbv zeta.
    rewrite (contains_strip "OK" line eq_refl eq_refl), Hok.
    rewrite (contains_strip "POK" line eq_refl eq_refl), Hpok.
    rewrite Hdok.
    change (String.eqb "AOK" "DOK") with false.
    change (String.eqb "GOK" "DOK") with false.
    change (String.eqb "DOK" "DOK") with true.
    reflexivity.
  - repeat split.
    intros c HA HB HT. unfold channel_to_text.
    destruct (String.eqb_spec c "A"); [contradiction|].
    destruct (String.eqb_spec c "B"); [contradiction|].
    destruct (String.eqb_spec c "T"); [contradiction|].
    reflexivity.
Qed.

Lemma settings_reply_decoding_witness :
  preprocess_string settings_reply
  = Ok ([], positional_delta (PyStr.strip settings_reply)).
Proof.
  apply (proj1 settings_reply_decoding settings_reply);
    vm_compute; reflexivity.
Defined.

(** ** Malformed numbers *)

(** A frequency never stops [add_string]: a text that is no decimal is
    dropped and reported. *)
Lemma store_frequency_never_raises (timestamp : PyFloat.float)
  (text : string) (w : World) :
  snd (try_except_InvalidOperation
         (store_measurement timestamp (FREQUENCY, text))
         (print "not a number, need to look into why") w) = Ok tt.
Proof.
  unfold try_except_InvalidOperation, store_measurement, bind, lift,
    modify_ml, print.
  cbn [fst snd].
  destruct (PyDecimal.of_str text) as [d|e] eqn:E; [reflexivity|].
  now rewrite (Decimal_of_str_raises text e E).
Qed.

Lemma add_string_short_acknowledgement (w : World) :
  add_string short_acknowledgement w = (world_at_decoding w, Raise ValueError).
Proof. apply add_string_raises. vm_compute. reflexivity. Qed.

(** C5 fails on the code: the gate time of an acknowledgement is read
    with [int] outside any [try]; on the line [AOK] with its line end the
    text to read is empty, [int] raises [ValueError], and [add_string]
    ends with that exception before the line is appended. *)
Theorem malformed_gate_time_raises :
  forall w : World,
    preprocess_string short_acknowledgement = Raise ValueError
    /\ add_string short_acknowledgement w
       = (world_at_decoding w, Raise ValueError)
    /\ strings (ml (fst (add_string short_acknowledgement w)))
       = strings (ml (world_at_decoding w)).
Proof.
  intros w. rewrite add_string_short_acknowledgement.
  split; [vm_compute; reflexivity | split; reflexivity].
Qed.

(** ** The pending reset *)

(** With a reset pending, a line the decoder accepts is the only line of
    the log afterwards. *)
Lemma pending_reset_keeps_decoded_line (w : World) (line : string)
  (ms : list (Category * string)) (delta : FASettings) :
  reset_on_the_next_read (ml w) = true ->
  preprocess_string line = Ok (ms, delta) ->
  strings (ml (fst (add_string line w))) = [(line, timestamp_at_decoding w)]
  /\ reset_on_the_next_read (ml (fst (add_string line w))) = false.
Proof.
  intros Hp Hd. rewrite (add_string_decodes line w ms delta Hd).
  destruct (store_all_frame (timestamp_at_decoding w) ms
              (world_with_line line delta w)) as (A & B & _).
  rewrite A, B. unfold world_with_line. cbn [ml strings set_strings
    set_latest_settings reset_on_the_next_read].
  destruct (world_at_decoding_pending w Hp) as (S & _ & _ & R).
  rewrite S, R. split; reflexivity.
Qed.

(** C7 fails on the code, by the defect of C5: with a reset pending, the
    lists are cleared and the flag is cleared, but on the line [AOK] with
    its line end the decoder raises before the line is appended, and the
    list of lines stays empty. *)
Theorem pending_reset_loses_undecodable_line :
  forall w : World,
    reset_on_the_next_read (ml w) = true ->
    snd (add_string short_acknowledgement w) = Raise ValueError
    /\ strings (ml (fst (add_string short_acknowledgement w))) = []
    /\ frequencies (ml (fst (add_string short_acknowledgement w))) = []
    /\ power (ml (fst (add_string short_acknowledgement w))) = []
    /\ reset_on_the_next_read (ml (fst (add_string short_acknowledgement w)))
       = false.
Proof.
  intros w H. rewrite add_string_short_acknowledgement. cbn [fst snd].
  destruct (world_at_decoding_pending w H) as (A & B & C & D).
  repeat split; assumption.
Qed.

Lemma pending_reset_loses_undecodable_line_witness :
  snd (add_string short_acknowledgement example_world) = Raise ValueError
  /\ strings (ml (fst (add_string short_acknowledgement example_world))) = []
  /\ frequencies (ml (fst (add_string short_acknowledgement example_world)))
     = []
  /\ power (ml (fst (add_string short_acknowledgement example_world))) = []
  /\ reset_on_the_next_read
       (ml (fst (add_string short_acknowledgement example_world))) = false.
Proof.
  apply (pending_reset_loses_undecodable_line example_world). reflexivity.
Defined.

(** ** The frequency difference *)

Lemma average_value_frequency (self : MeasureLog) :
  average_value self "frequency"
  = match map fst (frequencies self) with
    | v :: rest =>
        total <- py_sum (v :: rest) ;;
        q <- PyDecimal.div (PyNumber.to_Decimal total)
               (PyDecimal.of_int (Z.of_nat (List.length (v :: rest)))) ;;
        Ok (Dec q)
    | [] => Ok PyNumber.float_zero
    end.
Proof.
  unfold average_value, _get_data.
  change (String.eqb "frequency" "frequency") with true. cbv iota.
  destruct (frequencies self) as [|p l]; reflexivity.
Qed.

(** The mean of a list that is not empty is a decimal, never the float
    of the empty list. *)
Lemma average_value_of_samples (self : MeasureLog) (avg : number) :
  frequencies self <> [] ->
  average_value self "frequency" = Ok avg ->
  exists d, avg = Dec d.
Proof.
  intros Hne. rewrite average_value_frequency.
  destruct (frequencies self) as [|p l]; [contradiction|].
  cbn [map].
  destruct (py_sum _) as [total|e]; [|discriminate]. cbn [rbind].
  destruct (PyDecimal.div _ _) as [q|e]; [|discriminate]. cbn [rbind].
  intros [= <-]. now exists q.
Qed.

Lemma get_freq_difference_refines (log10 : PyFloat.float -> PyFloat.float)
  (self : MeasureLog) (freq target_freq : number) :
  get_freq_difference log10 self freq target_freq
  = freq_difference_spec (floor_log10_of_float log10) self freq target_freq.
Proof.
  unfold get_freq_difference, freq_difference_spec, chosen_frequency.
  rewrite average_value_frequency.
  destruct (PyDecimal.eq (PyNumber.to_Decimal freq) (PyDecimal.of_int 0))
    as [is_0|e]; [|reflexivity].
  cbn [rbind].
  assert (T : forall frequency : PyDecimal.Decimal,
             (target_is_0 <- PyDecimal.eq (PyNumber.to_Decimal target_freq)
                               (PyDecimal.of_int 0) ;;
              target_frequency <-
                (if target_is_0 then
                   shifted <- PyDecimal.add frequency Decimal_0_1 ;;
                   magnitude <- PyDecimal.abs shifted ;;
                   x <- float_of_Decimal magnitude ;;
                   y <- math_log10 log10 x ;;
                   l <- math_floor y ;;
                   PyDecimal.round frequency (- l + 3)
                 else Ok (PyNumber.to_Decimal target_freq)) ;;
              difference <- PyDecimal.sub frequency target_frequency ;;
              positive <- PyDecimal.gt target_frequency (PyDecimal.of_int 0) ;;
              ppm <-
                (if positive then
                   scaled <- PyDecimal.mul difference
                               (PyDecimal.of_int 1000000) ;;
                   q <- PyDecimal.div scaled target_frequency ;;
                   Ok (Dec q)
                 else Ok PyNumber.float_zero) ;;
              Ok (target_frequency, difference, ppm))
             = (target <- chosen_target (floor_log10_of_float log10) frequency
                            (PyNumber.to_Decimal target_freq) ;;
                difference <- PyDecimal.sub frequency target ;;
                ppm <- ppm_of difference target ;;
                Ok (target, difference, ppm))).
  { intros frequency. unfold chosen_target, ppm_of, floor_log10_of_float.
    destruct (PyDecimal.eq (PyNumber.to_Decimal target_freq) _) as [t0|e];
      [|reflexivity].
    cbn [rbind].
    assert (R : (if t0 then
                   shifted <- PyDecimal.add frequency Decimal_0_1 ;;
                   magnitude <- PyDecimal.abs shifted ;;
                   x <- float_of_Decimal magnitude ;;
                   y <- math_log10 log10 x ;;
                   l <- math_floor y ;;
                   PyDecimal.round frequency (- l + 3)
                 else Ok (PyNumber.to_Decimal target_freq))
                = (if t0 then
                     shifted <- PyDecimal.add frequency Decimal_0_1 ;;
                     magnitude <- PyDecimal.abs shifted ;;
                     l <- (x <- float_of_Decimal magnitude ;;
                           y <- math_log10 log10 x ;;
                           math_floor y) ;;
                     PyDecimal.round frequency (- l + 3)
                   else Ok (PyNumber.to_Decimal target_freq))).
    { destruct t0; [|reflexivity].
      destruct (PyDecimal.add frequency Decimal_0_1) as [shifted|e];
        [|reflexivity]. cbn [rbind].
      destruct (PyDecimal.abs shifted) as [magnitude|e]; [|reflexivity].
      cbn [rbind].
      destruct (float_of_Decimal magnitude) as [x|e]; [|reflexivity].
      cbn [rbind].
      destruct (math_log10 log10 x) as [y|e]; reflexivity. }
    rewrite R.
    match goal with
    | |- rbind ?c _ = rbind ?c _ => destruct c as [target|e]; [|reflexivity]
    end.
    cbn [rbind].
    destruct (PyDecimal.sub frequency target) as [difference|e];
      [|reflexivity].
    cbn [rbind].
    destruct (PyDecimal.gt target (PyDecimal.of_int 0)) as [positive|e];
      reflexivity. }
  destruct is_0, (frequencies self) as [|p l]; cbn [andb map List.length Nat.ltb Nat.leb];
    try apply T.
  destruct (py_sum _) as [total|e]; [|reflexivity]. cbn [rbind].
  destruct (PyDecimal.div _ _) as [q|e]; [|reflexivity]. cbn [rbind].
  apply T.
Qed.

Lemma math_log10_above_zero (log10 : PyFloat.float -> PyFloat.float)
  (x : PyFloat.float) :
  (exists m e, x = S754_finite false m e) ->
  math_log10 log10 x = Ok (log10 x).
Proof. intros (m & e & ->). reflexivity. Qed.

Lemma get_freq_difference_one_sample
  (log10 : PyFloat.float -> PyFloat.float) (self : MeasureLog)
  (t : PyFloat.float) :
  math_floor (log10 float_10000000_1) = Ok 7 ->
  frequencies self = [(PyDecimal.of_int 10000000, t)] ->
  get_freq_difference log10 self (Int 0) (Int 0)
  = Ok (PyDecimal.Finite false 1000 4, PyDecimal.Finite false 0 0,
        Dec (PyDecimal.Finite false 0 (-4))).
Proof.
  intros Hl Hf. unfold get_freq_difference.
  rewrite average_value_frequency, Hf.
  cbn [PyNumber.to_Decimal map fst].
  replace (PyDecimal.eq (PyDecimal.of_int 0) (PyDecimal.of_int 0))
    with (Ok true) by (vm_compute; reflexivity).
  cbn [rbind andb List.length Nat.ltb Nat.leb].
  replace (py_sum [PyDecimal.of_int 10000000])
    with (Ok (Dec (PyDecimal.of_int 10000000))) by (vm_compute; reflexivity).
  cbn [rbind PyNumber.to_Decimal].
  replace (PyDecimal.div (PyDecimal.of_int 10000000)
             (PyDecimal.of_int (Z.of_nat 1)))
    with (Ok (PyDecimal.of_int 10000000)) by (vm_compute; reflexivity).
  cbn [rbind].
  replace (PyDecimal.add (PyDecimal.of_int 10000000) Decimal_0_1)
    with (Ok (PyDecimal.Finite false 100000001 (-1)))
    by (vm_compute; reflexivity).
  cbn [rbind].
  replace (PyDecimal.abs (PyDecimal.Finite false 100000001 (-1)))
    with (Ok (PyDecimal.Finite false 100000001 (-1)))
    by (vm_compute; reflexivity).
  cbn [rbind float_of_Decimal]. fold float_10000000_1.
  rewrite (math_log10_above_zero log10 float_10000000_1)
    by (vm_compute; eauto).
  cbn [rbind]. rewrite Hl. cbn [rbind].
  vm_compute. reflexivity.
Qed.

(** C6, as the design document states it, fails: its formula, read as
    mathematics, takes the floor of the logarithm of the decimal itself,
    and the code takes it of the float nearest to the decimal.  For the
    frequency 999.89999999999999999999 the decimal
    999.99999999999999999999 lies between 10^2 and 10^3, the floor is 2
    and the formula gives the target 999.9; its nearest float is 1000.0,
    and with a [log10] that has the floor 3 there, as that of CPython
    has, the code gives the target 1000. *)
Lemma exact_logarithm_refuted :
  (shifted <- PyDecimal.add just_below_999_9 Decimal_0_1 ;;
   PyDecimal.abs shifted)
  = Ok (PyDecimal.Finite false 99999999999999999999999 (-20))
  /\ (10 ^ 22 <= 99999999999999999999999 < 10 ^ 23
      /\ floor_log10_exact
           (PyDecimal.Finite false 99999999999999999999999 (-20)) = Ok 2)
  /\ chosen_target floor_log10_exact just_below_999_9 (PyDecimal.of_int 0)
     = Ok (PyDecimal.Finite false 9999 (-1))
  /\ float_of_Decimal
       (PyDecimal.Finite false 99999999999999999999999 (-20))
     = Ok float_1000
  /\ (forall (log10 : PyFloat.float -> PyFloat.float) (self : MeasureLog),
         math_floor (log10 float_1000) = Ok 3 ->
         get_freq_difference log10 self (Dec just_below_999_9) (Int 0)
         = Ok (PyDecimal.Finite false 1000 0,
               PyDecimal.Finite true 10000000000000000001 (-20),
               Dec (PyDecimal.Finite true 10000000000000000001000 (-20))))
  /\ PyDecimal.eq (PyDecimal.Finite false 1000 0)
                  (PyDecimal.Finite false 9999 (-1)) = Ok false
  /\ get_freq_difference log10_at_two_points
       (mkMeasureLog [] [] [] (S754_zero false) false FASettings_init)
       (Dec just_below_999_9) (Int 0)
     <> freq_difference_spec floor_log10_exact
          (mkMeasureLog [] [] [] (S754_zero false) false FASettings_init)
          (Dec just_below_999_9) (Int 0).
Proof.
  split; [vm_compute; reflexivity|].
  split; [split; [lia | vm_compute; reflexivity]|].
  split; [vm_compute; reflexivity|].
  split; [vm_compute; reflexivity|].
  split.
  { intros log10 self Hl. unfold get_freq_difference.
    cbn [PyNumber.to_Decimal].
    replace (PyDecimal.eq just_below_999_9 (PyDecimal.of_int 0))
      with (Ok false) by (vm_compute; reflexivity).
    cbn [rbind andb].
    replace (PyDecimal.eq (PyDecimal.of_int 0) (PyDecimal.of_int 0))
      with (Ok true) by (vm_compute; reflexivity).
    cbn [rbind].
    replace (PyDecimal.add just_below_999_9 Decimal_0_1)
      with (Ok (PyDecimal.Finite false 99999999999999999999999 (-20)))
      by (vm_compute; reflexivity).
    cbn [rbind].
    replace (PyDecimal.abs
               (PyDecimal.Finite false 99999999999999999999999 (-20)))
      with (Ok (PyDecimal.Finite false 99999999999999999999999 (-20)))
      by (vm_compute; reflexivity).
    cbn [rbind].
    replace (float_of_Decimal
               (PyDecimal.Finite false 99999999999999999999999 (-20)))
      with (Ok float_1000) by (vm_compute; reflexivity).
    cbn [rbind].
    rewrite (math_log10_above_zero log10 float_1000)
      by (vm_compute; eauto).
    cbn [rbind]. rewrite Hl. cbn [rbind].
    vm_compute. reflexivity. }
  split; [vm_compute; reflexivity|].
  vm_compute. discriminate.
Qed.

(** C6, amended: [get_freq_difference] is the function of the design
    document with the logarithm taken as [math.log10] takes it.  The
    chosen frequency is the mean of the Frequency samples if [freq] is 0
    and there is a sample, else [freq]; the target is the chosen
    frequency rounded to [-floor(log10(x)) + 3] places, where [x] is the
    float nearest to [|frequency + 0.1|] and [log10] that of the C
    library, if [target_freq] is 0, else [target_freq]; the difference is
    frequency - target; ppm is 1000000 * difference / target if the
    target is positive, else the float 0.0.  Where the floor so taken is
    the floor of the logarithm of the decimal itself, the target is that
    of the formula read as mathematics.  With one sample of 10000000,
    whose float logarithm after adding 0.1 has floor 7,
    [get_freq_difference(0, 0)] gives a target equal to 10000000 and a
    ppm equal to 0.  And with [target_freq] 0, whenever the float [x] is
    above zero and the floor of its [log10] is [l], the target is the
    chosen frequency rounded to [-l + 3] places. *)
Theorem freq_difference_is_documented :
  (forall (log10 : PyFloat.float -> PyFloat.float) (self : MeasureLog)
          (freq target_freq : number),
      get_freq_difference log10 self freq target_freq
      = freq_difference_spec (floor_log10_of_float log10) self freq
                             target_freq)
  /\ (forall (log10 : PyFloat.float -> PyFloat.float)
             (frequency target_freq magnitude : PyDecimal.Decimal),
         (shifted <- PyDecimal.add frequency Decimal_0_1 ;;
          PyDecimal.abs shifted) = Ok magnitude ->
         floor_log10_of_float log10 magnitude = floor_log10_exact magnitude ->
         chosen_target (floor_log10_of_float log10) frequency target_freq
         = chosen_target floor_log10_exact frequency target_freq)
  /\ (forall (log10 : PyFloat.float -> PyFloat.float)
             (self : MeasureLog) (t : PyFloat.float),
         math_floor (log10 float_10000000_1) = Ok 7 ->
         frequencies self = [(PyDecimal.of_int 10000000, t)] ->
         get_freq_difference log10 self (Int 0) (Int 0)
         = Ok (PyDecimal.Finite false 1000 4, PyDecimal.Finite false 0 0,
               Dec (PyDecimal.Finite false 0 (-4)))
         /\ PyDecimal.eq (PyDecimal.Finite false 1000 4)
                         (PyDecimal.of_int 10000000) = Ok true
         /\ PyDecimal.eq (PyDecimal.Finite false 0 (-4)) (PyDecimal.of_int 0)
            = Ok true)
  /\ (forall (log10 : PyFloat.float -> PyFloat.float) (self : MeasureLog)
             (freq : number) (frequency magnitude : PyDecimal.Decimal)
             (m : positive) (e l : Z),
         chosen_frequency self (PyNumber.to_Decimal freq) = Ok frequency ->
         (shifted <- PyDecimal.add frequency Decimal_0_1 ;;
          PyDecimal.abs shifted) = Ok magnitude ->
         float_of_Decimal magnitude = Ok (S754_finite false m e) ->
         math_floor (log10 (S754_finite false m e)) = Ok l ->
         get_freq_difference log10 self freq (Int 0)
         = (target <- PyDecimal.round frequency (- l + 3) ;;
            difference <- PyDecimal.sub frequency target ;;
            ppm <- ppm_of difference target ;;
            Ok (target, difference, ppm))).
Proof.
  split; [exact get_freq_difference_refines|]. split.
  - intros log10 frequency target_freq magnitude Hm Hf.
    unfold chosen_target.
    destruct (PyDecimal.eq target_freq (PyDecimal.of_int 0)) as [[]|e];
      try reflexivity.
    cbn [rbind].
    destruct (PyDecimal.add frequency Decimal_0_1) as [shifted|e];
      [|discriminate]. cbn [rbind] in *.
    rewrite Hm. cbn [rbind]. now rewrite Hf.
  - split.
    + intros log10 self t Hl Hf.
      split; [exact (get_freq_difference_one_sample log10 self t Hl Hf)|].
      split; vm_compute; reflexivity.
    + intros log10 self freq frequency magnitude m e l Hc Hm Hx Hl.
      rewrite get_freq_difference_refines. unfold freq_difference_spec.
      rewrite Hc. cbn [rbind]. unfold chosen_target.
      cbn [PyNumber.to_Decimal].
      replace (PyDecimal.eq (PyDecimal.of_int 0) (PyDecimal.of_int 0))
        with (Ok true) by (vm_compute; reflexivity).
      cbn [rbind].
      destruct (PyDecimal.add frequency Decimal_0_1) as [shifted|e'];
        [|discriminate]. cbn [rbind] in *.
      rewrite Hm. cbn [rbind]. unfold floor_log10_of_float.
      rewrite Hx. cbn [rbind math_log10]. now rewrite Hl.
Qed.

Lemma freq_difference_is_documented_witness :
  (chosen_target (floor_log10_of_float log10_at_two_points)
     (PyDecimal.of_int 10000000) (PyDecimal.of_int 0)
   = chosen_target floor_log10_exact
       (PyDecimal.of_int 10000000) (PyDecimal.of_int 0))
  /\ (get_freq_difference log10_at_two_points
       (mkMeasureLog [] [(PyDecimal.of_int 10000000, S754_zero false)] []
                     (S754_zero false) false FASettings_init)
       (Int 0) (Int 0)
     = Ok (PyDecimal.Finite false 1000 4, PyDecimal.Finite false 0 0,
           Dec (PyDecimal.Finite false 0 (-4)))
  /\ PyDecimal.eq (PyDecimal.Finite false 1000 4) (PyDecimal.of_int 10000000)
     = Ok true
  /\ PyDecimal.eq (PyDecimal.Finite false 0 (-4)) (PyDecimal.of_int 0)
     = Ok true)
  /\ get_freq_difference log10_at_two_points
       (mkMeasureLog [] [] [] (S754_zero false) false FASettings_init)
       (Dec just_below_999_9) (Int 0)
     = (target <- PyDecimal.round just_below_999_9 (- 3 + 3) ;;
        difference <- PyDecimal.sub just_below_999_9 target ;;
        ppm <- ppm_of difference target ;;
        Ok (target, difference, ppm)).
Proof.
  split; [|split].
  - apply (proj1 (proj2 freq_difference_is_documented) log10_at_two_points
             (PyDecimal.of_int 10000000) (PyDecimal.of_int 0)
             (PyDecimal.Finite false 100000001 (-1)));
      vm_compute; reflexivity.
  - apply (proj1 (proj2 (proj2 freq_difference_is_documented))
             log10_at_two_points
             (mkMeasureLog [] [(PyDecimal.of_int 10000000, S754_zero false)]
                           [] (S754_zero false) false FASettings_init)
             (S754_zero false)); vm_compute; reflexivity.
  - apply (proj2 (proj2 (proj2 freq_difference_is_documented))
             log10_at_two_points
             (mkMeasureLog [] [] [] (S754_zero false) false FASettings_init)
             (Dec just_below_999_9) just_below_999_9
             (PyDecimal.Finite false 99999999999999999999999 (-20))
             8796093022208000%positive (-43) 3);
      vm_compute; reflexivity.
Defined.

(** ** The command queue *)

Lemma send_command_nonempty (c : command) (rest : list command) (u : Ui) :
  command_queue u = c :: rest ->
  command_queue (send_command "" u) = rest
  /\ waiting_for_command (send_command "" u) = false
  /\ is_serial_port_established (send_command "" u)
     = is_serial_port_established u
  /\ serial_written (send_command "" u)
     = if is_serial_port_established u
       then (serial_written u ++ [wire_text c])%list
       else serial_written u.
Proof.
  intros H. unfold send_command. change (negb (String.eqb "" "")) with false.
  cbv iota. rewrite H. unfold transmit. cbn [is_serial_port_established
    set_queue_and_waiting command_queue].
  destruct (is_serial_port_established u); destruct c; repeat split.
Qed.

Lemma send_command_empty (u : Ui) :
  command_queue u = [] ->
  send_command "" u
  = mkUi [] true (is_serial_port_established u) (serial_written u)
         (sleeps u) (data_textEdit_all u) (warnings u).
Proof.
  intros H. unfold send_command. change (negb (String.eqb "" "")) with false.
  cbv iota. rewrite H. reflexivity.
Qed.

Lemma run_calls_fifo (calls : list queue_call) :
  forall u : Ui,
    is_serial_port_established u = true ->
    (serial_written (run_calls calls u)
     ++ map wire_text (command_queue (run_calls calls u)))%list
    = (serial_written u
       ++ map wire_text (command_queue u ++ enqueued calls))%list.
Proof.
  induction calls as [|call rest IH]; intros u He.
  - cbn. now rewrite app_nil_r.
  - destruct call as [x|]; cbn [run_calls fold_left do_call enqueued].
    + change (fold_left do_call rest (send_to_command_buffer x u))
        with (run_calls rest (send_to_command_buffer x u)).
      rewrite IH by exact He.
      cbn [send_to_command_buffer serial_written command_queue].
      now rewrite <- app_assoc.
    + change (fold_left do_call rest (send_command "" u))
        with (run_calls rest (send_command "" u)).
      destruct (command_queue u) as [|c q] eqn:Q.
      * rewrite (send_command_empty u Q), IH by exact He.
        reflexivity.
      * destruct (send_command_nonempty c q u Q) as (A & _ & B & C).
        rewrite IH by (now rewrite B). rewrite A, C, He.
        cbn [map app]. now rewrite <- app_assoc.
Qed.

(** Whether the port is established or not: what has left the queue is
    a prefix of what was there and what was enqueued, what is left is the
    rest, and the prefix has been written if the port is established. *)
Lemma run_calls_prefix (calls : list queue_call) :
  forall u : Ui,
    exists k : nat,
      command_queue (run_calls calls u)
      = skipn k (command_queue u ++ enqueued calls)
      /\ serial_written (run_calls calls u)
         = (serial_written u
            ++ (if is_serial_port_established u
                then map wire_text
                         (firstn k (command_queue u ++ enqueued calls))
                else []))%list.
Proof.
  induction calls as [|call rest IH]; intros u.
  - exists 0%nat. cbn. split; [now rewrite app_nil_r|].
    destruct (is_serial_port_established u); now rewrite app_nil_r.
  - destruct call as [x|]; cbn [run_calls fold_left do_call enqueued].
    + change (fold_left do_call rest (send_to_command_buffer x u))
        with (run_calls rest (send_to_command_buffer x u)).
      destruct (IH (send_to_command_buffer x u)) as (k & A & B).
      exists k. rewrite A, B.
      cbn [send_to_command_buffer serial_written command_queue
           is_serial_port_established].
      now rewrite <- app_assoc.
    + change (fold_left do_call rest (send_command "" u))
        with (run_calls rest (send_command "" u)).
      destruct (IH (send_command "" u)) as (k & A & B).
      destruct (command_queue u) as [|c q] eqn:Q.
      * exists k. rewrite A, B, (send_command_empty u Q). split; reflexivity.
      * destruct (send_command_nonempty c q u Q) as (A' & _ & B' & C').
        exists (S k). rewrite A, B, A', B', C'.
        cbn [skipn firstn app map]. split; [reflexivity|].
        destruct (is_serial_port_established u); [|reflexivity].
        now rewrite <- app_assoc.
Qed.

(** C8: the command queue is first in, first out.
    [send_to_command_buffer] appends at the tail, whatever the state;
    [send_command] without text removes the head and, with the port
    established, writes it; through any run of the two, what has been
    written followed by what still waits is what was there followed by
    what was enqueued, in that order (with the port not established,
    what leaves the queue is still its head, but nothing is written); on
    an empty queue [send_command]
    writes nothing, warns of nothing and only sets [waiting_for_command],
    which says that no command waits for a reply. *)
Theorem command_queue_is_fifo :
  (forall (c : command) (u : Ui),
      command_queue (send_to_command_buffer c u)
      = (command_queue u ++ [c])%list)
  /\ (forall (c : command) (rest : list command) (u : Ui),
         command_queue u = c :: rest ->
         command_queue (send_command "" u) = rest
         /\ waiting_for_reply (send_command "" u) = true
         /\ (is_serial_port_established u = true ->
             serial_written (send_command "" u)
             = (serial_written u ++ [wire_text c])%list))
  /\ (forall (calls : list queue_call) (u : Ui),
         is_serial_port_established u = true ->
         (serial_written (run_calls calls u)
          ++ map wire_text (command_queue (run_calls calls u)))%list
         = (serial_written u
            ++ map wire_text (command_queue u ++ enqueued calls))%list)
  /\ (forall (calls : list queue_call) (u : Ui),
         exists k : nat,
           command_queue (run_calls calls u)
           = skipn k (command_queue u ++ enqueued calls)
           /\ serial_written (run_calls calls u)
              = (serial_written u
                 ++ (if is_serial_port_established u
                     then map wire_text
                              (firstn k (command_queue u ++ enqueued calls))
                     else []))%list)
  /\ (forall calls : list queue_call,
         (serial_written (run_calls calls example_ui)
          ++ map wire_text (command_queue (run_calls calls example_ui)))%list
         = map wire_text (enqueued calls))
  /\ (forall u : Ui,
         command_queue u = [] ->
         send_command "" u
         = mkUi [] true (is_serial_port_established u) (serial_written u)
                (sleeps u) (data_textEdit_all u) (warnings u)
         /\ waiting_for_reply (send_command "" u) = false).
Proof.
  split; [reflexivity|].
  split.
  { intros c rest u H.
    destruct (send_command_nonempty c rest u H) as (A & B & _ & C).
    split; [exact A|]. split; [unfold waiting_for_reply; now rewrite B|].
    intros He. now rewrite C, He. }
  split; [intros calls u; apply run_calls_fifo|].
  split; [intros calls u; apply run_calls_prefix|].
  split; [intros calls; apply (run_calls_fifo calls example_ui); reflexivity|].
  intros u H. rewrite (send_command_empty u H). split; reflexivity.
Qed.

Lemma command_queue_is_fifo_witness :
  command_queue (send_command "" (send_to_command_buffer
                                    (Member GET_GATE_TIME_SETTING)
                                    (send_to_command_buffer (Text "$R*")
                                                            example_ui)))
  = [Member GET_GATE_TIME_SETTING]
  /\ waiting_for_reply
       (send_command "" (send_to_command_buffer
                           (Member GET_GATE_TIME_SETTING)
                           (send_to_command_buffer (Text "$R*") example_ui)))
     = true
  /\ (is_serial_port_established
        (send_to_command_buffer (Member GET_GATE_TIME_SETTING)
           (send_to_command_buffer (Text "$R*") example_ui)) = true ->
      serial_written
        (send_command "" (send_to_command_buffer
                            (Member GET_GATE_TIME_SETTING)
                            (send_to_command_buffer (Text "$R*") example_ui)))
      = (serial_written
           (send_to_command_buffer (Member GET_GATE_TIME_SETTING)
              (send_to_command_buffer (Text "$R*") example_ui))
         ++ [wire_text (Text "$R*")])%list).
Proof.
  apply (proj1 (proj2 command_queue_is_fifo) (Text "$R*")
           [Member GET_GATE_TIME_SETTING]).
  reflexivity.
Defined.

Example queue_run :
  serial_written
    (run_calls [Enqueue (Member GET_FREQ_POWER_SETTINGS);
                Enqueue (Text "$A02000*"); Dequeue;
                Enqueue (Member GET_GATE_TIME_SETTING); Dequeue; Dequeue;
                Dequeue]
               example_ui)
  = ["$D*"; "$A02000*"; "$G*"].
Proof. reflexivity. Qed.

(** ** The statistics export *)

Lemma string_append_assoc (a b c : string) :
  (a ++ b) ++ c = a ++ (b ++ c).
Proof. induction a as [|x a IH]; [reflexivity|]. cbn. now rewrite IH. Qed.

(** C9, as the design document states it, fails: the header of the code
    has a blank before "Power (dBm)". *)
Lemma documented_header_refuted :
  header <> documented_header
  /\ nth 9 (PyStr.split ","%char header) "" = " Power (dBm)"
  /\ nth 9 (PyStr.split ","%char documented_header) "" = "Power (dBm)".
Proof.
  split; [vm_compute; discriminate | split; vm_compute; reflexivity].
Qed.

(** C9, amended: the header row written to a new file is exactly
    [Notes,Start Time,Stop Time,Target Freq,Average Freq (Hz),Difference
    (mHz),STDev (mHz),Gate Time,Pk-Pk (mHz), Power (dBm),Minimum,Maximum,
    Channel,Count,50 Ohm,ppm], with a blank before "Power (dBm)"; without
    the blanks around its titles it has the sixteen columns of the design
    document, and the data row is the text of these sixteen columns in
    that order, joined by commas. *)
Theorem export_header_and_row :
  header
  = "Notes,Start Time,Stop Time,Target Freq,Average Freq (Hz),Difference (mHz),STDev (mHz),Gate Time,Pk-Pk (mHz), Power (dBm),Minimum,Maximum,Channel,Count,50 Ohm,ppm"
  /\ map PyStr.strip (PyStr.split ","%char header)
     = PyStr.split ","%char documented_header
  /\ (forall (notes : string) (t : StatsTexts),
         map fst (row_by_column notes t)
         = PyStr.split ","%char documented_header
         /\ stats_row notes t
            = PyStr.join "," (map snd (row_by_column notes t)))
  /\ (forall (notes : string) (t : StatsTexts) (clip : string),
         copy_stats_to_clipboard true notes t (mkDesk clip None)
         = (mkDesk (stats_row notes t)
                   (Some (header ++ String newline ""
                          ++ stats_row notes t ++ String newline "")),
            true)).
Proof.
  split; [vm_compute; reflexivity|].
  split; [vm_compute; reflexivity|].
  split.
  - intros notes t. split; [vm_compute; reflexivity|].
    unfold stats_row, row_by_column, PyStr.join. cbv zeta.
    cbn [map snd String.concat].
    repeat rewrite string_append_assoc. reflexivity.
  - intros notes t clip. unfold copy_stats_to_clipboard.
    cbn [log_file is_not_None negb clipboard].
    now rewrite string_append_assoc.
Qed.

(** ** Grouping digits *)

Lemma split_without_separator (sep : ascii) (s : string) :
  PyStr.contains (String sep "") s = false ->
  PyStr.split sep s = [s].
Proof.
  induction s as [|c r IH]; [reflexivity|].
  cbn [PyStr.contains prefix]. intros H.
  apply orb_false_iff in H as [Hp Hc].
  cbn [PyStr.split]. rewrite (IH Hc).
  destruct (ascii_dec sep c) as [->|Hne].
  - now rewrite prefix_empty_left in Hp.
  - destruct (Ascii.eqb_spec c sep) as [->|_]; [contradiction|reflexivity].
Qed.

Lemma split_not_nil (sep : ascii) (s : string) : PyStr.split sep s <> [].
Proof.
  destruct s as [|c r]; [discriminate|].
  cbn [PyStr.split]. destruct (PyStr.split sep r); [discriminate|].
  destruct (Ascii.eqb c sep); discriminate.
Qed.

Lemma ne_zero (d : PyDecimal.Decimal) (b : bool) :
  PyDecimal.ne d (PyDecimal.of_int 0) = Ok b ->
  b = negb (PyDecimal.is_zero d).
Proof.
  unfold PyDecimal.ne, PyDecimal.eq.
  destruct d as [s c e|s|s g p].
  - destruct c as [|p]; destruct s; cbn; now intros [= <-].
  - destruct s; cbn; now intros [= <-].
  - destruct g; cbn; [discriminate | now intros [= <-]].
Qed.

Lemma ne_zero_raises (d : PyDecimal.Decimal) (e : exn) :
  PyDecimal.ne d (PyDecimal.of_int 0) = Raise e ->
  PyDecimal.is_snan d = true /\ e = InvalidOperation.
Proof.
  unfold PyDecimal.ne, PyDecimal.eq.
  destruct d as [s c x|s|s g p].
  - destruct c as [|p]; destruct s; cbn; discriminate.
  - destruct s; cbn; discriminate.
  - destruct g; cbn; [now intros [= <-] | discriminate].
Qed.

(** Whole numbers: [str(Decimal(z))] is the digits of [z], with no
    point. *)
Lemma no_point_contains (s : string) :
  no_point s = true -> PyStr.contains "." s = false.
Proof.
  induction s as [|c r IH]; [reflexivity|].
  cbn [no_point PyStr.contains prefix]. intros H.
  apply andb_true_iff in H as [Hc Hr]. rewrite (IH Hr), orb_false_r.
  destruct (ascii_dec "."%char c) as [<-|_]; [discriminate|reflexivity].
Qed.

Lemma no_point_append (a b : string) :
  no_point (a ++ b) = no_point a && no_point b.
Proof.
  induction a as [|c a IH]; [reflexivity|].
  cbn [append no_point]. now rewrite IH, andb_assoc.
Qed.

Lemma no_point_string_of_uint (u : Decimal.uint) :
  no_point (NilEmpty.string_of_uint u) = true.
Proof. induction u; cbn; auto. Qed.

Lemma string_of_uint_length (u : Decimal.uint) :
  u <> Decimal.Nil -> (0 < String.length (NilEmpty.string_of_uint u))%nat.
Proof. destruct u; cbn; try lia. contradiction. Qed.

Lemma to_str_whole (s : bool) (p : positive) :
  PyDecimal.to_str (PyDecimal.Finite s (Npos p) 0)
  = (if s then "-" else "") ++ PyStr.str_of_N (Npos p).
Proof.
  unfold PyDecimal.to_str. cbv zeta.
  set (digits := PyStr.str_of_N (Npos p)).
  assert (L : 0 < Z.of_nat (String.length digits)).
  { unfold digits, PyStr.str_of_N. cbn [N.to_uint].
    pose proof (string_of_uint_length (Pos.to_uint p)
                  (DecimalPos.Unsigned.to_uint_nonnil p)). lia. }
  set (len := Z.of_nat (String.length digits)) in *.
  replace ((0 <=? 0) && (-6 <? 0 + len)) with true
    by (symmetry; apply andb_true_iff; split;
        [reflexivity | apply Z.ltb_lt; lia]).
  replace (0 + len <=? 0) with false by (symmetry; apply Z.leb_gt; lia).
  replace (len <=? 0 + len) with true by (symmetry; apply Z.leb_le; lia).
  replace (0 + len =? 0 + len) with true by (symmetry; apply Z.eqb_refl).
  replace (Z.to_nat (0 + len - len)) with 0%nat by lia.
  cbn [PyStr.repeat_char].
  assert (E : forall x : string, x ++ "" = x).
  { induction x as [|c x IH]; [reflexivity|]. cbn. now rewrite IH. }
  now rewrite !E.
Qed.

Lemma group_spaces_whole_number (z : Z) :
  z <> 0 -> group_spaces (PyDecimal.of_int z) = Raise ValueError.
Proof.
  intros Hz. unfold PyDecimal.of_int.
  destruct (Z.abs_N z) as [|p] eqn:A; [lia|].
  unfold group_spaces.
  destruct (PyDecimal.ne _ _) as [b|e] eqn:E.
  - apply ne_zero in E. cbn [PyDecimal.is_zero negb] in E. subst b.
    cbn [rbind]. rewrite split_without_separator; [reflexivity|].
    apply no_point_contains. rewrite to_str_whole, no_point_append.
    unfold PyStr.str_of_N. rewrite no_point_string_of_uint.
    now destruct (z <? 0).
  - apply ne_zero_raises in E as [Hs _]. discriminate.
Qed.

(** C10: [group_spaces] is partial.  For every decimal that is not zero
    and whose text has no point, it raises: [ValueError] from the
    unpacking of the split, or, for a signalling NaN, the exception of the
    comparison with zero.  It returns only for a zero or for a decimal
    whose text has a point.  [Decimal('5')] is such an input, and so is
    every whole number but zero made from an integer. *)
Theorem group_spaces_is_partial :
  (forall d : PyDecimal.Decimal,
      PyDecimal.is_zero d = false ->
      PyStr.contains "." (PyDecimal.to_str d) = false ->
      is_ok (group_spaces d) = false
      /\ (PyDecimal.is_snan d = false -> group_spaces d = Raise ValueError))
  /\ (forall (d : PyDecimal.Decimal) (s : string),
         group_spaces d = Ok s ->
         PyDecimal.is_zero d = true
         \/ PyStr.contains "." (PyDecimal.to_str d) = true)
  /\ (PyDecimal.of_str "5" = Ok (PyDecimal.of_int 5)
      /\ group_spaces (PyDecimal.of_int 5) = Raise ValueError)
  /\ (forall z : Z,
         z <> 0 -> group_spaces (PyDecimal.of_int z) = Raise ValueError)
  /\ (forall d : PyDecimal.Decimal,
         PyDecimal.is_zero d = true -> group_spaces d = Ok "0.0").
Proof.
  split; [|split; [|split; [split; vm_compute; reflexivity|]]];
    [| |split; [exact group_spaces_whole_number|]].
  - intros d Hz Hdot. unfold group_spaces.
    destruct (PyDecimal.ne d (PyDecimal.of_int 0)) as [b|e] eqn:E.
    + apply ne_zero in E. rewrite Hz in E. subst b. cbn [rbind negb].
      rewrite (split_without_separator "."%char _ Hdot).
      split; reflexivity.
    + apply ne_zero_raises in E as [Hs ->]. cbn [rbind].
      split; [reflexivity|]. intros Hn. rewrite Hn in Hs. discriminate.
  - intros d s. unfold group_spaces.
    destruct (PyDecimal.ne d (PyDecimal.of_int 0)) as [b|e] eqn:E;
      [|discriminate].
    apply ne_zero in E. cbn [rbind].
    destruct (PyDecimal.is_zero d); [now left|]. subst b. cbn [negb].
    destruct (PyStr.contains "." (PyDecimal.to_str d)) eqn:Hdot; [now right|].
    rewrite (split_without_separator "."%char _ Hdot). discriminate.
  - intros d Hz. unfold group_spaces.
    destruct (PyDecimal.ne d (PyDecimal.of_int 0)) as [b|e] eqn:E.
    + apply ne_zero in E. rewrite Hz in E. subst b. reflexivity.
    + apply ne_zero_raises in E as [Hs _].
      destruct d as [s c x|s|s g p]; try discriminate.
Qed.

Lemma group_spaces_is_partial_witness :
  is_ok (group_spaces (PyDecimal.Finite false 1 3)) = false
  /\ (PyDecimal.is_snan (PyDecimal.Finite false 1 3) = false ->
      group_spaces (PyDecimal.Finite false 1 3) = Raise ValueError).
Proof.
  apply (proj1 group_spaces_is_partial (PyDecimal.Finite false 1 3));
    vm_compute; reflexivity.
Defined.

Example group_spaces_groups :
  map (fun text => (d <- PyDecimal.of_str text ;; group_spaces d)%result)
      ["1234567.890123"; "0"; "0.00"; "12.5"; "5"; "1E+3"; "NaN"; "Infinity"]
  = [Ok "1 234 567.890 123"; Ok "0.0"; Ok "0.0"; Ok "12.5";
     Raise ValueError; Raise ValueError; Raise ValueError; Raise ValueError].
Proof. vm_compute. reflexivity. Qed.


(* ===================================================================== *)
(** * Further properties of the code *)

(** ** The settings tracker, continued *)

Lemma update_settings_is_merge (current delta : FASettings) :
  update_settings current delta = merge current delta.
Proof.
  destruct current as [c i p e l g], delta as [c' i' p' e' l' g'].
  unfold update_settings, merge; simpl.
  rewrite Z.gtb_ltb.
  destruct c', i', p', e', l', (0 <? g'); reflexivity.
Qed.

(** X1: merging the same delta twice is merging it once. *)
Theorem update_settings_idempotent :
  forall current delta : FASettings,
    update_settings (update_settings current delta) delta
    = update_settings current delta.
Proof.
  intros current delta. rewrite !update_settings_is_merge.
  destruct current as [c i p e l g], delta as [c' i' p' e' l' g'].
  unfold merge, overwrite_if_present; simpl.
  destruct c', i', p', e', l', (0 <? g'); reflexivity.
Qed.

(** X2: merging two deltas one after the other is merging their merge,
    and a delta that carries nothing changes nothing. *)
Theorem update_settings_composes :
  forall current d1 d2 : FASettings,
    update_settings (update_settings current d1) d2
    = update_settings current (update_settings d1 d2)
    /\ update_settings current FASettings_init = current.
Proof.
  intros current d1 d2. rewrite !update_settings_is_merge. split.
  - destruct current as [c i p e l g], d1 as [c1 i1 p1 e1 l1 g1],
      d2 as [c2 i2 p2 e2 l2 g2].
    unfold merge, overwrite_if_present; simpl.
    destruct c2, i2, p2, e2, l2, (0 <? g2) eqn:G2; try reflexivity;
      rewrite ?G2; reflexivity.
  - destruct current as [c i p e l g]. reflexivity.
Qed.

(** ** The decoder, continued *)

Lemma int_of_str_raises (s : string) (e : exn) :
  Numeral.int_of_str s = Raise e -> e = ValueError.
Proof.
  unfold Numeral.int_of_str.
  destruct (Numeral.drop_underscores _) as [t|]; [|now intros [= <-]].
  destruct (Numeral.take_sign t) as [neg r].
  destruct (Numeral.span_digits r) as [ds rest].
  destruct (_ || _); [now intros [= <-] | discriminate].
Qed.

(** X3: what the decoder returns has one of five shapes: nothing; a
    settings delta alone; a power alone; a frequency alone; a frequency
    followed by a power.  It never returns a measurement together with a
    settings delta, never more than two measurements, and never the
    category [UNKNOWN]. *)
Theorem preprocess_string_shape :
  forall (line : string) (ms : list (Category * string)) (delta : FASettings),
    preprocess_string line = Ok (ms, delta) ->
    ms = []
    \/ (delta = FASettings_init
        /\ exists a : string,
             ms = [(POWER, a)] \/ ms = [(FREQUENCY, a)]
             \/ exists b : string, ms = [(FREQUENCY, a); (POWER, b)]).
Proof.
  intros line ms delta. unfold preprocess_string. cbv zeta.
  repeat match goal with
         | |- context [if ?b then _ else _] => destruct b
         | |- context [rbind ?r _] => destruct r; cbn [rbind]
         end;
    intros [= <- <-]; cbn [app];
    try (now left);
    right; (split; [reflexivity|]); eexists;
    first [ now left | now (right; left) | right; right; eexists; reflexivity ].
Qed.

Lemma preprocess_string_shape_witness :
  [(FREQUENCY, "0010000000.001000"); (POWER, "+00129")] = []
  \/ (FASettings_init = FASettings_init
      /\ exists a : string,
           [(FREQUENCY, "0010000000.001000"); (POWER, "+00129")]
           = [(POWER, a)]
           \/ [(FREQUENCY, "0010000000.001000"); (POWER, "+00129")]
              = [(FREQUENCY, a)]
           \/ exists b : string,
                [(FREQUENCY, "0010000000.001000"); (POWER, "+00129")]
                = [(FREQUENCY, a); (POWER, b)]).
Proof.
  apply (preprocess_string_shape stream_line). vm_compute. reflexivity.
Defined.

(** X4: the decoder raises nothing but [ValueError], and only on a line
    that, without the blanks at its ends, contains no "POK", ends in "AOK"
    or "GOK" and has no integer at [-14:-7]; on every other line it
    returns. *)
Theorem preprocess_string_raises_only :
  forall (line : string) (e : exn),
    preprocess_string line = Raise e ->
    e = ValueError
    /\ PyStr.contains "POK" line = false
    /\ (PyStr.slice (Some (-3)) None (PyStr.strip line) = "AOK"
        \/ PyStr.slice (Some (-3)) None (PyStr.strip line) = "GOK")
    /\ Numeral.int_of_str
         (PyStr.slice (Some (-14)) (Some (-7)) (PyStr.strip line))
       = Raise ValueError.
Proof.
  intros line e. unfold preprocess_string. cbv zeta.
  rewrite (contains_strip "POK" line eq_refl eq_refl).
  destruct (PyStr.contains "OK" (PyStr.strip line)).
  - destruct (PyStr.contains "POK" line); [discriminate|].
    destruct (String.eqb_spec "AOK"
                (PyStr.slice (Some (-3)) None (PyStr.strip line))) as [A|A];
      [|destruct (String.eqb_spec "GOK"
                    (PyStr.slice (Some (-3)) None (PyStr.strip line)))
          as [G|G]]; cbn [orb].
    + destruct (Numeral.int_of_str _) as [g|e'] eqn:E; [discriminate|].
      cbn [rbind]. intros [= <-].
      pose proof (int_of_str_raises _ _ E) as ->. now repeat split; auto.
    + destruct (Numeral.int_of_str _) as [g|e'] eqn:E; [discriminate|].
      cbn [rbind]. intros [= <-].
      pose proof (int_of_str_raises _ _ E) as ->. now repeat split; auto.
    + repeat match goal with
             | |- context [if ?b then _ else _] => destruct b
             end; discriminate.
  - repeat match goal with
           | |- context [if ?b then _ else _] => destruct b
           end; discriminate.
Qed.

Lemma preprocess_string_raises_only_witness :
  ValueError = ValueError
  /\ PyStr.contains "POK" short_acknowledgement = false
  /\ (PyStr.slice (Some (-3)) None (PyStr.strip short_acknowledgement) = "AOK"
      \/ PyStr.slice (Some (-3)) None (PyStr.strip short_acknowledgement)
         = "GOK")
  /\ Numeral.int_of_str
       (PyStr.slice (Some (-14)) (Some (-7))
          (PyStr.strip short_acknowledgement))
     = Raise ValueError.
Proof.
  apply (preprocess_string_raises_only short_acknowledgement ValueError).
  vm_compute. reflexivity.
Defined.

(** ** Texts: lengths, pieces and blanks *)

Lemma string_length_app (a b : string) :
  String.length (a ++ b) = (String.length a + String.length b)%nat.
Proof. induction a as [|c a IH]; [reflexivity|]. cbn. now rewrite IH. Qed.

Lemma substring_skip (a b : string) (m : nat) :
  substring (String.length a) m (a ++ b) = substring 0 m b.
Proof. induction a as [|c a IH]; [reflexivity|]. cbn. exact IH. Qed.

Lemma substring_take (a b : string) :
  substring 0 (String.length a) (a ++ b) = a.
Proof.
  induction a as [|c a IH]; [now destruct b|]. cbn. now rewrite IH.
Qed.

Lemma substring_all (a : string) : substring 0 (String.length a) a = a.
Proof. induction a as [|c a IH]; [reflexivity|]. cbn. now rewrite IH. Qed.

(** [(a ++ b ++ c)[-(|b|+|c|) : -|c|]] is [b], for [c] not empty. *)
Lemma slice_middle (a b c : string) :
  (0 < String.length c)%nat ->
  PyStr.slice (Some (- Z.of_nat (String.length b + String.length c)))
              (Some (- Z.of_nat (String.length c))) (a ++ b ++ c) = b.
Proof.
  intros Hc. unfold PyStr.slice, PyStr.clamp_index.
  rewrite !string_length_app.
  set (la := String.length a). set (lb := String.length b).
  set (lc := String.length c) in *.
  replace (- Z.of_nat (lb + lc) <? 0) with true
    by (symmetry; apply Z.ltb_lt; lia).
  replace (- Z.of_nat lc <? 0) with true by (symmetry; apply Z.ltb_lt; lia).
  replace (Z.to_nat (Z.max (- Z.of_nat (lb + lc) + Z.of_nat (la + (lb + lc))) 0))
    with la by lia.
  replace (Z.to_nat (Z.max (- Z.of_nat lc + Z.of_nat (la + (lb + lc))) 0
                     - Z.max (- Z.of_nat (lb + lc)
                              + Z.of_nat (la + (lb + lc))) 0))
    with lb by lia.
  unfold la, lb. rewrite substring_skip. apply substring_take.
Qed.

(** [(a ++ b)[-|b|:]] is [b]. *)
Lemma slice_tail (a b : string) :
  (0 < String.length b)%nat ->
  PyStr.slice (Some (- Z.of_nat (String.length b))) None (a ++ b) = b.
Proof.
  intros Hb. unfold PyStr.slice, PyStr.clamp_index.
  rewrite !string_length_app.
  set (la := String.length a). set (lb := String.length b) in *.
  replace (- Z.of_nat lb <? 0) with true by (symmetry; apply Z.ltb_lt; lia).
  replace (Z.to_nat (Z.max (- Z.of_nat lb + Z.of_nat (la + lb)) 0))
    with la by lia.
  replace (Z.to_nat (Z.of_nat (la + lb)
                     - Z.max (- Z.of_nat lb + Z.of_nat (la + lb)) 0))
    with lb by lia.
  unfold la, lb. rewrite substring_skip. apply substring_all.
Qed.

Lemma lstrip_app (a b : string) :
  starts_nonspace b = true ->
  PyStr.lstrip (a ++ b) = PyStr.lstrip a ++ b.
Proof.
  intros Hb. induction a as [|c a IH].
  - cbn. destruct b as [|x b]; [discriminate|].
    cbn in *. now destruct (PyStr.isspace x).
  - cbn. destruct (PyStr.isspace c); [exact IH | reflexivity].
Qed.

Lemma rstrip_all_space (s : string) :
  all_space s = true -> PyStr.rstrip s = "".
Proof.
  induction s as [|c s IH]; [reflexivity|]. cbn [all_space].
  intros H. apply andb_true_iff in H as [Hc Hs].
  rewrite rstrip_cons, (IH Hs), Hc. reflexivity.
Qed.

Lemma rstrip_app_space (a b : string) :
  all_space b = true -> PyStr.rstrip (a ++ b) = PyStr.rstrip a.
Proof.
  intros Hb. induction a as [|c a IH].
  - cbn [append]. now rewrite rstrip_all_space.
  - cbn [append]. now rewrite !rstrip_cons, IH.
Qed.

Lemma rstrip_ends_nonspace (s : string) :
  ends_nonspace s = true -> PyStr.rstrip s = s.
Proof.
  induction s as [|c s IH]; [reflexivity|]. intros H.
  rewrite rstrip_cons. destruct s as [|d s].
  - cbn in *. destruct (PyStr.isspace c); [discriminate|reflexivity].
  - rewrite (IH H). reflexivity.
Qed.

Lemma ends_nonspace_app (a b : string) :
  ends_nonspace b = true -> ends_nonspace (a ++ b) = true.
Proof.
  intros Hb. induction a as [|c a IH]; [exact Hb|].
  cbn [append]. destruct (a ++ b) eqn:E.
  - destruct a; [cbn in E; subst b; discriminate | discriminate].
  - exact IH.
Qed.

Lemma starts_nonspace_app (a b : string) :
  starts_nonspace a = true -> starts_nonspace (a ++ b) = true.
Proof. destruct a; [discriminate | trivial]. Qed.

(** A line that ends with a text without blanks at its ends and the
    line end: its blanks go, at the front only. *)
Lemma strip_body_line_end (a b : string) :
  starts_nonspace b = true -> ends_nonspace b = true ->
  PyStr.strip (a ++ b ++ CRLF) = PyStr.lstrip a ++ b.
Proof.
  intros Hs He. unfold PyStr.strip.
  rewrite lstrip_app by (now apply starts_nonspace_app).
  rewrite <- string_append_assoc, rstrip_app_space by reflexivity.
  apply rstrip_ends_nonspace, ends_nonspace_app, He.
Qed.

Lemma strip_body (a b : string) :
  starts_nonspace b = true -> ends_nonspace b = true ->
  PyStr.strip (a ++ b) = PyStr.lstrip a ++ b.
Proof.
  intros Hs He. unfold PyStr.strip.
  rewrite lstrip_app by exact Hs.
  apply rstrip_ends_nonspace, ends_nonspace_app, He.
Qed.

(** ** Integers and their digits *)

Lemma all_digits_app (a b : string) :
  all_digits (a ++ b) = all_digits a && all_digits b.
Proof.
  induction a as [|c a IH]; [reflexivity|].
  cbn [append all_digits]. now rewrite IH, andb_assoc.
Qed.

Lemma all_digits_zeros (n : nat) :
  all_digits (PyStr.repeat_char "0"%char n) = true.
Proof. induction n as [|n IH]; [reflexivity | exact IH]. Qed.

Lemma all_digits_string_of_uint (u : Decimal.uint) :
  all_digits (NilEmpty.string_of_uint u) = true.
Proof. induction u; cbn; auto. Qed.

Lemma span_all_digits (s : string) :
  all_digits s = true -> Numeral.span_digits s = (s, "").
Proof.
  induction s as [|c s IH]; [reflexivity|]. cbn [all_digits].
  intros H. apply andb_true_iff in H as [Hc Hs].
  cbn [Numeral.span_digits]. now rewrite Hc, (IH Hs).
Qed.

Lemma digit_not_space (c : ascii) :
  PyStr.isdigit c = true -> PyStr.isspace c = false.
Proof.
  unfold PyStr.isdigit, PyStr.isspace. intros H.
  apply andb_true_iff in H as [H1 H2].
  apply N.leb_le in H1, H2.
  repeat (apply orb_false_iff; split);
    try (apply andb_false_iff; right; apply N.leb_gt; lia);
    try (apply andb_false_iff; left; apply N.leb_gt; lia);
    apply N.eqb_neq; lia.
Qed.

Lemma all_digits_strip (s : string) :
  all_digits s = true -> PyStr.strip s = s.
Proof.
  intros H. unfold PyStr.strip.
  assert (L : PyStr.lstrip s = s).
  { destruct s as [|c s]; [reflexivity|]. cbn in *.
    apply andb_true_iff in H as [Hc _].
    now rewrite (digit_not_space c Hc). }
  rewrite L. clear L.
  induction s as [|c s IH]; [reflexivity|]. cbn [all_digits] in H.
  apply andb_true_iff in H as [Hc Hs].
  rewrite rstrip_cons, (IH Hs), (digit_not_space c Hc), andb_false_r.
  reflexivity.
Qed.

Lemma digit_not_numeric_space (c : ascii) :
  PyStr.isdigit c = true -> Numeral.numeric_space c = false.
Proof.
  unfold PyStr.isdigit, Numeral.numeric_space. intros H.
  apply andb_true_iff in H as [H1 H2].
  apply N.leb_le in H1, H2.
  repeat (apply orb_false_iff; split);
    try (apply andb_false_iff; right; apply N.leb_gt; lia);
    apply N.eqb_neq; lia.
Qed.

Lemma all_digits_strip_numeric (s : string) :
  all_digits s = true -> Numeral.strip_numeric s = s.
Proof.
  intros H. unfold Numeral.strip_numeric.
  assert (L : Numeral.lstrip_numeric s = s).
  { destruct s as [|c s]; [reflexivity|]. cbn in *.
    apply andb_true_iff in H as [Hc _].
    now rewrite (digit_not_numeric_space c Hc). }
  rewrite L. clear L.
  induction s as [|c s IH]; [reflexivity|]. cbn [all_digits] in H.
  apply andb_true_iff in H as [Hc Hs].
  cbn [Numeral.rstrip_numeric].
  rewrite (IH Hs), (digit_not_numeric_space c Hc), andb_false_r.
  reflexivity.
Qed.

Lemma drop_underscores_digits (s : string) :
  forall prev : ascii,
    all_digits s = true ->
    Ascii.eqb prev "_"%char = false ->
    Numeral.drop_underscores_from prev s = Some s.
Proof.
  induction s as [|c s IH]; intros prev H Hp.
  - cbn. now rewrite Hp.
  - cbn [all_digits] in H. apply andb_true_iff in H as [Hc Hs].
    cbn [Numeral.drop_underscores_from].
    assert (U : Ascii.eqb c "_"%char = false).
    { destruct (Ascii.eqb_spec c "_"%char) as [->|]; [discriminate|easy]. }
    rewrite U, Hp. cbn [andb]. now rewrite (IH c Hs U).
Qed.

Lemma N_of_digits_from_uint (u : Decimal.uint) :
  forall acc : N,
    Numeral.N_of_digits_from acc (NilEmpty.string_of_uint u)
    = (Unsigned.of_lu (Decimal.rev u) + acc * 10 ^ Unsigned.usize u)%N.
Proof.
  induction u; intros acc;
    [cbn; lia | ..];
    cbn [NilEmpty.string_of_uint Numeral.N_of_digits_from Unsigned.usize];
    rewrite IHu; unfold Decimal.rev at 2; cbn [Decimal.revapp];
    match goal with
    | |- context [Unsigned.of_lu (Decimal.revapp u (?c Decimal.Nil))] =>
        rewrite (Unsigned.of_lu_revapp u (c Decimal.Nil))
    end;
    rewrite N.pow_succ_r';
    simpl (N_of_ascii _ - 48)%N; simpl (Unsigned.of_lu (_ Decimal.Nil));
    generalize (Unsigned.of_lu (Decimal.rev u)) (10 ^ Unsigned.usize u)%N;
    intros x y; lia.
Qed.

Lemma N_of_digits_str_of_N (n : N) :
  Numeral.N_of_digits (PyStr.str_of_N n) = n.
Proof.
  unfold Numeral.N_of_digits, PyStr.str_of_N.
  rewrite N_of_digits_from_uint, N.mul_0_l, N.add_0_r.
  rewrite <- Unsigned.of_uint_alt. apply DecimalN.Unsigned.of_to.
Qed.

Lemma N_of_digits_from_zeros (n : nat) (s : string) :
  Numeral.N_of_digits_from 0 (PyStr.repeat_char "0"%char n ++ s)
  = Numeral.N_of_digits_from 0 s.
Proof. induction n as [|n IH]; [reflexivity | exact IH]. Qed.

Lemma str_of_N_not_empty (n : N) : PyStr.is_empty (PyStr.str_of_N n) = false.
Proof.
  unfold PyStr.str_of_N.
  destruct n as [|p]; [reflexivity|]. cbn [N.to_uint].
  pose proof (Unsigned.to_uint_nonnil p) as H.
  destruct (Pos.to_uint p); [contradiction | reflexivity ..].
Qed.

(** [int] reads a text of digits as the number they write, leading
    zeros or not. *)
Lemma int_of_str_digits (s : string) :
  all_digits s = true -> PyStr.is_empty s = false ->
  Numeral.int_of_str s = Ok (Z.of_N (Numeral.N_of_digits s)).
Proof.
  intros Hd He. unfold Numeral.int_of_str, Numeral.drop_underscores.
  rewrite (all_digits_strip_numeric s Hd),
    (drop_underscores_digits s zero Hd eq_refl).
  destruct s as [|c s]; [discriminate|].
  assert (Hc : PyStr.isdigit c = true)
    by (cbn in Hd; now apply andb_true_iff in Hd as [Hc _]).
  assert (T : Numeral.take_sign (String c s) = (false, String c s)).
  { unfold Numeral.take_sign.
    destruct (Ascii.eqb_spec c "-"%char) as [->|]; [discriminate|].
    destruct (Ascii.eqb_spec c "+"%char) as [->|]; [discriminate|].
    reflexivity. }
  rewrite T, (span_all_digits _ Hd). reflexivity.
Qed.

(** The round trip of [str], [zfill] and [int] on a number that is not
    negative. *)
Lemma int_of_zfill_str (width : nat) (g : Z) :
  0 <= g ->
  Numeral.int_of_str (PyStr.zfill width (PyStr.str_of_Z g)) = Ok g.
Proof.
  intros Hg.
  assert (E : PyStr.str_of_Z g = PyStr.str_of_N (Z.to_N g)).
  { destruct g as [|p|p]; [reflexivity | reflexivity | lia]. }
  rewrite E.
  set (digits := PyStr.str_of_N (Z.to_N g)).
  assert (Hd : all_digits digits = true)
    by apply all_digits_string_of_uint.
  assert (Hn : PyStr.is_empty digits = false) by apply str_of_N_not_empty.
  assert (Z : PyStr.zfill width digits
              = PyStr.repeat_char "0"%char (width - String.length digits)
                ++ digits).
  { unfold PyStr.zfill. destruct digits as [|c r]; [discriminate|].
    assert (Hc : PyStr.isdigit c = true)
      by (cbn in Hd; now apply andb_true_iff in Hd as [Hc _]).
    destruct (Ascii.eqb_spec c "+"%char) as [->|]; [discriminate|].
    destruct (Ascii.eqb_spec c "-"%char) as [->|]; [discriminate|].
    reflexivity. }
  rewrite Z, int_of_str_digits.
  - unfold Numeral.N_of_digits. rewrite N_of_digits_from_zeros.
    fold (Numeral.N_of_digits digits). unfold digits.
    rewrite N_of_digits_str_of_N. f_equal. lia.
  - now rewrite all_digits_app, all_digits_zeros, Hd.
  - destruct (PyStr.repeat_char "0"%char (width - String.length digits));
      [exact Hn | reflexivity].
Qed.

Lemma contains_app_r (sub a b : string) :
  PyStr.contains sub b = true -> PyStr.contains sub (a ++ b) = true.
Proof.
  intros H. induction a as [|c a IH]; [exact H|].
  cbn [append PyStr.contains]. now rewrite IH, orb_true_r.
Qed.

Lemma repeat_char_length (c : ascii) (n : nat) :
  String.length (PyStr.repeat_char c n) = n.
Proof. induction n as [|n IH]; [reflexivity|]. cbn. now rewrite IH. Qed.

Lemma slice_middle_of (a b c : string) (n m : nat) :
  String.length b = n -> String.length c = m -> (0 < m)%nat ->
  PyStr.slice (Some (- Z.of_nat (n + m))) (Some (- Z.of_nat m)) (a ++ b ++ c)
  = b.
Proof. intros <- <- H. now apply slice_middle. Qed.

Lemma slice_tail_of (a b : string) (n : nat) :
  String.length b = n -> (0 < n)%nat ->
  PyStr.slice (Some (- Z.of_nat n)) None (a ++ b) = b.
Proof. intros <- H. now apply slice_tail. Qed.

(** X5: the decoder reads the gate time of an acknowledgement.  For a
    gate time that is not negative and has at most seven digits, written
    with leading zeros on seven characters, followed by any four
    characters and "AOK" or "GOK" and the line end, and preceded by
    anything, the decoder returns no measurement and a delta that holds
    this gate time and nothing else (on a line without "POK"). *)
Theorem gate_time_acknowledgement_decoding :
  forall (g : Z) (before after ack : string),
    0 <= g ->
    (String.length (PyStr.str_of_Z g) <= 7)%nat ->
    String.length after = 4%nat ->
    ack = "AOK" \/ ack = "GOK" ->
    PyStr.contains "POK"
      (before ++ PyStr.zfill 7 (PyStr.str_of_Z g) ++ after ++ ack ++ CRLF)
    = false ->
    preprocess_string
      (before ++ PyStr.zfill 7 (PyStr.str_of_Z g) ++ after ++ ack ++ CRLF)
    = Ok ([], mkFASettings None None None None None g).
Proof.
  intros g before after ack Hg Hlen Hafter Hack Hpok.
  set (d := PyStr.zfill 7 (PyStr.str_of_Z g)) in *.
  assert (E : PyStr.str_of_Z g = PyStr.str_of_N (Z.to_N g)).
  { destruct g as [|p|p]; [reflexivity | reflexivity | lia]. }
  assert (Hdigits : all_digits (PyStr.str_of_Z g) = true)
    by (rewrite E; apply all_digits_string_of_uint).
  assert (Hne : PyStr.is_empty (PyStr.str_of_Z g) = false)
    by (rewrite E; apply str_of_N_not_empty).
  assert (Dz : d = PyStr.repeat_char "0"%char
                     (7 - String.length (PyStr.str_of_Z g))
                   ++ PyStr.str_of_Z g).
  { unfold d, PyStr.zfill. destruct (PyStr.str_of_Z g) as [|c r];
      [discriminate|].
    assert (Hc : PyStr.isdigit c = true)
      by (cbn in Hdigits; now apply andb_true_iff in Hdigits as [Hc _]).
    destruct (Ascii.eqb_spec c "+"%char) as [->|]; [discriminate|].
    destruct (Ascii.eqb_spec c "-"%char) as [->|]; [discriminate|].
    reflexivity. }
  assert (Dlen : String.length d = 7%nat)
    by (rewrite Dz, string_length_app, repeat_char_length; lia).
  assert (Ddig : all_digits d = true)
    by (now rewrite Dz, all_digits_app, all_digits_zeros, Hdigits).
  assert (Dstart : starts_nonspace d = true).
  { destruct d as [|c r]; [discriminate|]. cbn in *.
    apply andb_true_iff in Ddig as [Hc _].
    now rewrite (digit_not_space c Hc). }
  assert (Alen : String.length ack = 3%nat) by (now destruct Hack; subst).
  assert (Aend : ends_nonspace ack = true) by (now destruct Hack; subst).
  assert (Aok : PyStr.contains "OK" ack = true) by (now destruct Hack; subst).
  set (body := d ++ after ++ ack).
  assert (L : before ++ d ++ after ++ ack ++ CRLF = before ++ body ++ CRLF).
  { unfold body. now rewrite !string_append_assoc. }
  assert (S : PyStr.strip (before ++ d ++ after ++ ack ++ CRLF)
              = PyStr.lstrip before ++ d ++ after ++ ack).
  { rewrite L. apply strip_body_line_end.
    - now apply starts_nonspace_app.
    - unfold body. now apply ends_nonspace_app, ends_nonspace_app. }
  unfold preprocess_string. cbv zeta.
  rewrite (contains_strip "POK" _ eq_refl eq_refl), Hpok, S.
  rewrite (contains_app_r "OK" (PyStr.lstrip before) (d ++ after ++ ack))
    by (now apply contains_app_r, contains_app_r).
  replace (PyStr.slice (Some (-3)) None
             (PyStr.lstrip before ++ d ++ after ++ ack)) with ack.
  2:{ symmetry.
      replace (PyStr.lstrip before ++ d ++ after ++ ack)
        with ((PyStr.lstrip before ++ d ++ after) ++ ack)
        by (now rewrite !string_append_assoc).
      apply (slice_tail_of _ ack 3 Alen). lia. }
  replace (PyStr.slice (Some (-14)) (Some (-7))
             (PyStr.lstrip before ++ d ++ after ++ ack)) with d.
  2:{ symmetry. apply (slice_middle_of _ d (after ++ ack) 7 7 Dlen); [|lia].
      rewrite string_length_app, Hafter, Alen. reflexivity. }
  replace (String.eqb "AOK" ack || String.eqb "GOK" ack) with true
    by (now destruct Hack; subst).
  unfold d. rewrite (int_of_zfill_str 7 g Hg). reflexivity.
Qed.

Lemma gate_time_acknowledgement_decoding_witness :
  preprocess_string
    ("$G" ++ PyStr.zfill 7 (PyStr.str_of_Z 2000) ++ " ms," ++ "GOK" ++ CRLF)
  = Ok ([], mkFASettings None None None None None 2000).
Proof.
  apply (gate_time_acknowledgement_decoding 2000 "$G" " ms," "GOK");
    try lia; try (vm_compute; reflexivity).
  - vm_compute. lia.
  - now right.
Defined.

(** ** Appending a line, continued *)

Lemma fix_context_raises (d : PyDecimal.Decimal) (e : exn) :
  PyDecimal.fix_context d = Raise e -> e = DecimalOverflow.
Proof.
  unfold PyDecimal.fix_context.
  destruct d as [s c x|s|s g p]; try discriminate.
  destruct c as [|p]; [discriminate|].
  repeat match goal with
         | |- context [if ?b then _ else _] => destruct b
         end; try discriminate; now intros [= <-].
Qed.

Lemma div_ten_raises (d : PyDecimal.Decimal) (e : exn) :
  PyDecimal.div d (PyDecimal.of_int 10) = Raise e ->
  e = InvalidOperation \/ e = DecimalOverflow.
Proof.
  change (PyDecimal.of_int 10) with (PyDecimal.Finite false 10 0).
  unfold PyDecimal.div.
  destruct d as [s c x|s|s g p].
  - cbn [PyDecimal.check_nans].
    destruct c as [|p].
    + intros H. right. exact (fix_context_raises _ _ H).
    + cbv zeta.
      repeat match goal with
             | |- context [if ?b then _ else _] => destruct b
             | |- context [let '(_, _) := ?m in _] => destruct m
             end;
        intros H; right; exact (fix_context_raises _ _ H).
  - cbn. discriminate.
  - destruct g; cbn; [intros [= <-]; now left | discriminate].
Qed.

(** What storing one measurement does: at most one sample more, in the
    list of its category, with the time given; nothing else of the log
    changes; and it ends well or, for a power, with an overflow. *)
Lemma store_one_effect (timestamp : PyFloat.float)
  (m : Category * string) (w : World) :
  let r := try_except_InvalidOperation (store_measurement timestamp m)
             (print "not a number, need to look into why") w in
  exists (f p : list (PyDecimal.Decimal * PyFloat.float)),
    frequencies (ml (fst r)) = (frequencies (ml w) ++ f)%list
    /\ power (ml (fst r)) = (power (ml w) ++ p)%list
    /\ (List.length f <= if is_frequency m then 1 else 0)%nat
    /\ (List.length p <= if is_power m then 1 else 0)%nat
    /\ Forall (fun x => snd x = timestamp) f
    /\ Forall (fun x => snd x = timestamp) p
    /\ start_time (ml (fst r)) = start_time (ml w)
    /\ clock (fst r) = clock w
    /\ clock_reads (fst r) = clock_reads w
    /\ (snd r = Ok tt
        \/ (snd r = Raise DecimalOverflow /\ is_power m = true
            /\ f = [] /\ p = [])).
Proof.
  destruct m as [category text]. cbv zeta.
  unfold try_except_InvalidOperation, store_measurement, bind, lift,
    modify_ml, print, ret, is_frequency, is_power.
  cbn [fst snd].
  destruct (PyDecimal.of_str text) as [d|e] eqn:E.
  - destruct category.
    + destruct (PyDecimal.div d (PyDecimal.of_int 10)) as [q|e] eqn:Q.
      * exists [], [(q, timestamp)]. cbn. rewrite app_nil_r.
        repeat split; auto.
      * exists [], []. destruct (div_ten_raises d e Q) as [-> | ->];
          cbn; rewrite !app_nil_r; repeat split; auto.
    + exists [(d, timestamp)], []. cbn. rewrite app_nil_r.
      repeat split; auto.
    + exists [], []. cbn. rewrite !app_nil_r. repeat split; auto.
  - rewrite (Decimal_of_str_raises text e E).
    exists [], []. cbn. rewrite !app_nil_r. repeat split; auto;
      destruct category; auto.
Qed.

Lemma store_all_effect (timestamp : PyFloat.float)
  (ms : list (Category * string)) :
  forall w : World,
    let r := store_all timestamp ms w in
    exists (f p : list (PyDecimal.Decimal * PyFloat.float)),
      frequencies (ml (fst r)) = (frequencies (ml w) ++ f)%list
      /\ power (ml (fst r)) = (power (ml w) ++ p)%list
      /\ (List.length f <= List.length (filter is_frequency ms))%nat
      /\ (List.length p <= List.length (filter is_power ms))%nat
      /\ Forall (fun x => snd x = timestamp) f
      /\ Forall (fun x => snd x = timestamp) p
      /\ start_time (ml (fst r)) = start_time (ml w)
      /\ clock (fst r) = clock w
      /\ clock_reads (fst r) = clock_reads w
      /\ (snd r = Ok tt
          \/ (snd r = Raise DecimalOverflow
              /\ exists a, In (POWER, a) ms)).
Proof.
  induction ms as [|m rest IH]; intros w.
  - exists [], []. cbn. rewrite !app_nil_r. repeat split; auto.
  - cbv zeta. rewrite store_all_cons.
    destruct (store_one_effect timestamp m w)
      as (f1 & p1 & F1 & P1 & LF1 & LP1 & TF1 & TP1 & S1 & C1 & R1 & E1).
    cbv zeta in *.
    destruct (try_except_InvalidOperation _ _ w) as [w1 [u|e]];
      cbn [fst snd] in *.
    + destruct (IH w1)
        as (f2 & p2 & F2 & P2 & LF2 & LP2 & TF2 & TP2 & S2 & C2 & R2 & E2).
      exists (f1 ++ f2)%list, (p1 ++ p2)%list.
      rewrite F2, P2, F1, P1, S2, S1, C2, C1, R2, R1, <- !app_assoc.
      cbn [filter]. rewrite !length_app.
      repeat split; auto.
      * destruct (is_frequency m); cbn [List.length]; lia.
      * destruct (is_power m); cbn [List.length]; lia.
      * now apply Forall_app.
      * now apply Forall_app.
      * destruct E2 as [E2 | [E2 [a Ha]]]; [now left|].
        right. split; [exact E2|]. exists a. now right.
    + exists f1, p1. cbn [filter].
      destruct E1 as [E1 | (E1 & Hm & _ & _)]; [discriminate|].
      injection E1 as ->.
      repeat split; auto.
      * destruct (is_frequency m); cbn [List.length]; lia.
      * destruct (is_power m); cbn [List.length]; lia.
      * right. split; [reflexivity|].
        destruct m as [[] a]; try discriminate. exists a. now left.
Qed.

Lemma update_settings_nothing (current : FASettings) :
  update_settings current FASettings_init = current.
Proof. now destruct current. Qed.

Lemma preprocess_string_raises_ValueError (line : string) (e : exn) :
  preprocess_string line = Raise e -> e = ValueError.
Proof.
  unfold preprocess_string. cbv zeta.
  repeat match goal with
         | |- context [if ?b then _ else _] => destruct b
         end; try discriminate;
    (destruct (Numeral.int_of_str _) as [g|e'] eqn:E; [discriminate|]);
    cbn [rbind]; intros [= <-]; exact (int_of_str_raises _ _ E).
Qed.

Lemma preprocess_string_counts (line : string)
  (ms : list (Category * string)) (delta : FASettings) :
  preprocess_string line = Ok (ms, delta) ->
  (List.length (filter is_frequency ms) <= 1)%nat
  /\ (List.length (filter is_power ms) <= 1)%nat.
Proof.
  unfold preprocess_string. cbv zeta.
  repeat match goal with
         | |- context [if ?b then _ else _] => destruct b
         | |- context [rbind ?r _] => destruct r; cbn [rbind]
         end;
    intros [= <- <-]; cbn; lia.
Qed.

Lemma preprocess_string_without_OK (line : string) :
  PyStr.contains "OK" line = false ->
  exists ms : list (Category * string),
    preprocess_string line = Ok (ms, FASettings_init).
Proof.
  intros H. unfold preprocess_string. cbv zeta.
  rewrite (contains_strip "OK" line eq_refl eq_refl), H.
  repeat match goal with
         | |- context [if ?b then _ else _] => destruct b
         end; eexists; reflexivity.
Qed.

Lemma world_after_reset_settings (w : World) :
  latest_settings (ml (world_after_reset w)) = latest_settings (ml w).
Proof.
  unfold world_after_reset. now destruct (reset_on_the_next_read (ml w)).
Qed.

(** The settings after a line: the decoded delta merged in, or, where the
    decoder raises, what they were. *)
Lemma add_string_settings (line : string) (w : World) :
  latest_settings (ml (fst (add_string line w)))
  = match preprocess_string line with
    | Ok (_, delta) => update_settings (latest_settings (ml w)) delta
    | Raise _ => latest_settings (ml w)
    end.
Proof.
  destruct (preprocess_string line) as [[ms delta]|e] eqn:E.
  - rewrite (add_string_decodes line w ms delta E).
    destruct (store_all_frame (timestamp_at_decoding w) ms
                (world_with_line line delta w)) as (_ & _ & ->).
    unfold world_with_line, world_at_decoding. cbn.
    now rewrite world_after_reset_settings.
  - rewrite (add_string_raises line w e E).
    unfold world_at_decoding. cbn. apply world_after_reset_settings.
Qed.

(** X6: a line without "OK" in it, a measurement of the stream or any
    other text, leaves the settings of the log as they were, with or
    without a pending reset. *)
Theorem add_string_without_OK_keeps_settings :
  forall (line : string) (w : World),
    PyStr.contains "OK" line = false ->
    latest_settings (ml (fst (add_string line w))) = latest_settings (ml w).
Proof.
  intros line w H. rewrite add_string_settings.
  destruct (preprocess_string_without_OK line H) as [ms ->].
  apply update_settings_nothing.
Qed.

Lemma add_string_without_OK_keeps_settings_witness :
  latest_settings (ml (fst (add_string stream_line example_world)))
  = latest_settings (ml example_world).
Proof.
  apply (add_string_without_OK_keeps_settings stream_line example_world).
  vm_compute. reflexivity.
Defined.

(** X7: with no reset pending, a line only adds to the log.  The raw
    lines gain this line exactly when the decoder returns; the
    frequencies and the powers gain at most one sample each; whatever is
    added carries the time of this line, the one clock reading less the
    start time; the start time stays and the clock is read once. *)
Theorem add_string_appends :
  forall (line : string) (w : World),
    reset_on_the_next_read (ml w) = false ->
    let w' := fst (add_string line w) in
    let t := PyFloat.sub (clock w (clock_reads w)) (start_time (ml w)) in
    exists (f p : list (PyDecimal.Decimal * PyFloat.float)),
      strings (ml w')
      = (strings (ml w)
         ++ if is_ok (preprocess_string line) then [(line, t)] else [])%list
      /\ frequencies (ml w') = (frequencies (ml w) ++ f)%list
      /\ power (ml w') = (power (ml w) ++ p)%list
      /\ (List.length f <= 1)%nat /\ (List.length p <= 1)%nat
      /\ Forall (fun x => snd x = t) f /\ Forall (fun x => snd x = t) p
      /\ start_time (ml w') = start_time (ml w)
      /\ clock_reads w' = S (clock_reads w).
Proof.
  intros line w H. cbv zeta.
  assert (T : timestamp_at_decoding w
              = PyFloat.sub (clock w (clock_reads w)) (start_time (ml w))).
  { unfold timestamp_at_decoding, world_after_reset. now rewrite H. }
  assert (R : clock_reads (world_at_decoding w) = S (clock_reads w)).
  { unfold world_at_decoding, world_after_reset. now rewrite H. }
  pose proof (world_at_decoding_not_pending w H) as W.
  destruct (preprocess_string line) as [[ms delta]|e] eqn:E.
  - rewrite (add_string_decodes line w ms delta E).
    destruct (store_all_effect (timestamp_at_decoding w) ms
                (world_with_line line delta w))
      as (f & p & F & P & LF & LP & TF & TP & S & _ & C & _).
    destruct (store_all_frame (timestamp_at_decoding w) ms
                (world_with_line line delta w)) as (A & _ & _).
    destruct (preprocess_string_counts line ms delta E) as [NF NP].
    cbv zeta in *. rewrite T in *.
    exists f, p. rewrite A, F, P, S, C.
    unfold world_with_line.
    cbn -[world_at_decoding timestamp_at_decoding]. rewrite W, R, T.
    repeat split; auto; lia.
  - rewrite (add_string_raises line w e E). cbn [fst].
    exists [], []. rewrite W, R, !app_nil_r.
    repeat split; auto.
Qed.

Lemma add_string_appends_witness :
  exists (f p : list (PyDecimal.Decimal * PyFloat.float)),
    strings (ml (fst (add_string stream_line
                        (fst (add_string stream_line example_world)))))
    = (strings (ml (fst (add_string stream_line example_world)))
       ++ [(stream_line,
            PyFloat.sub (example_clock 2) (example_clock 0))])%list
    /\ frequencies (ml (fst (add_string stream_line
                               (fst (add_string stream_line
                                       example_world)))))
       = (frequencies (ml (fst (add_string stream_line example_world)))
          ++ f)%list
    /\ power (ml (fst (add_string stream_line
                         (fst (add_string stream_line example_world)))))
       = (power (ml (fst (add_string stream_line example_world))) ++ p)%list
    /\ (List.length f <= 1)%nat /\ (List.length p <= 1)%nat.
Proof.
  destruct (add_string_appends stream_line
              (fst (add_string stream_line example_world)))
    as (f & p & A & F & P & LF & LP & _); [vm_compute; reflexivity|].
  exists f, p. repeat split; assumption.
Defined.

(** X8: appending a line raises nothing but [ValueError], and then it is
    the decoder that raised it, or the overflow of [decimal], and then the
    line decoded and carries a power measurement, whose tenth is out of
    range.  The [InvalidOperation] of a malformed number never leaves
    [add_string]. *)
Theorem add_string_raises_only :
  forall (line : string) (w : World) (e : exn),
    snd (add_string line w) = Raise e ->
    (e = ValueError /\ preprocess_string line = Raise ValueError)
    \/ (e = DecimalOverflow
        /\ exists (ms : list (Category * string)) (delta : FASettings)
                  (a : string),
             preprocess_string line = Ok (ms, delta) /\ In (POWER, a) ms).
Proof.
  intros line w e.
  destruct (preprocess_string line) as [[ms delta]|e'] eqn:E.
  - rewrite (add_string_decodes line w ms delta E).
    destruct (store_all_effect (timestamp_at_decoding w) ms
                (world_with_line line delta w))
      as (f & p & _ & _ & _ & _ & _ & _ & _ & _ & _ & [R | [R [a Ha]]]);
      cbv zeta in R; rewrite R; [discriminate|].
    intros [= <-]. right. split; [reflexivity|].
    exists ms, delta, a. now split.
  - rewrite (add_string_raises line w e' E). cbn [snd].
    intros [= <-]. left.
    pose proof (preprocess_string_raises_ValueError line e' E) as ->.
    now split.
Qed.

Lemma add_string_raises_only_witness :
  (DecimalOverflow = ValueError
   /\ preprocess_string "$A0010000000.001000001,1E+1000001,"
      = Raise ValueError)
  \/ (DecimalOverflow = DecimalOverflow
      /\ exists (ms : list (Category * string)) (delta : FASettings)
                (a : string),
           preprocess_string "$A0010000000.001000001,1E+1000001,"
           = Ok (ms, delta)
           /\ In (POWER, a) ms).
Proof.
  apply (add_string_raises_only "$A0010000000.001000001,1E+1000001,"
           example_world DecimalOverflow).
  vm_compute. reflexivity.
Defined.

(** X9: a reset asked for the next line is the reset itself, with a new
    start time, done just before that line is appended: the two leave the
    same log, the same clock and the same outcome.  And a reset, asked for
    or done, with or without a new start time, keeps the settings. *)
Theorem deferred_reset_is_reset :
  forall (line : string) (w : World),
    bind reset_on_next_read (fun _ => add_string line) w
    = bind (reset true) (fun _ => add_string line) w
    /\ forall reset_time : bool,
         latest_settings (ml (fst (reset reset_time w)))
         = latest_settings (ml w).
Proof.
  intros line w. split.
  - unfold bind, reset_on_next_read, add_string, reset, modify_ml, get_ml,
      time_time, lift, ret.
    cbn [fst snd ml clock clock_reads stdout reset_on_the_next_read
         set_reset_on_the_next_read set_strings set_frequencies set_power
         set_start_time strings frequencies power start_time latest_settings].
    reflexivity.
  - intros []; reflexivity.
Qed.

(** ** The order of the decimals *)

Lemma length_string_of_uint (u : Decimal.uint) :
  String.length (NilEmpty.string_of_uint u) = Decimal.nb_digits u.
Proof. induction u; cbn; congruence. Qed.

Lemma usize_nb_digits (u : Decimal.uint) :
  DecimalPos.Unsigned.usize u = N.of_nat (Decimal.nb_digits u).
Proof.
  induction u; cbn [DecimalPos.Unsigned.usize Decimal.nb_digits];
    rewrite ?IHu; lia.
Qed.

Lemma of_lu_lt (u : Decimal.uint) :
  (DecimalPos.Unsigned.of_lu u < 10 ^ DecimalPos.Unsigned.usize u)%N.
Proof.
  induction u;
    cbn [DecimalPos.Unsigned.usize DecimalPos.Unsigned.of_lu];
    rewrite ?N.pow_succ_r'; [cbn|..]; lia.
Qed.

Lemma of_uint_lt (u : Decimal.uint) :
  (N.of_uint u < 10 ^ DecimalPos.Unsigned.usize u)%N.
Proof.
  unfold N.of_uint. rewrite DecimalPos.Unsigned.of_uint_alt.
  replace (DecimalPos.Unsigned.usize u)
    with (DecimalPos.Unsigned.usize (Decimal.rev u)).
  - apply of_lu_lt.
  - now rewrite !usize_nb_digits, DecimalFacts.nb_digits_rev.
Qed.

Lemma of_uint_ge (u : Decimal.uint) :
  u = Decimal.unorm u -> N.of_uint u <> 0%N ->
  (10 ^ (DecimalPos.Unsigned.usize u - 1) <= N.of_uint u)%N.
Proof.
  intros U NZ.
  assert (G : forall (u' : Decimal.uint) (k : N),
             (1 <= k)%N ->
             (10 ^ DecimalPos.Unsigned.usize u'
              <= DecimalPos.Unsigned.of_lu (Decimal.rev u')
                 + k * 10 ^ DecimalPos.Unsigned.usize u')%N).
  { intros u' k K. nia. }
  destruct u as [|u'|u'|u'|u'|u'|u'|u'|u'|u'|u'];
    try (unfold N.of_uint; rewrite DecimalPos.Unsigned.of_uint_alt;
         unfold Decimal.rev at 1; cbn [Decimal.revapp];
         rewrite DecimalPos.Unsigned.of_lu_revapp;
         cbn [DecimalPos.Unsigned.usize];
         replace (N.succ (DecimalPos.Unsigned.usize u') - 1)%N
           with (DecimalPos.Unsigned.usize u') by lia;
         cbn [DecimalPos.Unsigned.of_lu]; rewrite N.mul_0_r, N.add_0_r;
         apply G; lia).
  - discriminate.
  - exfalso. unfold Decimal.unorm in U. cbn [Decimal.nzhead] in U.
    destruct (Decimal.nzhead u') as [|v|v|v|v|v|v|v|v|v|v] eqn:Z;
      try discriminate.
    + injection U as ->. now apply NZ.
    + now apply (DecimalFacts.nzhead_nonzero u' v).
Qed.

Lemma pow10_Z (k : Z) : 0 <= k -> Z.of_N (PyDecimal.pow10 k) = 10 ^ k.
Proof.
  intros K. unfold PyDecimal.pow10. rewrite N2Z.inj_pow, Z2N.id by lia.
  reflexivity.
Qed.

Lemma pow10_nonpos (k : Z) : k <= 0 -> PyDecimal.pow10 k = 1%N.
Proof.
  intros K. unfold PyDecimal.pow10.
  replace (Z.to_N k) with 0%N by lia. reflexivity.
Qed.

(** A coefficient of [n] digits lies between [10^(n-1)] and [10^n]. *)
Lemma ndigits_bounds (c : N) :
  c <> 0%N ->
  10 ^ (PyDecimal.ndigits c - 1) <= Z.of_N c < 10 ^ PyDecimal.ndigits c
  /\ 1 <= PyDecimal.ndigits c.
Proof.
  intros NZ. unfold PyDecimal.ndigits, PyStr.str_of_N.
  rewrite length_string_of_uint.
  set (u := N.to_uint c).
  assert (V : N.of_uint u = c) by apply DecimalN.Unsigned.of_to.
  assert (U : u = Decimal.unorm u).
  { rewrite <- DecimalN.Unsigned.to_of, V. reflexivity. }
  pose proof (of_uint_lt u) as HI.
  pose proof (of_uint_ge u U) as LO. rewrite V in *.
  specialize (LO NZ). rewrite usize_nb_digits in *.
  assert (P : (1 <= Decimal.nb_digits u)%nat).
  { destruct u; cbn; try lia. discriminate. }
  split; [|lia]. split.
  - replace (Z.of_nat (Decimal.nb_digits u) - 1)
      with (Z.of_N (N.of_nat (Decimal.nb_digits u) - 1)) by lia.
    change 10 with (Z.of_N 10). rewrite <- N2Z.inj_pow. lia.
  - replace (Z.of_nat (Decimal.nb_digits u))
      with (Z.of_N (N.of_nat (Decimal.nb_digits u))) by lia.
    change 10 with (Z.of_N 10). rewrite <- N2Z.inj_pow. lia.
Qed.

Lemma scaled_lt (X Y da db ea eb e : Z) :
  10 ^ (da - 1) <= X -> 0 <= Y < 10 ^ db -> 1 <= da -> 1 <= db ->
  e <= ea -> e <= eb -> eb + db <= ea + da - 1 ->
  Y * 10 ^ (eb - e) < X * 10 ^ (ea - e).
Proof.
  intros LX HY Da Db Ea Eb A.
  assert (P1 : 0 < 10 ^ (eb - e)) by (apply Z.pow_pos_nonneg; lia).
  assert (P2 : 0 < 10 ^ (ea - e)) by (apply Z.pow_pos_nonneg; lia).
  apply Z.lt_le_trans with (10 ^ db * 10 ^ (eb - e)).
  - apply Z.mul_lt_mono_pos_r; lia.
  - apply Z.le_trans with (10 ^ (da - 1) * 10 ^ (ea - e)).
    + rewrite <- !Z.pow_add_r by lia. apply Z.pow_le_mono_r; lia.
    + apply Z.mul_le_mono_nonneg_r; lia.
Qed.

Lemma mul_compare_r (n m p : Z) :
  0 < p -> (n * p ?= m * p) = (n ?= m).
Proof.
  intros P. destruct (Z.compare_spec n m) as [->|L|G].
  - apply Z.compare_refl.
  - apply Z.compare_lt_iff. nia.
  - apply Z.compare_gt_iff. nia.
Qed.

(** The comparison of the magnitudes in [_cmp], by the adjusted
    exponents first, is the comparison of the values. *)
Lemma cmp_magnitude (pa pb : positive) (ea eb e : Z) :
  e <= ea -> e <= eb ->
  match PyDecimal.adjusted (Npos pa) ea ?= PyDecimal.adjusted (Npos pb) eb
  with
  | Eq => (Npos pa * PyDecimal.pow10 (ea - eb)
           ?= Npos pb * PyDecimal.pow10 (eb - ea))%N
  | c => c
  end
  = (Z.pos pa * 10 ^ (ea - e) ?= Z.pos pb * 10 ^ (eb - e)).
Proof.
  intros Ea Eb. unfold PyDecimal.adjusted.
  destruct (ndigits_bounds (Npos pa)) as [[LA HA] DA]; [discriminate|].
  destruct (ndigits_bounds (Npos pb)) as [[LB HB] DB]; [discriminate|].
  cbn [Z.of_N] in *.
  set (da := PyDecimal.ndigits (Npos pa)) in *.
  set (db := PyDecimal.ndigits (Npos pb)) in *.
  destruct (Z.compare_spec (ea + da - 1) (eb + db - 1)) as [E|L|G].
  - rewrite <- N2Z.inj_compare, !N2Z.inj_mul. cbn [Z.of_N].
    destruct (Z.le_ge_cases ea eb) as [Le|Le].
    + rewrite (pow10_nonpos (ea - eb)), pow10_Z by lia.
      replace (eb - e) with ((eb - ea) + (ea - e)) by lia.
      rewrite Z.pow_add_r, Z.mul_assoc by lia.
      rewrite mul_compare_r by (apply Z.pow_pos_nonneg; lia).
      now rewrite Z.mul_1_r.
    + rewrite (pow10_nonpos (eb - ea)), pow10_Z by lia.
      replace (ea - e) with ((ea - eb) + (eb - e)) by lia.
      rewrite Z.pow_add_r, Z.mul_assoc by lia.
      rewrite mul_compare_r by (apply Z.pow_pos_nonneg; lia).
      now rewrite Z.mul_1_r.
  - symmetry. apply Z.compare_lt_iff.
    apply (scaled_lt (Z.pos pb) (Z.pos pa) db da eb ea e); lia.
  - symmetry. apply Z.compare_gt_iff.
    apply (scaled_lt (Z.pos pa) (Z.pos pb) da db ea eb e); lia.
Qed.

(** [_cmp] on two finite decimals compares their values, here in units of
    a power of ten not above either exponent. *)
Lemma cmp_finite_units (sa sb : bool) (ca cb : N) (ea eb e : Z) :
  e <= ea -> e <= eb ->
  PyDecimal.cmp (PyDecimal.Finite sa ca ea) (PyDecimal.Finite sb cb eb)
  = (PyDecimal.units sa ca ea e ?= PyDecimal.units sb cb eb e).
Proof.
  intros Ea Eb. unfold PyDecimal.cmp, PyDecimal.units. cbv zeta.
  assert (P1 : 0 < 10 ^ (ea - e)) by (apply Z.pow_pos_nonneg; lia).
  assert (P2 : 0 < 10 ^ (eb - e)) by (apply Z.pow_pos_nonneg; lia).
  destruct ca as [|pa], cb as [|pb].
  - destruct sa, sb; reflexivity.
  - rewrite !N2Z.inj_mul, !pow10_Z by lia. cbn [Z.of_N].
    pose proof (Pos2Z.is_pos pb) as Q.
    destruct sa, sb; symmetry;
      first [apply Z.compare_lt_iff; nia | apply Z.compare_gt_iff; nia].
  - rewrite !N2Z.inj_mul, !pow10_Z by lia. cbn [Z.of_N].
    pose proof (Pos2Z.is_pos pa) as Q.
    destruct sa, sb; symmetry;
      first [apply Z.compare_lt_iff; nia | apply Z.compare_gt_iff; nia].
  - rewrite !N2Z.inj_mul, !pow10_Z by lia. cbn [Z.of_N].
    pose proof (cmp_magnitude pa pb ea eb e Ea Eb) as M.
    destruct sa, sb; cbn [negb Bool.eqb].
    + rewrite (Z.compare_opp (Z.pos pa * 10 ^ (ea - e))),
        (Z.compare_antisym (Z.pos pa * 10 ^ (ea - e))), <- M.
      destruct (_ ?= _); [destruct (_ ?= _)%N|..]; reflexivity.
    + symmetry. apply Z.compare_lt_iff.
      pose proof (Pos2Z.is_pos pa). pose proof (Pos2Z.is_pos pb). nia.
    + symmetry. apply Z.compare_gt_iff.
      pose proof (Pos2Z.is_pos pa). pose proof (Pos2Z.is_pos pb). nia.
    + rewrite <- M.
      destruct (_ ?= _); [destruct (_ ?= _)%N|..]; reflexivity.
Qed.

Lemma cmp_refl (a : PyDecimal.Decimal) :
  not_nan a = true -> PyDecimal.cmp a a = Eq.
Proof.
  destruct a as [s c e|[]|]; try reflexivity; try discriminate.
  intros _. rewrite (cmp_finite_units s s c c e e e) by lia.
  apply Z.compare_refl.
Qed.

Lemma cmp_trans (o : comparison) (a b c : PyDecimal.Decimal) :
  not_nan a = true -> not_nan b = true -> not_nan c = true ->
  o <> Eq ->
  PyDecimal.cmp a b = o -> PyDecimal.cmp b c = o -> PyDecimal.cmp a c = o.
Proof.
  intros Na Nb Nc O.
  destruct a as [sa ca ea|sa|]; [| |discriminate];
    destruct b as [sb cb eb|sb|]; try discriminate;
    destruct c as [sc cc ec|sc|]; try discriminate.
  - set (e := Z.min ea (Z.min eb ec)).
    rewrite (cmp_finite_units sa sb ca cb ea eb e),
      (cmp_finite_units sb sc cb cc eb ec e),
      (cmp_finite_units sa sc ca cc ea ec e) by lia.
    destruct o; [contradiction| |].
    + rewrite !Z.compare_lt_iff. lia.
    + rewrite !Z.compare_gt_iff. lia.
  - destruct sc; cbn; intros _ <-; reflexivity.
  - destruct sb; cbn; intros <-; try discriminate;
      destruct o; try discriminate; contradiction.
  - destruct sb, sc; cbn; intros <-; try discriminate; reflexivity.
  - destruct sa; cbn; intros <- H; try reflexivity;
      destruct (PyDecimal.cmp _ _);
      rewrite ?Z.compare_lt_iff, ?Z.compare_gt_iff in *; congruence.
  - destruct sa, sc; cbn; intros <-; try discriminate; intros; reflexivity.
  - destruct sa, sb; cbn; intros <-; try discriminate; intros; reflexivity.
  - destruct sa, sb, sc; cbn; intros <-; try discriminate; intros;
      reflexivity.
Qed.

(** ** The statistics *)

Lemma _get_data_unknown (self : MeasureLog) (category : string) :
  category <> "frequency" -> category <> "power" ->
  _get_data self category = [].
Proof.
  intros F P. unfold _get_data.
  destruct (String.eqb_spec category "frequency"); [contradiction|].
  destruct (String.eqb_spec category "power"); [contradiction|].
  reflexivity.
Qed.

(** X10: a category that is neither "frequency" nor "power" is taken as
    one without samples, and without samples nothing raises: the
    minimum, the maximum, the average, the deviation and the peak to peak
    are the float 0.0, the latest value is the pair of two such floats,
    the list of the values is [None], and the count and the interval are
    the integer 0. *)
Theorem statistics_without_samples :
  forall (stdev : list PyDecimal.Decimal -> result number)
         (round_float : PyFloat.float -> Z -> PyFloat.float)
         (self : MeasureLog) (category : string),
    (category <> "frequency" /\ category <> "power")
    \/ _get_data self category = [] ->
    min_value self category = Ok PyNumber.float_zero
    /\ max_value self category = Ok PyNumber.float_zero
    /\ average_value self category = Ok PyNumber.float_zero
    /\ std_dev_value stdev self category = Ok PyNumber.float_zero
    /\ peak_to_peak self category = Some (Ok PyNumber.float_zero)
    /\ latest_value self category
       = (PyNumber.float_zero, PyNumber.float_zero)
    /\ get_freq_list self category = None
    /\ count self category = 0
    /\ get_time_interval round_float self category = Ok 0.
Proof.
  intros stdev round_float self category H.
  assert (E : _get_data self category = []).
  { destruct H as [[F P]|H]; [now apply _get_data_unknown | exact H]. }
  unfold min_value, max_value, average_value, std_dev_value, peak_to_peak,
    latest_value, get_freq_list, count, get_time_interval,
    min_value, max_value.
  cbv zeta. rewrite E. cbn. repeat split; reflexivity.
Qed.

Lemma statistics_without_samples_witness :
  min_value (ml (fst (add_string stream_line example_world))) "voltage"
  = Ok PyNumber.float_zero
  /\ peak_to_peak (ml (fst (add_string stream_line example_world))) "voltage"
     = Some (Ok PyNumber.float_zero)
  /\ count (ml (fst (add_string stream_line example_world))) "voltage" = 0.
Proof.
  destruct (statistics_without_samples
              (fun _ => Ok PyNumber.float_zero) (fun x _ => x)
              (ml (fst (add_string stream_line example_world))) "voltage")
    as (A & _ & _ & _ & B & _ & _ & C & _).
  - left. split; discriminate.
  - repeat split; assumption.
Defined.

Lemma py_best_invariant
  (better : PyDecimal.Decimal -> PyDecimal.Decimal -> result bool)
  (o : comparison) :
  o <> Eq ->
  (forall a b : PyDecimal.Decimal,
      not_nan a = true -> not_nan b = true ->
      better a b = Ok (match PyDecimal.cmp a b, o with
                       | Lt, Lt | Gt, Gt => true
                       | _, _ => false
                       end)) ->
  forall (rest seen : list PyDecimal.Decimal) (best : PyDecimal.Decimal),
    forallb not_nan seen = true -> forallb not_nan rest = true ->
    In best seen ->
    (forall x, In x seen -> PyDecimal.cmp x best <> o) ->
    exists m : PyDecimal.Decimal,
      py_best better best rest = Ok m
      /\ In m (seen ++ rest)%list
      /\ forall x, In x (seen ++ rest)%list -> PyDecimal.cmp x m <> o.
Proof.
  intros O B. unfold py_best.
  induction rest as [|item rest IH]; intros seen best NS NR IB LB.
  - exists best. rewrite app_nil_r. now repeat split.
  - cbn [forallb] in NR. apply andb_prop in NR as [NI NR].
    assert (NB : not_nan best = true).
    { rewrite forallb_forall in NS. now apply NS. }
    cbn [fold_left rbind]. rewrite (B item best NI NB). cbn [rbind].
    set (b := match PyDecimal.cmp item best, o with
              | Lt, Lt | Gt, Gt => true
              | _, _ => false
              end).
    destruct (IH (seen ++ [item])%list (if b then item else best))
      as (m & E & I & L).
    + rewrite forallb_app, NS. cbn. now rewrite NI.
    + exact NR.
    + destruct b; apply in_or_app; [right; now left | now left].
    + intros x Hx. apply in_app_or in Hx as [Hx|[<-|[]]].
      * destruct b eqn:Eb; [|now apply LB].
        intros C. apply (LB x Hx).
        assert (Nx : not_nan x = true).
        { rewrite forallb_forall in NS. now apply NS. }
        apply (cmp_trans o x item best Nx NI NB O C).
        subst b. destruct (PyDecimal.cmp item best), o;
          try discriminate; try contradiction; reflexivity.
      * destruct b eqn:Eb.
        -- rewrite (cmp_refl item NI). congruence.
        -- subst b. destruct (PyDecimal.cmp item best), o;
             try discriminate; try contradiction; congruence.
    + exists m. rewrite <- app_assoc in I, L. now repeat split.
Qed.

Lemma Decimal_lt_cmp (a b : PyDecimal.Decimal) :
  not_nan a = true -> not_nan b = true ->
  Decimal_lt a b = Ok (match PyDecimal.cmp a b, Lt with
                       | Lt, Lt | Gt, Gt => true
                       | _, _ => false
                       end).
Proof.
  unfold not_nan, Decimal_lt. intros A B.
  apply negb_true_iff in A, B. rewrite A, B. cbn.
  now destruct (PyDecimal.cmp a b).
Qed.

Lemma Decimal_gt_cmp (a b : PyDecimal.Decimal) :
  not_nan a = true -> not_nan b = true ->
  PyDecimal.gt a b = Ok (match PyDecimal.cmp a b, Gt with
                         | Lt, Lt | Gt, Gt => true
                         | _, _ => false
                         end).
Proof.
  unfold not_nan, PyDecimal.gt. intros A B.
  apply negb_true_iff in A, B. rewrite A, B. cbn.
  now destruct (PyDecimal.cmp a b).
Qed.

(** X11: on samples none of which is a NaN, and at least one, the
    minimum and the maximum are returned, each is one of the samples, no
    sample is below the minimum and none is above the maximum, in the
    order of [decimal]; and the peak to peak is the difference of the
    two, a decimal and never a [TypeError]. *)
Theorem min_max_value_bounds :
  forall (self : MeasureLog) (category : string),
    _get_data self category <> [] ->
    forallb not_nan (map fst (_get_data self category)) = true ->
    exists lo hi : PyDecimal.Decimal,
      min_value self category = Ok (Dec lo)
      /\ max_value self category = Ok (Dec hi)
      /\ peak_to_peak self category
         = Some (d <- PyDecimal.sub hi lo ;; Ok (Dec d))
      /\ In lo (map fst (_get_data self category))
      /\ In hi (map fst (_get_data self category))
      /\ forall x : PyDecimal.Decimal,
           In x (map fst (_get_data self category)) ->
           Decimal_lt x lo = Ok false /\ PyDecimal.gt x hi = Ok false.
Proof.
  intros self category NE NN. unfold peak_to_peak, min_value, max_value.
  cbv zeta.
  destruct (map fst (_get_data self category)) as [|first rest] eqn:E.
  - destruct (_get_data self category); [contradiction | discriminate].
  - cbn [forallb] in NN. apply andb_prop in NN as [NF NR].
    assert (S : forallb not_nan [first] = true) by (cbn; now rewrite NF).
    destruct (py_best_invariant Decimal_lt Lt ltac:(discriminate)
                Decimal_lt_cmp rest [first] first S NR)
      as (lo & Elo & Ilo & Llo).
    { now left. }
    { intros x [<-|[]]. rewrite (cmp_refl first NF). discriminate. }
    destruct (py_best_invariant PyDecimal.gt Gt ltac:(discriminate)
                Decimal_gt_cmp rest [first] first S NR)
      as (hi & Ehi & Ihi & Lhi).
    { now left. }
    { intros x [<-|[]]. rewrite (cmp_refl first NF). discriminate. }
    exists lo, hi. rewrite Elo, Ehi. cbn [rbind app] in *.
    split; [reflexivity|]. split; [reflexivity|]. split; [reflexivity|].
    split; [exact Ilo|]. split; [exact Ihi|].
    intros x H. split.
    + assert (All : forallb not_nan (first :: rest) = true)
        by (cbn; now rewrite NF).
      rewrite forallb_forall in All.
      rewrite (Decimal_lt_cmp x lo (All x H) (All lo Ilo)).
      specialize (Llo x H). now destruct (PyDecimal.cmp x lo).
    + assert (All : forallb not_nan (first :: rest) = true)
        by (cbn; now rewrite NF).
      rewrite forallb_forall in All.
      rewrite (Decimal_gt_cmp x hi (All x H) (All hi Ihi)).
      specialize (Lhi x H). now destruct (PyDecimal.cmp x hi).
Qed.

Lemma min_max_value_bounds_witness :
  map fst (_get_data log_of_five_lines "frequency")
  = [PyDecimal.Finite false 10000000001000 (-6);
     PyDecimal.Finite false 9999999998700 (-6);
     PyDecimal.Finite false 10000000002500 (-6);
     PyDecimal.Finite false 100000000 (-1);
     PyDecimal.Finite false 9999999999100 (-6)]
  /\ min_value log_of_five_lines "frequency"
     = Ok (Dec (PyDecimal.Finite false 9999999998700 (-6)))
  /\ max_value log_of_five_lines "frequency"
     = Ok (Dec (PyDecimal.Finite false 10000000002500 (-6)))
  /\ peak_to_peak log_of_five_lines "frequency"
     = Some (Ok (Dec (PyDecimal.Finite false 3800 (-6))))
  /\ exists lo hi : PyDecimal.Decimal,
       min_value log_of_five_lines "frequency" = Ok (Dec lo)
       /\ max_value log_of_five_lines "frequency" = Ok (Dec hi)
       /\ peak_to_peak log_of_five_lines "frequency"
          = Some (d <- PyDecimal.sub hi lo ;; Ok (Dec d))
       /\ In lo (map fst (_get_data log_of_five_lines "frequency"))
       /\ In hi (map fst (_get_data log_of_five_lines "frequency"))
       /\ forall x : PyDecimal.Decimal,
            In x (map fst (_get_data log_of_five_lines "frequency")) ->
            Decimal_lt x lo = Ok false /\ PyDecimal.gt x hi = Ok false.
Proof.
  split; [vm_compute; reflexivity|].
  split; [vm_compute; reflexivity|].
  split; [vm_compute; reflexivity|].
  split; [vm_compute; reflexivity|].
  apply (min_max_value_bounds log_of_five_lines "frequency").
  - vm_compute. discriminate.
  - vm_compute. reflexivity.
Defined.

Lemma add_string_frequencies (line : string) (w : World) (text : string)
  (rest : list (Category * string)) (delta : FASettings)
  (d : PyDecimal.Decimal) :
  reset_on_the_next_read (ml w) = false ->
  preprocess_string line = Ok ((FREQUENCY, text) :: rest, delta) ->
  PyDecimal.of_str text = Ok d ->
  frequencies (ml (fst (add_string line w)))
  = (frequencies (ml w)
     ++ [(d, PyFloat.sub (clock w (clock_reads w))
                         (start_time (ml w)))])%list.
Proof.
  intros H E D.
  assert (T : timestamp_at_decoding w
              = PyFloat.sub (clock w (clock_reads w)) (start_time (ml w))).
  { unfold timestamp_at_decoding, world_after_reset. now rewrite H. }
  rewrite (add_string_decodes line w _ delta E).
  rewrite (store_frequency _ text d rest _ D).
  match goal with
  | |- context [store_all ?t rest ?w1] =>
      destruct (store_all_effect t rest w1) as (f & p & F & _ & LF & _)
  end.
  cbv zeta in F, LF. rewrite F.
  destruct (preprocess_string_counts line _ delta E) as [NF _].
  cbn [filter is_frequency fst List.length] in NF.
  assert (f = []) as -> by (destruct f; [reflexivity | cbn in LF; lia]).
  rewrite app_nil_r. unfold world_with_line.
  cbn -[world_at_decoding timestamp_at_decoding].
  now rewrite (world_at_decoding_not_pending w H), T.
Qed.

(** X12: with no reset pending, a line that decodes to a frequency
    whose text is a decimal makes the count of the frequencies one more,
    and that decimal, with the time of the line, the latest value and the
    last of the list of the values. *)
Theorem add_string_counts_frequency :
  forall (line : string) (w : World) (text : string)
         (rest : list (Category * string)) (delta : FASettings)
         (d : PyDecimal.Decimal),
    reset_on_the_next_read (ml w) = false ->
    preprocess_string line = Ok ((FREQUENCY, text) :: rest, delta) ->
    PyDecimal.of_str text = Ok d ->
    let after := ml (fst (add_string line w)) in
    let t := PyFloat.sub (clock w (clock_reads w)) (start_time (ml w)) in
    count after "frequency" = count (ml w) "frequency" + 1
    /\ latest_value after "frequency" = (Dec d, Flt t)
    /\ get_freq_list after "frequency"
       = Some ((map fst (frequencies (ml w)) ++ [d])%list,
               (map snd (frequencies (ml w)) ++ [t])%list).
Proof.
  intros line w text rest delta d H E D. cbv zeta.
  unfold count, latest_value, get_freq_list, _get_data.
  cbn [String.eqb Ascii.eqb Bool.eqb].
  rewrite (add_string_frequencies line w text rest delta d H E D).
  set (t := PyFloat.sub (clock w (clock_reads w)) (start_time (ml w))).
  destruct (frequencies (ml w)) as [|x l].
  - cbn. repeat split.
  - assert (L : last ((x :: l) ++ [(d, t)])%list x = (d, t))
      by apply last_last.
    cbn [app] in L |- *. rewrite L.
    cbn [map fst snd List.length]. rewrite !map_app, length_app.
    cbn [map fst snd List.length]. repeat split. lia.
Qed.

Lemma add_string_counts_frequency_witness :
  count (ml (fst (add_string stream_line
                    (fst (add_string stream_line example_world)))))
        "frequency"
  = count (ml (fst (add_string stream_line example_world))) "frequency" + 1.
Proof.
  apply (add_string_counts_frequency stream_line
           (fst (add_string stream_line example_world))
           "0010000000.001000" [(POWER, "+00129")] FASettings_init
           (PyDecimal.Finite false 10000000001000 (-6)));
    vm_compute; reflexivity.
Defined.

(** ** Grouping digits, continued *)

Lemma append_empty_r (s : string) : s ++ "" = s.
Proof. induction s as [|c s IH]; [reflexivity|]. cbn. now rewrite IH. Qed.

Lemma without_blanks_app (a b : string) :
  without_blanks (a ++ b) = without_blanks a ++ without_blanks b.
Proof.
  induction a as [|c a IH]; [reflexivity|].
  cbn [append without_blanks]. destruct (Ascii.eqb c " "); cbn; now rewrite IH.
Qed.

Lemma unbroken_app (a b : string) :
  unbroken (a ++ b) = unbroken a && unbroken b.
Proof.
  induction a as [|c a IH]; [reflexivity|].
  cbn [append unbroken]. now rewrite IH, andb_assoc.
Qed.

Lemma without_blanks_unbroken (s : string) :
  unbroken s = true -> without_blanks s = s.
Proof.
  induction s as [|c s IH]; [reflexivity|].
  cbn [unbroken without_blanks]. intros H.
  apply andb_true_iff in H as [H1 H2]. apply andb_true_iff in H1 as [H1 _].
  apply negb_true_iff in H1. now rewrite H1, (IH H2).
Qed.

Lemma rev_onto_twice (s : string) :
  forall acc acc' : string,
    PyStr.rev_onto acc' (PyStr.rev_onto acc s)
    = PyStr.rev_onto (s ++ acc') acc.
Proof.
  induction s as [|c s IH]; intros acc acc'; [reflexivity|].
  cbn [PyStr.rev_onto append]. now rewrite IH.
Qed.

Lemma reversed_involutive (s : string) :
  PyStr.reversed (PyStr.reversed s) = s.
Proof.
  unfold PyStr.reversed. rewrite rev_onto_twice. cbn. apply append_empty_r.
Qed.

Lemma without_blanks_rev_onto (s : string) :
  forall acc : string,
    without_blanks (PyStr.rev_onto acc s)
    = PyStr.rev_onto (without_blanks acc) (without_blanks s).
Proof.
  induction s as [|c s IH]; intros acc; [reflexivity|].
  cbn [PyStr.rev_onto without_blanks]. rewrite IH. cbn [without_blanks].
  destruct (Ascii.eqb c " "); reflexivity.
Qed.

Lemma unbroken_rev_onto (s : string) :
  forall acc : string,
    unbroken (PyStr.rev_onto acc s) = unbroken acc && unbroken s.
Proof.
  induction s as [|c s IH]; intros acc.
  - cbn. now rewrite andb_true_r.
  - cbn [PyStr.rev_onto unbroken]. rewrite IH. cbn [unbroken].
    destruct (negb (Ascii.eqb c " ") && negb (Ascii.eqb c newline)),
      (unbroken acc), (unbroken s); reflexivity.
Qed.

Lemma split_join (sep : ascii) (s : string) :
  PyStr.join (String sep "") (PyStr.split sep s) = s.
Proof.
  unfold PyStr.join. induction s as [|c r IH]; [reflexivity|].
  cbn [PyStr.split].
  destruct (PyStr.split sep r) as [|h t] eqn:E;
    [now destruct (split_not_nil sep r)|].
  set (sp := String sep "") in *.
  destruct (Ascii.eqb_spec c sep) as [->|N].
  - change (String.concat sp ("" :: h :: t))
      with ("" ++ sp ++ String.concat sp (h :: t)).
    now rewrite IH.
  - destruct t as [|x t].
    + cbn in *. now rewrite IH.
    + change (String.concat sp (String c h :: x :: t))
        with (String c (h ++ sp ++ String.concat sp (x :: t))).
      change (String.concat sp (h :: x :: t))
        with (h ++ sp ++ String.concat sp (x :: t)) in IH.
      now rewrite IH.
Qed.

Lemma take_chunk_spec (n : nat) :
  forall s : string,
    unbroken s = true ->
    fst (take_chunk n s) ++ snd (take_chunk n s) = s
    /\ unbroken (fst (take_chunk n s)) = true
    /\ unbroken (snd (take_chunk n s)) = true
    /\ (String.length (snd (take_chunk n s)) <= String.length s)%nat.
Proof.
  induction n as [|k IH]; intros s U.
  - destruct s; cbn; auto.
  - destruct s as [|c r]; [cbn; auto|].
    cbn [unbroken] in U. apply andb_true_iff in U as [Uc Ur].
    pose proof Uc as Uc'. apply andb_true_iff in Uc' as [_ Nl].
    apply negb_true_iff in Nl.
    cbn [take_chunk]. rewrite Nl.
    destruct (IH r Ur) as (A & B & C & D).
    destruct (take_chunk k r) as [h t]. cbn [fst snd] in *.
    cbn [append unbroken String.length]. rewrite A, B, C, Uc.
    repeat split; auto.
Qed.

Lemma without_blanks_join_cons (h : string) (l : list string) :
  without_blanks (PyStr.join " " (h :: l))
  = without_blanks h ++ without_blanks (PyStr.join " " l).
Proof.
  unfold PyStr.join. destruct l as [|x l].
  - cbn. now rewrite append_empty_r.
  - cbn [String.concat]. now rewrite !without_blanks_app.
Qed.

(** Joining the chunks of a text with blanks and taking the blanks out
    again gives the text, whatever the size of the chunks. *)
Lemma without_blanks_chunks (size : nat) (fuel : nat) :
  forall s : string,
    unbroken s = true -> (String.length s <= fuel)%nat ->
    without_blanks (PyStr.join " " (chunks fuel (S size) s)) = s.
Proof.
  induction fuel as [|f IH]; intros s U L.
  - destruct s; [reflexivity | cbn in L; lia].
  - destruct s as [|c r]; [reflexivity|].
    pose proof U as U'. cbn [unbroken] in U'.
    apply andb_true_iff in U' as [Uc Ur].
    pose proof Uc as Uc'. apply andb_true_iff in Uc' as [_ Nl].
    apply negb_true_iff in Nl.
    cbn [chunks]. rewrite Nl.
    cbn [take_chunk]. rewrite Nl.
    destruct (take_chunk_spec size r Ur) as (A & B & C & D).
    destruct (take_chunk size r) as [h t]. cbn [fst snd] in *.
    rewrite without_blanks_join_cons, IH.
    + rewrite without_blanks_unbroken; [cbn; now rewrite A|].
      cbn [unbroken]. now rewrite Uc, B.
    + exact C.
    + cbn [String.length] in L. lia.
Qed.

Lemma without_blanks_chunk_string (s : string) :
  unbroken s = true ->
  without_blanks (PyStr.join " " (chunk_string s 3)) = s.
Proof.
  intros U. unfold chunk_string. now apply without_blanks_chunks.
Qed.

Lemma unbroken_string_of_uint (u : Decimal.uint) :
  unbroken (NilEmpty.string_of_uint u) = true.
Proof.
  induction u; cbn [NilEmpty.string_of_uint unbroken]; rewrite ?IHu;
    reflexivity.
Qed.

Lemma unbroken_repeat_zero (n : nat) :
  unbroken (PyStr.repeat_char "0" n) = true.
Proof.
  induction n as [|n IH]; [reflexivity|].
  cbn [PyStr.repeat_char unbroken]. now rewrite IH.
Qed.

Lemma unbroken_substring (s : string) :
  forall n m : nat, unbroken s = true -> unbroken (substring n m s) = true.
Proof.
  induction s as [|c s IH]; intros n m U.
  - destruct n, m; reflexivity.
  - cbn [unbroken] in U. apply andb_true_iff in U as [Uc Us].
    destruct n as [|n]; [destruct m as [|m]|]; cbn [substring unbroken];
      [reflexivity | rewrite Uc; now apply IH | now apply IH].
Qed.

Lemma unbroken_slice (lo hi : option Z) (s : string) :
  unbroken s = true -> unbroken (PyStr.slice lo hi s) = true.
Proof. intros U. unfold PyStr.slice. now apply unbroken_substring. Qed.

Lemma unbroken_str_of_N (n : N) : unbroken (PyStr.str_of_N n) = true.
Proof. apply unbroken_string_of_uint. Qed.

Lemma unbroken_str_of_Z (z : Z) : unbroken (PyStr.str_of_Z z) = true.
Proof.
  destruct z; cbn [PyStr.str_of_Z]; [reflexivity | apply unbroken_str_of_N|].
  rewrite unbroken_app, unbroken_str_of_N. reflexivity.
Qed.

(** [str(d)] has neither a blank nor a line feed in it. *)
Lemma unbroken_to_str (d : PyDecimal.Decimal) :
  unbroken (PyDecimal.to_str d) = true.
Proof.
  unfold PyDecimal.to_str, PyDecimal.signed_str.
  destruct d as [s c e|s|s g p].
  - cbv zeta.
    repeat match goal with
           | |- context [if ?b then _ else _] => destruct b
           end;
      rewrite ?unbroken_app, ?unbroken_str_of_N, ?unbroken_str_of_Z,
        ?unbroken_repeat_zero, ?unbroken_slice
        by apply unbroken_str_of_N;
      reflexivity.
  - destruct s; reflexivity.
  - destruct s, g, (p =? 0)%N;
      rewrite ?unbroken_app, ?unbroken_str_of_N; reflexivity.
Qed.

(** X13: grouping only puts blanks in.  Where [group_spaces] returns for
    a decimal that is not a zero, taking the blanks out of its result
    gives [str] of the decimal back. *)
Theorem group_spaces_only_inserts_blanks :
  forall (d : PyDecimal.Decimal) (s : string),
    PyDecimal.is_zero d = false ->
    group_spaces d = Ok s ->
    without_blanks s = PyDecimal.to_str d.
Proof.
  intros d s Z. unfold group_spaces.
  destruct (PyDecimal.ne d (PyDecimal.of_int 0)) as [b|e] eqn:E;
    [|discriminate].
  apply ne_zero in E. rewrite Z in E. subst b. cbn [rbind negb].
  pose proof (split_join "." (PyDecimal.to_str d)) as J.
  pose proof (unbroken_to_str d) as U.
  destruct (PyStr.split "." (PyDecimal.to_str d)) as [|ip [|fp [|x l]]];
    try discriminate.
  intros [= <-].
  change (PyStr.join "." [ip; fp]) with (ip ++ "." ++ fp) in J.
  rewrite <- J in U |- *. rewrite !unbroken_app in U.
  apply andb_true_iff in U as [Ui U]. apply andb_true_iff in U as [_ Uf].
  rewrite !without_blanks_app.
  unfold PyStr.reversed at 1. rewrite without_blanks_rev_onto.
  rewrite without_blanks_chunk_string
    by (unfold PyStr.reversed; now rewrite unbroken_rev_onto).
  cbn [without_blanks append].
  change (Ascii.eqb "." " ") with false. cbv iota.
  rewrite (without_blanks_chunk_string fp Uf).
  fold (PyStr.reversed (PyStr.reversed ip)).
  now rewrite reversed_involutive.
Qed.

Lemma group_spaces_only_inserts_blanks_witness :
  group_spaces (PyDecimal.Finite false 10000000001000 (-6))
  = Ok "10 000 000.001 000"
  /\ without_blanks "10 000 000.001 000"
     = PyDecimal.to_str (PyDecimal.Finite false 10000000001000 (-6)).
Proof.
  split; [vm_compute; reflexivity|].
  apply (group_spaces_only_inserts_blanks
           (PyDecimal.Finite false 10000000001000 (-6))
           "10 000 000.001 000"); vm_compute; reflexivity.
Defined.

(** ** The commands, continued *)

(** X14: no two members of [Commands] have the same payload, so none is
    an alias of another; every payload begins with [$] and ends with [*];
    and the list of the members names each of the 47 once. *)
Theorem commands_have_distinct_payloads :
  (forall a b : Commands, value a = value b -> a = b)
  /\ (forall c : Commands,
         prefix "$" (value c) = true
         /\ PyStr.slice (Some (-1)) None (value c) = "*"
         /\ In c all_commands)
  /\ List.length all_commands = 47%nat
  /\ NoDup (map value all_commands).
Proof.
  assert (I : forall a b : Commands, value a = value b -> a = b).
  { intros a b. destruct a; destruct b; intros H; try reflexivity;
      discriminate H. }
  split; [exact I|]. split; [|split; [reflexivity|]].
  - intros c. destruct c; (split; [reflexivity|]);
      (split; [reflexivity|]); cbn; tauto.
  - unfold all_commands. cbn [map value].
    repeat (apply NoDup_cons;
            [cbn [In]; intros H;
             repeat (destruct H as [H|H]; [discriminate H|]); exact H|]).
    apply NoDup_nil.
Qed.

Lemma PyFloat_of_str_raises (s : string) (e : exn) :
  PyFloat.of_str s = Raise e -> e = ValueError.
Proof.
  unfold PyFloat.of_str.
  destruct (Numeral.drop_underscores s) as [t|]; [|now intros [= <-]].
  destruct (Numeral.take_sign _) as [neg r].
  destruct (Numeral.unsigned_decimal r) as [[m x]|]; [discriminate|].
  repeat match goal with
         | |- context [if ?b then _ else _] => destruct b
         end; try discriminate; now intros [= <-].
Qed.

Lemma PyFloat_to_int_raises (x : PyFloat.float) (e : exn) :
  PyFloat.to_int x = Raise e -> e = ValueError \/ e = OverflowError.
Proof.
  destruct x; cbn; try discriminate; intros [= <-]; auto.
Qed.

Lemma zfill_length (width : nat) (s : string) :
  String.length (PyStr.zfill width s)
  = Nat.max width (String.length s).
Proof.
  unfold PyStr.zfill. destruct s as [|c r].
  - rewrite repeat_char_length. cbn. lia.
  - destruct (_ || _); cbn [String.length];
      rewrite string_length_app, repeat_char_length; cbn [String.length];
      lia.
Qed.

Lemma digit_not_sign (c : ascii) :
  PyStr.isdigit c = true ->
  Ascii.eqb c "+" || Ascii.eqb c "-" = false.
Proof.
  destruct c as [[] [] [] [] [] [] [] []]; try discriminate; reflexivity.
Qed.

Lemma zfill_digits (width : nat) (s : string) :
  all_digits s = true -> all_digits (PyStr.zfill width s) = true.
Proof.
  intros D. unfold PyStr.zfill. destruct s as [|c r].
  - apply all_digits_zeros.
  - pose proof D as D'. cbn [all_digits] in D'.
    apply andb_true_iff in D' as [Dc _].
    rewrite (digit_not_sign c Dc), all_digits_app, all_digits_zeros.
    exact D.
Qed.

Lemma str_of_Z_length (n : Z) :
  0 <= n ->
  (n < 100000 -> (String.length (PyStr.str_of_Z n) <= 5)%nat)
  /\ (100000 <= n -> (5 < String.length (PyStr.str_of_Z n))%nat).
Proof.
  intros N. destruct n as [|p|p]; [cbn; lia | | lia].
  cbn [PyStr.str_of_Z].
  destruct (ndigits_bounds (Npos p)) as [[LO HI] ONE]; [discriminate|].
  unfold PyDecimal.ndigits in *. cbn [Z.of_N] in *.
  set (k := String.length (PyStr.str_of_N (Npos p))) in *.
  split; intros H.
  - destruct (Nat.le_gt_cases k 5) as [|G]; [assumption|exfalso].
    assert (10 ^ 5 <= 10 ^ (Z.of_nat k - 1))
      by (apply Z.pow_le_mono_r; lia).
    change (10 ^ 5) with 100000 in *. lia.
  - destruct (Nat.le_gt_cases k 5) as [L|]; [exfalso|assumption].
    assert (10 ^ Z.of_nat k <= 10 ^ 5) by (apply Z.pow_le_mono_r; lia).
    change (10 ^ 5) with 100000 in *. lia.
Qed.

(** X15: the builder of the gate time command raises nothing but
    [ValueError], for a text that is no number, and [OverflowError], for
    an infinity.  What it returns is [$A], the milliseconds and [*], never
    shorter than eight characters; it is eight characters, five digits
    between the two ends, when the milliseconds are from 0 to 99999, and
    longer than eight from 100000 on. *)
Theorem make_gate_time_command_frame :
  forall gatetime : string,
    match make_gate_time_command gatetime with
    | Ok command =>
        exists (x : PyFloat.float) (n : Z),
          PyFloat.of_str gatetime = Ok x
          /\ PyFloat.to_int
               (PyFloat.mul x (PyFloat.of_decimal false 1000 0)) = Ok n
          /\ command = "$A" ++ PyStr.zfill 5 (PyStr.str_of_Z n) ++ "*"
          /\ (8 <= String.length command)%nat
          /\ (0 <= n < 100000 ->
              String.length command = 8%nat
              /\ all_digits (PyStr.zfill 5 (PyStr.str_of_Z n)) = true)
          /\ (100000 <= n -> (8 < String.length command)%nat)
    | Raise e => e = ValueError \/ e = OverflowError
    end.
Proof.
  intros gatetime. unfold make_gate_time_command.
  destruct (PyFloat.of_str gatetime) as [x|e] eqn:X; cbn [rbind];
    [|left; exact (PyFloat_of_str_raises _ _ X)].
  replace (PyFloat.of_int 1000)
    with (Ok (PyFloat.of_decimal false 1000 0)) by (vm_compute; reflexivity).
  cbn [rbind].
  destruct (PyFloat.to_int _) as [n|e] eqn:N; cbn [rbind];
    [|exact (PyFloat_to_int_raises _ _ N)].
  exists x, n. split; [reflexivity|]. split; [exact N|].
  split; [reflexivity|].
  assert (L : String.length ("$A" ++ PyStr.zfill 5 (PyStr.str_of_Z n) ++ "*")
              = (3 + Nat.max 5 (String.length (PyStr.str_of_Z n)))%nat).
  { cbn [append String.length].
    rewrite string_length_app, zfill_length. cbn [String.length]. lia. }
  rewrite L. split; [lia|]. split.
  - intros [P Q]. destruct (str_of_Z_length n P) as [A _].
    specialize (A Q). split; [lia|].
    apply zfill_digits. destruct n as [|p|p]; [reflexivity | | lia].
    apply all_digits_string_of_uint.
  - intros P. destruct (str_of_Z_length n) as [_ B]; [lia|].
    specialize (B P). lia.
Qed.

(** ** The worker thread *)

Lemma endswith_spec (s suffix : string) :
  endswith s suffix = true <-> exists body : string, s = body ++ suffix.
Proof.
  split.
  - induction s as [|c r IH]; cbn [endswith]; intros H.
    + rewrite orb_false_r in H. apply String.eqb_eq in H. subst.
      now exists "".
    + apply orb_true_iff in H as [H|H].
      * apply String.eqb_eq in H. rewrite <- H. now exists "".
      * destruct (IH H) as [body ->]. now exists (String c body).
  - intros [body ->]. induction body as [|c body IH].
    + cbn [append]. destruct suffix; cbn [endswith];
        rewrite String.eqb_refl; reflexivity.
    + cbn [append endswith]. now rewrite IH, orb_true_r.
Qed.

Lemma texts_read_app (a b : list port_event) :
  texts_read (a ++ b)%list = texts_read a ++ texts_read b.
Proof.
  induction a as [|[| |] a IH]; cbn [app texts_read]; try exact IH.
  - reflexivity.
  - now rewrite IH, string_append_assoc.
Qed.

Lemma read_line_from_spec (events : list port_event) :
  forall buffer : string,
    exists used : list port_event,
      events = (used ++ snd (read_line_from buffer events))%list
      /\ match fst (read_line_from buffer events) with
         | Line line =>
             line = buffer ++ texts_read used
             /\ endswith line CRLF = true
             /\ used <> []
             /\ forall a b : list port_event,
                  used = (a ++ b)%list -> b <> [] ->
                  texts_read a <> "" ->
                  endswith (buffer ++ texts_read a) CRLF = false
         | SerialException message =>
             exists before : list port_event,
               used = (before ++ [Port_failure message])%list
         | Still_reading rest =>
             rest = buffer ++ texts_read used
             /\ snd (read_line_from buffer events) = []
         end.
Proof.
  induction events as [|ev events IH]; intros buffer.
  - exists []. cbn. now rewrite append_empty_r.
  - destruct ev as [|datastring|message].
    + cbn [read_line_from].
      destruct (IH buffer) as (used & E & H).
      exists (Nothing_waiting :: used). split; [cbn; now rewrite <- E|].
      destruct (fst (read_line_from buffer events)).
      * destruct H as (A & B & C & D).
        split; [exact A|]. split; [exact B|]. split; [discriminate|].
        intros a b Hab Hb Ha. destruct a as [|x a].
        -- now contradiction Ha.
        -- injection Hab as <- ->. cbn [texts_read] in *.
           now apply (D a b).
      * destruct H as [before ->]. now exists (Nothing_waiting :: before).
      * exact H.
    + cbn [read_line_from].
      destruct (PyStr.is_empty datastring) eqn:Em.
      * destruct datastring; [|discriminate].
        destruct (IH buffer) as (used & E & H).
        exists (Read "" :: used). split; [cbn; now rewrite <- E|].
        destruct (fst (read_line_from buffer events)).
        -- destruct H as (A & B & C & D).
           split; [exact A|]. split; [exact B|]. split; [discriminate|].
           intros a b Hab Hb Ha. destruct a as [|x a].
           ++ now contradiction Ha.
           ++ injection Hab as <- ->. cbn [texts_read append] in *.
              now apply (D a b).
        -- destruct H as [before ->]. now exists (Read "" :: before).
        -- exact H.
      * cbv zeta. destruct (endswith (buffer ++ datastring) CRLF) eqn:En.
        -- exists [Read datastring]. cbn [fst snd app texts_read].
           rewrite append_empty_r.
           split; [reflexivity|]. split; [reflexivity|].
           split; [exact En|]. split; [discriminate|].
           intros a b Hab Hb Ha. destruct a as [|x a].
           ++ now contradiction Ha.
           ++ injection Hab as _ Hab.
              destruct a; [|discriminate].
              cbn in Hab. now subst b.
        -- destruct (IH (buffer ++ datastring)) as (used & E & H).
           exists (Read datastring :: used).
           split; [cbn; now rewrite <- E|].
           destruct (fst (read_line_from (buffer ++ datastring) events)).
           ++ destruct H as (A & B & C & D).
              cbn [texts_read]. rewrite <- string_append_assoc.
              split; [exact A|]. split; [exact B|]. split; [discriminate|].
              intros a b Hab Hb Ha. destruct a as [|x a].
              ** now contradiction Ha.
              ** injection Hab as <- ->. cbn [texts_read].
                 rewrite <- string_append_assoc.
                 destruct (string_dec (texts_read a) "") as [Z|NZ].
                 --- now rewrite Z, append_empty_r.
                 --- now apply (D a b).
           ++ destruct H as [before ->].
              now exists (Read datastring :: before).
           ++ cbn [texts_read]. now rewrite <- string_append_assoc.
    + exists [Port_failure message]. cbn. split; [reflexivity|].
      now exists [].
Qed.

(** X16: a line that [read_line] returns is whole.  It is the texts read,
    joined in their order with nothing dropped and nothing added, up to
    the first read after which they end with CR LF: it ends with CR LF, and
    no earlier read left the texts ending so.  The events after it are
    left for the next call. *)
Theorem read_line_returns_whole_lines :
  forall (events rest : list port_event) (line : string),
    read_line events = (Line line, rest) ->
    exists (used : list port_event) (body : string),
      events = (used ++ rest)%list
      /\ line = texts_read used
      /\ line = body ++ CRLF
      /\ used <> []
      /\ forall a b : list port_event,
           used = (a ++ b)%list -> b <> [] ->
           endswith (texts_read a) CRLF = false.
Proof.
  intros events rest line H. unfold read_line in H.
  destruct (read_line_from_spec events "") as (used & E & S).
  rewrite H in E, S. cbn [fst snd] in E, S.
  destruct S as (A & B & C & D).
  apply endswith_spec in B as [body B].
  exists used, body. cbn [append] in A.
  split; [exact E|]. split; [exact A|]. split; [exact B|].
  split; [exact C|].
  intros a b Hab Hb.
  destruct (string_dec (texts_read a) "") as [Z|NZ].
  - rewrite Z. reflexivity.
  - exact (D a b Hab Hb NZ).
Qed.

Lemma read_line_returns_whole_lines_witness :
  exists (used : list port_event) (body : string),
    [Read "$A0010000000.001"; Nothing_waiting; Read "000001,+00129,";
     Read CRLF; Read "$A"]
    = (used ++ [Read "$A"])%list
    /\ stream_line ++ CRLF = texts_read used
    /\ stream_line ++ CRLF = body ++ CRLF
    /\ used <> []
    /\ forall a b : list port_event,
         used = (a ++ b)%list -> b <> [] ->
         endswith (texts_read a) CRLF = false.
Proof.
  apply (read_line_returns_whole_lines
           [Read "$A0010000000.001"; Nothing_waiting; Read "000001,+00129,";
            Read CRLF; Read "$A"]
           [Read "$A"] (stream_line ++ CRLF)).
  vm_compute. reflexivity.
Defined.








(** ** The window *)

Lemma prefix_dollar (c : ascii) (r : string) :
  prefix "$" (String c r) = Ascii.eqb c "$".
Proof.
  cbn [prefix]. destruct (ascii_dec "$" c) as [<-|N].
  - now rewrite prefix_empty_left.
  - destruct (Ascii.eqb_spec c "$"); [now subst|reflexivity].
Qed.

Lemma firstn_plus {A : Type} (a b : nat) (l : list A) :
  firstn (a + b) l = (firstn a l ++ firstn b (skipn a l))%list.
Proof.
  revert l. induction a as [|a IH]; intros l; [reflexivity|].
  destruct l as [|x l]; [now destruct b|].
  cbn [Nat.add firstn skipn app]. now rewrite IH.
Qed.

Lemma skipn_plus {A : Type} (a b : nat) (l : list A) :
  skipn b (skipn a l) = skipn (a + b) l.
Proof.
  revert l. induction a as [|a IH]; intros l; [reflexivity|].
  destruct l as [|x l]; [now destruct b|]. cbn [Nat.add skipn]. apply IH.
Qed.

Lemma firstn_within {A : Type} (k : nat) (l m : list A) :
  (k <= List.length l)%nat -> firstn k (l ++ m) = firstn k l.
Proof.
  revert l. induction k as [|k IH]; intros l L; [reflexivity|].
  destruct l as [|x l]; [cbn in L; lia|].
  cbn [app firstn]. rewrite IH; [reflexivity | cbn in L; lia].
Qed.

Lemma skipn_within {A : Type} (k : nat) (l m : list A) :
  (k <= List.length l)%nat -> skipn k (l ++ m) = (skipn k l ++ m)%list.
Proof.
  revert l. induction k as [|k IH]; intros l L; [reflexivity|].
  destruct l as [|x l]; [cbn in L; lia|].
  cbn [app skipn]. apply IH. cbn in L. lia.
Qed.

Lemma read_data_from_thread_step (serial_data : string) (win : Window) :
  let win1 := fst (read_data_from_thread serial_data win) in
  let offered :=
    (command_queue (ui win)
     ++ queries_queued (get_FA_settings win) (get_FA_settings win1))%list in
  is_serial_port_established (ui win1)
  = is_serial_port_established (ui win)
  /\ (get_FA_settings win1 = true -> get_FA_settings win = true)
  /\ exists k : nat,
       (k <= if releases_a_command serial_data then 1 else 0)%nat
       /\ (k <= List.length offered)%nat
       /\ command_queue (ui win1) = skipn k offered
       /\ serial_written (ui win1)
          = (serial_written (ui win)
             ++ if is_serial_port_established (ui win)
                then map wire_text (firstn k offered) else [])%list.
Proof.
  cbv zeta. unfold read_data_from_thread, releases_a_command.
  destruct (PyStr.contains "ERROR_SERIAL_EXCEPTION" serial_data).
  { cbn [fst ui get_FA_settings print_message_on_screen command_queue
         serial_written is_serial_port_established negb andb].
    split; [reflexivity|]. split; [auto|]. exists 0%nat.
    unfold queries_queued. rewrite andb_negb_r, !app_nil_r.
    cbn [firstn skipn map]. destruct (is_serial_port_established (ui win));
      rewrite ?app_nil_r; repeat split; lia. }
  destruct (is_serial_port_established (ui win)) eqn:Est.
  2:{ cbn [fst]. rewrite Est. split; [reflexivity|]. split; [auto|].
      exists 0%nat. unfold queries_queued.
      rewrite andb_negb_r, !app_nil_r. cbn [firstn skipn].
      repeat split; lia. }
  cbv zeta. cbn [get_FA_settings ui status_label negb andb].
  set (u1 := if get_FA_settings win
             then mkWindow
                    (send_to_command_buffer (Member GET_GATE_TIME_SETTING)
                       (send_to_command_buffer
                          (Member GET_FREQ_POWER_SETTINGS) (ui win)))
                    false "CONNECTED!"
             else mkWindow (ui win) (get_FA_settings win) "CONNECTED!").
  assert (Q : command_queue (ui u1)
              = (command_queue (ui win)
                 ++ queries_queued (get_FA_settings win)
                                   (get_FA_settings u1))%list
              /\ serial_written (ui u1) = serial_written (ui win)
              /\ is_serial_port_established (ui u1) = true
              /\ (get_FA_settings u1 = true -> get_FA_settings win = true)).
  { subst u1. unfold queries_queued.
    destruct (get_FA_settings win);
      cbn [ui get_FA_settings send_to_command_buffer command_queue
           serial_written is_serial_port_established andb negb];
      rewrite <- ?app_assoc, ?app_nil_r; repeat split; auto. }
  clearbody u1. destruct Q as (Q1 & Q2 & Q3 & Q4).
  destruct serial_data as [|first r].
  { cbn [fst]. rewrite Q3. split; [reflexivity|]. split; [exact Q4|].
    exists 0%nat. cbn [firstn skipn map]. rewrite app_nil_r.
    repeat split; auto; lia. }
  rewrite prefix_dollar.
  set (go := Ascii.eqb first "$"
             || String.eqb
                  (PyStr.slice (Some (-4)) (Some (-2)) (String first r))
                  "OK").
  assert (S : exists k : nat,
             (k <= if go then 1 else 0)%nat
             /\ (k <= List.length (command_queue (ui u1)))%nat
             /\ command_queue
                  (ui (if go
                       then mkWindow (send_command "" (ui u1))
                                     (get_FA_settings u1) (status_label u1)
                       else u1))
                = skipn k (command_queue (ui u1))
             /\ serial_written
                  (ui (if go
                       then mkWindow (send_command "" (ui u1))
                                     (get_FA_settings u1) (status_label u1)
                       else u1))
                = (serial_written (ui u1)
                   ++ map wire_text (firstn k (command_queue (ui u1))))%list
             /\ is_serial_port_established
                  (ui (if go
                       then mkWindow (send_command "" (ui u1))
                                     (get_FA_settings u1) (status_label u1)
                       else u1)) = true
             /\ get_FA_settings
                  (if go
                   then mkWindow (send_command "" (ui u1))
                                 (get_FA_settings u1) (status_label u1)
                   else u1) = get_FA_settings u1).
  { destruct go.
    - cbn [ui get_FA_settings].
      destruct (command_queue (ui u1)) as [|c rest] eqn:Qu.
      + exists 0%nat. rewrite (send_command_empty (ui u1) Qu).
        cbn. rewrite app_nil_r. repeat split; auto.
      + destruct (send_command_nonempty c rest (ui u1) Qu)
          as (A & _ & B & C).
        exists 1%nat. rewrite A, B, C, Q3. cbn. repeat split; auto; lia.
    - exists 0%nat. cbn [firstn skipn map]. rewrite app_nil_r.
      repeat split; auto; lia. }
  set (u2 := if go
             then mkWindow (send_command "" (ui u1)) (get_FA_settings u1)
                           (status_label u1)
             else u1) in *.
  clearbody u2. destruct S as (k & K1 & K2 & S1 & S2 & S3 & S4).
  assert (F : get_FA_settings
                (fst (if Ascii.eqb first "$" then (u2, Slot_returns)
                      else (mkWindow
                              (append_to_data_textEdit_all
                                 (PyStr.strip (String first r)) (ui u2))
                              (get_FA_settings u2) (status_label u2),
                            Slot_returns)))
              = get_FA_settings u1).
  { destruct (Ascii.eqb first "$"); exact S4. }
  rewrite F.
  destruct (Ascii.eqb first "$");
    cbn [fst ui get_FA_settings append_to_data_textEdit_all command_queue
         serial_written is_serial_port_established];
    (split; [exact S3|]); (split; [exact Q4|]);
    exists k; rewrite <- Q1, S1, S2, Q2; repeat split; auto.
Qed.

Lemma receive_all_paced (texts : list string) :
  forall win : Window,
    let win' := receive_all texts win in
    let offered :=
      (command_queue (ui win)
       ++ queries_queued (get_FA_settings win) (get_FA_settings win'))%list in
    is_serial_port_established (ui win')
    = is_serial_port_established (ui win)
    /\ (get_FA_settings win' = true -> get_FA_settings win = true)
    /\ exists k : nat,
         (k <= List.length (filter releases_a_command texts))%nat
         /\ (k <= List.length offered)%nat
         /\ command_queue (ui win') = skipn k offered
         /\ serial_written (ui win')
            = (serial_written (ui win)
               ++ if is_serial_port_established (ui win)
                  then map wire_text (firstn k offered) else [])%list.
Proof.
  induction texts as [|serial_data rest IH]; intros win; cbv zeta.
  - cbn [receive_all filter List.length]. split; [reflexivity|].
    split; [auto|]. exists 0%nat. unfold queries_queued.
    rewrite andb_negb_r, !app_nil_r. cbn [firstn skipn map].
    destruct (is_serial_port_established (ui win)); rewrite ?app_nil_r;
      repeat split; lia.
  - pose proof (read_data_from_thread_step serial_data win) as S.
    cbv zeta in S. cbn [receive_all filter].
    destruct (read_data_from_thread serial_data win) as [win1 r].
    cbn [fst] in S. destruct S as (E1 & M1 & k1 & A1 & B1 & C1 & D1).
    assert (G : (k1 <= List.length (filter releases_a_command
                                           (serial_data :: rest)))%nat).
    { cbn [filter]. destruct (releases_a_command serial_data);
        cbn [List.length]; lia. }
    cbn [filter] in G.
    destruct r.
    + destruct (IH win1) as (E2 & M2 & k2 & A2 & B2 & C2 & D2).
      cbv zeta in *.
      set (win' := receive_all rest win1) in *.
      split; [congruence|]. split; [auto|].
      set (o1 := (command_queue (ui win)
                  ++ queries_queued (get_FA_settings win)
                                    (get_FA_settings win1))%list) in *.
      set (i2 := queries_queued (get_FA_settings win1)
                                (get_FA_settings win')) in *.
      assert (T : (command_queue (ui win)
                   ++ queries_queued (get_FA_settings win)
                                     (get_FA_settings win'))%list
                  = (o1 ++ i2)%list).
      { subst o1 i2. unfold queries_queued.
        destruct (get_FA_settings win), (get_FA_settings win1),
          (get_FA_settings win');
          cbn [andb negb]; rewrite ?app_nil_r; try reflexivity;
          try (now (specialize (M2 eq_refl)));
          try (now (specialize (M1 eq_refl))). }
      rewrite T. exists (k1 + k2)%nat.
      rewrite C1, <- (skipn_within k1 o1 i2 B1) in C2, B2, D2.
      rewrite length_skipn in B2.
      split.
      { destruct (releases_a_command serial_data); cbn [List.length] in *;
          lia. }
      split; [rewrite length_app in *; lia|].
      split; [now rewrite <- skipn_plus|].
      rewrite D2, D1, E1, firstn_plus, (firstn_within k1 o1 i2 B1).
      destruct (is_serial_port_established (ui win));
        rewrite ?app_nil_r; [|reflexivity].
      now rewrite map_app, app_assoc.
    + split; [exact E1|]. split; [exact M1|].
      exists k1. repeat split; auto.
Qed.

(** X18: the window sends a command only when a line from the device
    lets it.  Over any run of emitted texts, with the port established or
    not: what it has written is, in their order, the first commands of
    what was queued followed by the two queries of the settings, if it
    queued them; what is still queued is the rest; it has written no more
    commands than there were texts that begin with [$] or have [OK]
    before their last two characters; and it queues the two queries at
    most once, clearing the flag that asks for them. *)
Theorem received_lines_pace_the_commands :
  forall (texts : list string) (win : Window),
    let win' := receive_all texts win in
    let offered :=
      (command_queue (ui win)
       ++ queries_queued (get_FA_settings win) (get_FA_settings win'))%list in
    (get_FA_settings win' = true -> get_FA_settings win = true)
    /\ exists k : nat,
         (k <= List.length (filter releases_a_command texts))%nat
         /\ command_queue (ui win') = skipn k offered
         /\ serial_written (ui win')
            = (serial_written (ui win)
               ++ if is_serial_port_established (ui win)
                  then map wire_text (firstn k offered) else [])%list.
Proof.
  intros texts win.
  destruct (receive_all_paced texts win) as (_ & M & k & A & _ & C & D).
  cbv zeta in *. split; [exact M|]. exists k. now repeat split.
Qed.

(** X19: what [update_gui_settings] leaves on the buttons.  A channel
    that is one of the three known makes its button green and clears the
    other two, any other leaves the three as they were; the button of the
    low pass filter is green exactly when the filter is on.  The button
    of the precision mode is green exactly when the precision mode and the
    50 ohm input are both on, whatever its text says, because the branch
    for the 1 Mohm input clears the style of that button; and the style of
    the impedance button is set to green with the 50 ohm input and is
    never cleared. *)
Theorem update_gui_settings_styles :
  forall (settings : FASettings) (b : Buttons),
    let b' := update_gui_settings settings b in
    (button_command_precision b'
     = if truthy (precision settings) && truthy (imp50 settings)
       then green else "")
    /\ (button_command_precision_text b'
        = if truthy (precision settings)
          then "Precision is ON" else "Precision is OFF")
    /\ (button_command_impedance b'
        = if truthy (imp50 settings)
          then green else button_command_impedance b)
    /\ (button_command_lpf b' = if truthy (lpf settings) then green else "")
    /\ ((button_command_ch1 b', button_command_ch2 b',
         button_command_intosc b')
        = if channel_is settings "Channel: 1" then (green, "", "")
          else if channel_is settings "Channel: 2" then ("", green, "")
          else if channel_is settings "Channel: Internal Clock"
               then ("", "", green)
          else (button_command_ch1 b, button_command_ch2 b,
                button_command_intosc b)).
Proof.
  intros settings b. cbv zeta. unfold update_gui_settings, channel_is.
  destruct (channel settings) as [c|].
  - destruct (String.eqb_spec c "Channel: 1") as [->|N1];
      [|destruct (String.eqb_spec c "Channel: 2") as [->|N2];
        [|destruct (String.eqb_spec c "Channel: Internal Clock")
            as [->|N3]]];
      cbn [String.eqb Ascii.eqb Bool.eqb];
      destruct (truthy (precision settings)), (truthy (imp50 settings)),
        (truthy (lpf settings)), (truthy (ext_reference_osc settings));
      repeat split.
  - destruct (truthy (precision settings)), (truthy (imp50 settings)),
      (truthy (lpf settings)), (truthy (ext_reference_osc settings));
      repeat split.
Qed.

(** ** Blanks at the ends of a line *)

Lemma lstrip_all_space_app (a s : string) :
  all_space a = true -> PyStr.lstrip (a ++ s) = PyStr.lstrip s.
Proof.
  induction a as [|c a IH]; [reflexivity|]. cbn [all_space append].
  intros H. apply andb_true_iff in H as [Hc Ha].
  cbn [PyStr.lstrip]. rewrite Hc. now apply IH.
Qed.

Lemma lstrip_all_space (a : string) :
  all_space a = true -> PyStr.lstrip a = "".
Proof.
  intros H. rewrite <- (append_empty_r a).
  now rewrite lstrip_all_space_app.
Qed.

Lemma strip_app_space (s b : string) :
  all_space b = true -> PyStr.strip (s ++ b) = PyStr.strip s.
Proof.
  intros Hb. unfold PyStr.strip. induction s as [|c s IH].
  - cbn [append]. now rewrite lstrip_all_space.
  - cbn [append PyStr.lstrip]. destruct (PyStr.isspace c); [exact IH|].
    exact (rstrip_app_space (String c s) b Hb).
Qed.

Lemma strip_outer_blanks (a s b : string) :
  all_space a = true -> all_space b = true ->
  PyStr.strip (a ++ s ++ b) = PyStr.strip s.
Proof.
  intros Ha Hb. unfold PyStr.strip at 1.
  rewrite (lstrip_all_space_app a (s ++ b) Ha).
  exact (strip_app_space s b Hb).
Qed.

Lemma preprocess_string_of_strip (line line' : string) :
  PyStr.strip line = PyStr.strip line' ->
  preprocess_string line = preprocess_string line'.
Proof. intros H. unfold preprocess_string. now rewrite H. Qed.

(** Two worlds that differ in the raw lines of the log at most. *)
Lemma store_all_same_samples (timestamp : PyFloat.float)
  (ms : list (Category * string)) :
  forall w1 w2 : World,
    frequencies (ml w1) = frequencies (ml w2) ->
    power (ml w1) = power (ml w2) ->
    stdout w1 = stdout w2 ->
    frequencies (ml (fst (store_all timestamp ms w1)))
    = frequencies (ml (fst (store_all timestamp ms w2)))
    /\ power (ml (fst (store_all timestamp ms w1)))
       = power (ml (fst (store_all timestamp ms w2)))
    /\ stdout (fst (store_all timestamp ms w1))
       = stdout (fst (store_all timestamp ms w2))
    /\ snd (store_all timestamp ms w1) = snd (store_all timestamp ms w2).
Proof.
  induction ms as [|[category text] rest IH]; intros w1 w2 F P O.
  - now repeat split.
  - destruct (PyDecimal.of_str text) as [d|e] eqn:D.
    + destruct category.
      * destruct (PyDecimal.div d (PyDecimal.of_int 10)) as [q|e] eqn:Q.
        -- rewrite !(store_power timestamp text d q rest _ D Q).
           apply IH; cbn; congruence.
        -- rewrite !store_all_cons.
           unfold try_except_InvalidOperation, store_measurement, bind, lift,
             modify_ml, print.
           cbn [fst snd]. rewrite D, Q.
           destruct (div_ten_raises d e Q) as [-> | ->].
           ++ apply IH; cbn; congruence.
           ++ cbn. now repeat split.
      * rewrite !(store_frequency timestamp text d rest _ D).
        apply IH; cbn; congruence.
      * rewrite !store_all_cons.
        unfold try_except_InvalidOperation, store_measurement, bind, lift,
          ret.
        cbn [fst snd]. rewrite D. now apply IH.
    + rewrite !(store_malformed timestamp category text rest _)
        by (now rewrite D).
      apply IH; cbn; congruence.
Qed.

(** X20: blanks at the ends of a line count for nothing but the raw
    text that is kept.  A line with blanks, tabs or line ends put before
    and after it decodes as the line itself; and appending the one or the
    other to a log gives the same frequencies, the same powers, the same
    settings and the same outcome. *)
Theorem blanks_at_the_ends_do_not_matter :
  forall (before line after : string) (w : World),
    all_space before = true -> all_space after = true ->
    let padded := before ++ line ++ after in
    preprocess_string padded = preprocess_string line
    /\ snd (add_string padded w) = snd (add_string line w)
    /\ frequencies (ml (fst (add_string padded w)))
       = frequencies (ml (fst (add_string line w)))
    /\ power (ml (fst (add_string padded w)))
       = power (ml (fst (add_string line w)))
    /\ latest_settings (ml (fst (add_string padded w)))
       = latest_settings (ml (fst (add_string line w))).
Proof.
  intros before line after w Hb Ha. cbv zeta.
  pose proof (preprocess_string_of_strip _ _
                (strip_outer_blanks before line after Hb Ha)) as E.
  split; [exact E|].
  rewrite !add_string_settings, E.
  destruct (preprocess_string line) as [[ms delta]|e] eqn:P.
  - rewrite (add_string_decodes _ w ms delta E),
      (add_string_decodes line w ms delta P).
    destruct (store_all_same_samples (timestamp_at_decoding w) ms
                (world_with_line (before ++ line ++ after) delta w)
                (world_with_line line delta w))
      as (F & Q & _ & R); try reflexivity.
    now repeat split.
  - rewrite (add_string_raises _ w e E), (add_string_raises line w e P).
    now repeat split.
Qed.

Lemma blanks_at_the_ends_do_not_matter_witness :
  preprocess_string (" " ++ stream_line ++ CRLF)
  = preprocess_string stream_line
  /\ frequencies (ml (fst (add_string (" " ++ stream_line ++ CRLF)
                                      example_world)))
     = frequencies (ml (fst (add_string stream_line example_world))).
Proof.
  destruct (blanks_at_the_ends_do_not_matter " " stream_line CRLF
              example_world) as (A & _ & B & _);
    [reflexivity | reflexivity |].
  split; assumption.
Defined.

(** ** Which reply changes which setting *)

Lemma preprocess_string_frame (line : string)
  (ms : list (Category * string)) (delta : FASettings) :
  preprocess_string line = Ok (ms, delta) ->
  let last3 := PyStr.slice (Some (-3)) None (PyStr.strip line) in
  (last3 <> "AOK" -> last3 <> "GOK" -> gate_time delta = 0)
  /\ (last3 <> "DOK" ->
      channel delta = None /\ imp50 delta = None
      /\ precision delta = None /\ ext_reference_osc delta = None)
  /\ (last3 <> "DOK" -> last3 <> "EOK" -> last3 <> "COK" ->
      lpf delta = None).
Proof.
  unfold preprocess_string. cbv zeta.
  set (last3 := PyStr.slice (Some (-3)) None (PyStr.strip line)).
  assert (K : forall d : FASettings,
             ("AOK" = last3 \/ "GOK" = last3 \/ gate_time d = 0) ->
             ("DOK" = last3
              \/ (channel d = None /\ imp50 d = None
                  /\ precision d = None /\ ext_reference_osc d = None)) ->
             ("DOK" = last3 \/ "EOK" = last3 \/ "COK" = last3
              \/ lpf d = None) ->
             (last3 <> "AOK" -> last3 <> "GOK" -> gate_time d = 0)
             /\ (last3 <> "DOK" ->
                 channel d = None /\ imp50 d = None
                 /\ precision d = None /\ ext_reference_osc d = None)
             /\ (last3 <> "DOK" -> last3 <> "EOK" -> last3 <> "COK" ->
                 lpf d = None)).
  { intros d G D L. split; [|split].
    - intros N1 N2. destruct G as [G|[G|G]]; congruence.
    - intros N. destruct D as [D|D]; [congruence | exact D].
    - intros N1 N2 N3. destruct L as [L|[L|[L|L]]]; congruence. }
  destruct (PyStr.contains "OK" (PyStr.strip line)).
  - destruct (PyStr.contains "POK" (PyStr.strip line)).
    { intros [= <- <-]. apply K; cbn; auto 6. }
    destruct (String.eqb_spec "AOK" last3) as [A|A]; cbn [orb].
    { destruct (Numeral.int_of_str _) as [g|e]; cbn [rbind];
        [|discriminate].
      intros [= <- <-]. apply K; cbn; auto 6. }
    destruct (String.eqb_spec "GOK" last3) as [G|G]; cbn [orb].
    { destruct (Numeral.int_of_str _) as [g|e]; cbn [rbind];
        [|discriminate].
      intros [= <- <-]. apply K; cbn; auto 6. }
    destruct (String.eqb_spec "DOK" last3) as [D|D].
    { intros [= <- <-]. apply K; cbn; auto 6. }
    destruct (String.eqb_spec "EOK" last3) as [E|E].
    { destruct (String.eqb "LPF" _); intros [= <- <-];
        apply K; cbn; auto 6. }
    destruct (String.eqb_spec "COK" last3) as [C|C].
    { destruct (String.eqb "LPF" _); intros [= <- <-];
        apply K; cbn; auto 6. }
    intros [= <- <-]. apply K; cbn; auto 6.
  - repeat match goal with
           | |- context [if ?b then _ else _] => destruct b
           end; intros [= <- <-]; apply K; cbn; auto 6.
Qed.

(** X21: a reply changes only the settings of its kind.  Whatever
    [add_string] is given, and whether it returns or raises: the gate
    time of the log changes only on a line that, without the blanks at
    its ends, ends in [AOK] or [GOK]; the channel, the impedance, the
    precision mode and the reference change only on one that ends in
    [DOK]; and the low pass filter only on one that ends in [DOK], [EOK]
    or [COK]. *)
Theorem replies_change_only_their_settings :
  forall (line : string) (w : World),
    let last3 := PyStr.slice (Some (-3)) None (PyStr.strip line) in
    let before := latest_settings (ml w) in
    let after := latest_settings (ml (fst (add_string line w))) in
    (last3 <> "AOK" -> last3 <> "GOK" -> gate_time after = gate_time before)
    /\ (last3 <> "DOK" ->
        channel after = channel before /\ imp50 after = imp50 before
        /\ precision after = precision before
        /\ ext_reference_osc after = ext_reference_osc before)
    /\ (last3 <> "DOK" -> last3 <> "EOK" -> last3 <> "COK" ->
        lpf after = lpf before).
Proof.
  intros line w. cbv zeta. rewrite add_string_settings.
  destruct (preprocess_string line) as [[ms delta]|e] eqn:P;
    [|now repeat split].
  destruct (preprocess_string_frame line ms delta P) as (G & D & L).
  cbv zeta in G, D, L. rewrite update_settings_is_merge.
  destruct (latest_settings (ml w)) as [c i p e l g],
    delta as [c' i' p' e' l' g'].
  unfold merge, overwrite_if_present. cbn in *.
  split; [|split].
  - intros A B. now rewrite (G A B).
  - intros N. destruct (D N) as (-> & -> & -> & ->). now repeat split.
  - intros N1 N2 N3. now rewrite (L N1 N2 N3).
Qed.
